(** * 3d-ascii-effects: pattern shader, fluid passes and frame callbacks

    A shallow embedding of the GLSL fragment shaders and of the per-frame
    render callbacks of [CardAsciiPattern.tsx] and [Card3DAscii.tsx].

    GLSL [float] values are modelled as exact rationals ([Q]); rounding of
    the GPU's floating point is not modelled.  The GLSL built-ins that have
    no rational value ([pow], [sin], [exp], [sqrt]) are an interface the
    development is parametric in. *)

From Stdlib Require Import QArith Qround Qminmax Qabs ZArith List Bool Lia Lqa.
Import ListNotations.
Local Open Scope Q_scope.

(** ** GLSL scalars, vectors and built-ins *)

Module Glsl.

(** Comparisons of the shading language, as decidable tests. *)
Definition ltb (x y : Q) : bool := negb (Qle_bool y x).
Definition gtb (x y : Q) : bool := ltb y x.
Definition geb (x y : Q) : bool := Qle_bool y x.

(** [clamp], [mix], [floor], [mod], [smoothstep] as the GLSL specification
    defines them. *)
Definition clamp (x lo hi : Q) : Q := Qmin (Qmax x lo) hi.
Definition mix (x y a : Q) : Q := x * (1 - a) + y * a.
Definition floor (x : Q) : Q := inject_Z (Qfloor x).
Definition fmod (x y : Q) : Q := x - y * floor (x / y).
Definition smoothstep (edge0 edge1 x : Q) : Q :=
  let t := clamp ((x - edge0) / (edge1 - edge0)) 0 1 in
  t * t * (3 - 2 * t).

(** Integer [clamp], [min] and [max] (GLSL [int]). *)
Definition iclamp (i lo hi : Z) : Z := Z.min (Z.max i lo) hi.

Record vec2 := V2 { vx : Q; vy : Q }.
Record vec3 := V3 { cr : Q; cg : Q; cb : Q }.
Record vec4 := V4 { c4r : Q; c4g : Q; c4b : Q; c4a : Q }.

Definition rgb (c : vec4) : vec3 := V3 (c4r c) (c4g c) (c4b c).
Definition xy (c : vec4) : vec2 := V2 (c4r c) (c4g c).
Definition vec4_of (c : vec3) (alpha : Q) : vec4 := V4 (cr c) (cg c) (cb c) alpha.
Definition splat3 (s : Q) : vec3 := V3 s s s.

Definition map3 (f : Q -> Q) (c : vec3) : vec3 := V3 (f (cr c)) (f (cg c)) (f (cb c)).
Definition zip3 (f : Q -> Q -> Q) (c d : vec3) : vec3 :=
  V3 (f (cr c) (cr d)) (f (cg c) (cg d)) (f (cb c) (cb d)).
Definition map4 (f : Q -> Q) (c : vec4) : vec4 :=
  V4 (f (c4r c)) (f (c4g c)) (f (c4b c)) (f (c4a c)).
Definition zip4 (f : Q -> Q -> Q) (c d : vec4) : vec4 :=
  V4 (f (c4r c) (c4r d)) (f (c4g c) (c4g d)) (f (c4b c) (c4b d)) (f (c4a c) (c4a d)).

Definition mix3 (c d : vec3) (a : Q) : vec3 := zip3 (fun x y => mix x y a) c d.
Definition mix4 (c d : vec4) (a : Q) : vec4 := zip4 (fun x y => mix x y a) c d.
Definition dot2 (p q : vec2) : Q := vx p * vx q + vy p * vy q.
Definition dot3 (c d : vec3) : Q := cr c * cr d + cg c * cg d + cb c * cb d.

(** Component-wise equality up to equality of rationals. *)
Definition eq3 (c d : vec3) : Prop := cr c == cr d /\ cg c == cg d /\ cb c == cb d.
Definition in_unit (x : Q) : Prop := 0 <= x <= 1.
Definition in_unit3 (c : vec3) : Prop := in_unit (cr c) /\ in_unit (cg c) /\ in_unit (cb c).

(** The built-ins without a rational value. *)
Class Builtins := {
  pow : Q -> Q -> Q;
  sin : Q -> Q;
  exp : Q -> Q;
  sqrt : Q -> Q
}.

(** A texture, seen through its sampler: [texture2D(t, uv)] is [t uv]. *)
Definition sampler2D := vec2 -> vec4.
Definition texture2D (t : sampler2D) (uv : vec2) : vec4 := t uv.

End Glsl.

(** ** Helpers shared verbatim by both pattern shaders *)

Module Shader.
Import Glsl.

Section Color.
Context {B : Builtins}.

Definition calculateLuminance (color : vec3) : Q :=
  0.299 * cr color + 0.587 * cg color + 0.114 * cb color.

Definition adjustSaturation (color : vec3) (saturation : Q) : vec3 :=
  let luminance := calculateLuminance color in
  mix3 (splat3 luminance) color saturation.

Definition adjustBrightness (color : vec3) (brightness : Q) : vec3 :=
  map3 (fun c => clamp (c + brightness) 0 1) color.

Definition adjustContrast (color : vec3) (contrast : Q) : vec3 :=
  map3 (fun c => clamp ((c - 0.5) * contrast + 0.5) 0 1) color.

Definition adjustExposure (color : vec3) (exposure : Q) : vec3 :=
  map3 (fun c => clamp (c * pow 2 exposure) 0 1) color.

(** [processImageColor] reads the uniforms [uExposure], [uBrightness],
    [uContrast] and [uSaturation]; they are its first four arguments here. *)
Definition processImageColor (uExposure uBrightness uContrast uSaturation : Q)
    (color : vec3) : vec3 :=
  let color := adjustExposure color uExposure in
  let color := adjustBrightness color uBrightness in
  let color := adjustContrast color uContrast in
  let color := adjustSaturation color uSaturation in
  color.

End Color.

(** Luminance inversion and pattern-index selection, the statements of
    [main] between [lum = 0.85 - lum] and [clamp(patternIndex, 0, 5)]. *)
Definition invertLum (lum : Q) : Q := 0.85 - lum.

Definition patternIndexOf (lum : Q) : Z :=
  let scaledIntensity := lum * 5 in
  let patternIndex :=
    if ltb scaledIntensity 0.5 then 0%Z
    else if ltb scaledIntensity 3.5 then (Qfloor (scaledIntensity * 0.8) + 1)%Z
    else if ltb scaledIntensity 5 then 4%Z
    else 5%Z in
  iclamp patternIndex 0 5.

(** Column of the regular atlas for a pattern index. *)
Definition regularAtlasIndexOf (uPatternAtlasColumns patternIndex : Z) : Z :=
  if (patternIndex =? 0)%Z then Z.max 0 (uPatternAtlasColumns - 1)
  else if (patternIndex =? 1)%Z then Z.max 0 (uPatternAtlasColumns - 2)
  else if (patternIndex =? 2)%Z then Z.max 0 (uPatternAtlasColumns - 3)
  else if (patternIndex =? 3)%Z then Z.max 0 (uPatternAtlasColumns - 4)
  else if (patternIndex =? 4)%Z then Z.max 0 (uPatternAtlasColumns - 5)
  else 0%Z.

(** Index into the alternate atlas, from the inverted luminance. *)
Definition altPatternIndexOf (lum : Q) : Z :=
  let altPatternIndex :=
    if ltb lum 0.1 then 0%Z
    else if ltb lum 0.3 then 1%Z
    else if ltb lum 0.5 then 2%Z
    else if ltb lum 0.7 then 3%Z
    else if ltb lum 0.9 then 4%Z
    else 5%Z in
  iclamp altPatternIndex 0 5.

Definition samplePatternAtlas (atlas : sampler2D) (atlasColumns patternIndex : Z)
    (uv : vec2) : vec4 :=
  let colIndex := inject_Z patternIndex in
  let atlasOffset := V2 (colIndex / inject_Z atlasColumns) 0 in
  let atlasUV :=
    V2 (vx uv / inject_Z atlasColumns + vx atlasOffset) (vy uv / 1 + vy atlasOffset) in
  texture2D atlas atlasUV.

Definition sampleAltPatternAtlas (atlas : sampler2D) (atlasColumns patternIndex : Z)
    (uv : vec2) : vec4 :=
  let colIndex := inject_Z patternIndex in
  let margin := V2 (0.5 / 512) 0 in
  let scaledUV :=
    V2 (vx uv * (1 - 2 * vx margin) + vx margin) (vy uv * (1 - 2 * vx margin) + vy margin) in
  let atlasOffset := V2 (colIndex / inject_Z atlasColumns) 0 in
  let atlasUV :=
    V2 (vx scaledUV / inject_Z atlasColumns + vx atlasOffset)
       (vy scaledUV / 1 + vy atlasOffset) in
  texture2D atlas atlasUV.

(** [regularNeedsFallback]: the resolved regular colour is pure white. *)
Definition regularNeedsFallback (regularColor : vec3) : bool :=
  geb (cr regularColor) 0.999 && geb (cg regularColor) 0.999 && geb (cb regularColor) 0.999.

(** Column re-sampled by the fallback. *)
Definition fallbackColumn (uPatternAtlasColumns patternIndex : Z) : Z :=
  if (patternIndex <=? 2)%Z then (uPatternAtlasColumns - 2)%Z
  else (uPatternAtlasColumns - 3)%Z.

(** The [if (regularNeedsFallback) { ... }] block of [main]; it is the same
    text in both pattern shaders. *)
Definition regularFallback (uPatternAtlas : sampler2D) (uPatternAtlasColumns : Z)
    (uDarkMode : Q) (patternIndex : Z) (patternUV : vec2) (regularColor : vec3) : vec3 :=
  if regularNeedsFallback regularColor then
    let regularFallbackPattern :=
      samplePatternAtlas uPatternAtlas uPatternAtlasColumns
        (fallbackColumn uPatternAtlasColumns patternIndex) patternUV in
    if ltb (c4a regularFallbackPattern) 0.001 then
      let backgroundColor := if gtb uDarkMode 0.5 then V3 0 0 0 else V3 1 1 1 in
      backgroundColor
    else V3 0.925 0.925 0.925
  else regularColor.

(** The palette of the regular path ([useOriginalColors] false), the [else]
    branch of [getColorForIntensity]; the same text in both shaders. *)
Definition regularPalette (uDarkMode : Q) (patternIndex : Z) (patternAlpha : Q) : vec3 :=
  let dark := gtb uDarkMode 0.5 in
  let backgroundColor := if dark then V3 0 0 0 else V3 1 1 1 in
  let color1 := if dark then V3 0.33 0.33 0.33 else V3 0.949 0.949 0.949 in
  let color2 := if dark then V3 0.33 0.33 0.33 else V3 0.91 0.91 0.91 in
  let color2b := if dark then V3 0.33 0.33 0.33 else V3 0.925 0.925 0.925 in
  let color3 := if dark then V3 0.33 0.33 0.33 else V3 0.98 0.98 0.98 in
  let color4 := if dark then V3 0.33 0.33 0.33 else V3 0.99 0.99 0.99 in
  if ltb patternAlpha 0.001 then backgroundColor
  else if (patternIndex <=? 1)%Z then color1
  else if (patternIndex =? 2)%Z then color2
  else if (patternIndex =? 3)%Z then color2b
  else if (patternIndex <=? 4)%Z then color3
  else color4.

(** Tile arithmetic of [main], one axis at a time.  In [Q] a division by
    zero is [0]; GLSL leaves it undefined. *)
Definition tilePos (pix uBaseTileSize : Q) : Q := floor (pix / uBaseTileSize) * uBaseTileSize.
Definition tileIndex (pix uBaseTileSize : Q) : Q := floor (pix / uBaseTileSize).
Definition tileCenterUV (pix uBaseTileSize logical : Q) : Q :=
  (tilePos pix uBaseTileSize + uBaseTileSize * 0.5) / logical.
Definition patternUV1 (pix uBaseTileSize : Q) : Q := fmod pix uBaseTileSize / uBaseTileSize.

(** The test that sends a tile to the flat background. *)
Definition outOfBounds (uv : vec2) : bool :=
  ltb (vx uv) 0 || gtb (vx uv) 1 || ltb (vy uv) 0 || gtb (vy uv) 1.

Definition background (uDarkMode : Q) : vec4 :=
  if gtb uDarkMode 0.5 then V4 0 0 0 1 else V4 1 1 1 1.

(** Luminance with the per-tile wobble, then inverted: from
    [float lum = calculateLuminance(originalCol)] to [lum = 0.85 - lum]. *)
Section Wobble.
Context {B : Builtins}.

Definition TIME_SPEED : Q := 0.5.
Definition SPATIAL_FREQ : Q := 0.008.
Definition TIME_AMPLITUDE : Q := 0.1.

Definition wobbledLum (uTime : Q) (tileIndex : vec2) (originalCol : vec3) : Q :=
  let lum := calculateLuminance originalCol in
  let timeOffset :=
    sin (uTime * TIME_SPEED + dot2 tileIndex (V2 SPATIAL_FREQ SPATIAL_FREQ)) * TIME_AMPLITUDE in
  let lum := clamp (lum + timeOffset) 0 1 in
  invertLum lum.

End Wobble.

End Shader.

(** ** The fluid passes: splat, advection, fill (the same text in both files) *)

Module Fluid.
Import Glsl.

Section Passes.
Context {B : Builtins}.

Definition splatShader (uTarget : sampler2D) (aspectRatio : Q) (color : vec3)
    (point : vec2) (radius : Q) (vUv : vec2) : vec4 :=
  let p := V2 (vx vUv - vx point) (vy vUv - vy point) in
  let p := V2 (vx p * aspectRatio) (vy p) in
  let splat := map3 (fun c => exp (- dot2 p p / radius) * c) color in
  let base := rgb (texture2D uTarget vUv) in
  vec4_of (zip3 Qplus base splat) 1.

Definition advectionShader (uVelocity uSource : sampler2D) (texelSize : vec2)
    (dt dissipation : Q) (vUv : vec2) : vec4 :=
  let vel := xy (texture2D uVelocity vUv) in
  let coord := V2 (vx vUv - dt * vx vel * vx texelSize) (vy vUv - dt * vy vel * vy texelSize) in
  let out := map4 (fun c => dissipation * c) (texture2D uSource coord) in
  V4 (c4r out) (c4g out) (c4b out) 1.

Definition fillShader (uColor : vec3) (vUv : vec2) : vec4 := vec4_of uColor 1.

End Passes.

End Fluid.

(** ** Render targets, ping-pong pairs and the renderer state *)

Module Three.
Import Glsl.

(** The identity of a [THREE.WebGLRenderTarget] object. *)
Definition Target := nat.

(** What a sampler uniform holds: the texture of a render target (whose
    content changes with every render into it) or a loaded image. *)
Inductive Texture :=
  | TargetTexture (t : Target)
  | Loaded (image : sampler2D).

(** [class DoubleFBO]. *)
Record DoubleFBO := { read : Target; write : Target }.

(** The constructor makes two new render targets; [fresh] is the next
    unused object identity. *)
Definition newDoubleFBO (fresh : Target) : DoubleFBO * Target :=
  ({| read := fresh; write := S fresh |}, S (S fresh)).

Definition texture (d : DoubleFBO) : Texture := TargetTexture (read d).

Definition swap (d : DoubleFBO) : DoubleFBO :=
  let temp := read d in
  {| read := write d; write := temp |}.

(** One [gl.render] call: what was drawn, into which target ([None] is
    [null], the canvas) and with which [autoClear]. *)
Record Pass (D : Type) := { what : D; into : option Target; cleared : bool }.
Arguments what {D}.
Arguments into {D}.
Arguments cleared {D}.

(** The part of [THREE.WebGLRenderer] and of the GPU memory the callbacks
    touch.  [passes] records the render calls, the most recent first. *)
Record Renderer (D : Type) := {
  renderTarget : option Target;
  autoClear : bool;
  contents : Target -> sampler2D;
  extent : Target -> Q * Q;
  canvas : sampler2D;
  passes : list (Pass D)
}.
Arguments renderTarget {D}.
Arguments autoClear {D}.
Arguments contents {D}.
Arguments extent {D}.
Arguments canvas {D}.
Arguments passes {D}.

Section Ops.
Context {D : Type}.

Definition getRenderTarget (g : Renderer D) : option Target := renderTarget g.

Definition setRenderTarget (t : option Target) (g : Renderer D) : Renderer D :=
  {| renderTarget := t; autoClear := autoClear g; contents := contents g;
     extent := extent g; canvas := canvas g; passes := passes g |}.

Definition setAutoClear (b : bool) (g : Renderer D) : Renderer D :=
  {| renderTarget := renderTarget g; autoClear := b; contents := contents g;
     extent := extent g; canvas := canvas g; passes := passes g |}.

(** [target.setSize(w, h)]. *)
Definition setSize (t : Target) (w h : Q) (g : Renderer D) : Renderer D :=
  {| renderTarget := renderTarget g; autoClear := autoClear g; contents := contents g;
     extent := fun t' => if Nat.eqb t' t then (w, h) else extent g t';
     canvas := canvas g; passes := passes g |}.

(** [gl.render(scene, camera)] of a scene holding one full-screen triangle:
    every fragment of the bound target gets the fragment shader's value. *)
Definition render (d : D) (fragment : sampler2D) (g : Renderer D) : Renderer D :=
  {| renderTarget := renderTarget g; autoClear := autoClear g;
     contents :=
       match renderTarget g with
       | Some t => fun t' => if Nat.eqb t' t then fragment else contents g t'
       | None => contents g
       end;
     extent := extent g;
     canvas := match renderTarget g with Some _ => canvas g | None => fragment end;
     passes := {| what := d; into := renderTarget g; cleared := autoClear g |} :: passes g |}.

(** Forgetting the record of earlier render calls. *)
Definition clearPasses (g : Renderer D) : Renderer D :=
  {| renderTarget := renderTarget g; autoClear := autoClear g; contents := contents g;
     extent := extent g; canvas := canvas g; passes := [] |}.

(** The sampler a uniform resolves to when a pass runs; a sampler without
    a texture reads opaque black. *)
Definition sample (g : Renderer D) (t : option Texture) : sampler2D :=
  match t with
  | Some (TargetTexture t) => contents g t
  | Some (Loaded image) => image
  | None => fun _ => V4 0 0 0 1
  end.

End Ops.

(** [Math.round]: to the nearest integer, halves upward. *)
Definition Math_round (x : Q) : Z := Qfloor (x + 0.5).

(** Uniforms of the three fluid materials. *)
Module Splat.
Record uniforms := {
  texelSize : vec2;
  uTarget : option Texture;
  aspectRatio : Q;
  color : vec3;
  point : vec2;
  radius : Q
}.
End Splat.

Module Advection.
Record uniforms := {
  texelSize : vec2;
  uVelocity : option Texture;
  uSource : option Texture;
  dt : Q;
  dissipation : Q
}.
End Advection.

Module Fill.
Record uniforms := { texelSize : vec2; uColor : vec3 }.
End Fill.

(** Statements of a callback as state transformers. *)
Definition Cmd (S : Type) : Type := S -> S.
Definition skip {S} : Cmd S := fun s => s.
Definition seq {S} (c1 c2 : Cmd S) : Cmd S := fun s => c2 (c1 s).
Definition reading {S} (k : S -> Cmd S) : Cmd S := fun s => k s s.
Definition when {S} (b : bool) (c : Cmd S) : Cmd S := if b then c else skip.

End Three.

Declare Scope cmd_scope.
Delimit Scope cmd_scope with cmd.
Notation "c1 ;; c2" := (Three.seq c1 c2) (at level 61, right associativity) : cmd_scope.

(** ** Card3DAscii.tsx: the pattern shader of the 3D card and its frame callback *)

Module Card3DAscii.
Import Glsl Shader Fluid Three.
Local Open Scope cmd_scope.

(** [ShaderType] of shaders.ts. *)
Inductive ShaderType :=
  | ascii | crt | glitch | pixelate | halftone | matrix
  | thermal | neon | sketch | vaporwave | noir.

Definition is_ascii (t : ShaderType) : bool :=
  match t with ascii => true | _ => false end.

(** Uniforms of [asciiMaterial]. *)
Module Ascii.
Record uniforms := {
  uImage : option Texture;
  uImageDimensions : vec2;
  uDeformTexture : option Texture;
  uResolution : vec2;
  uLogicalResolution : vec2;
  uCoordinateScale : Q;
  uPatternCount : Z;
  uBaseTileSize : Q;
  uTime : Q;
  uDeformStrength : Q;
  uRandomSpeed : Q;
  uRandomSpread : Q;
  uRandomThreshold : Q;
  uUseWhiteBackground : Q;
  uSaturation : Q;
  uBrightness : Q;
  uContrast : Q;
  uExposure : Q;
  uAltPatternOpacity : Q;
  uEnableFadeTransition : Q;
  uFadeThreshold : Q;
  uFadeWidth : Q;
  uUseOriginalSvgColors : Q;
  uPatternAtlas : option Texture;
  uAltPatternAtlas : option Texture;
  uPatternAtlasColumns : Z;
  uAltPatternAtlasColumns : Z;
  uDarkMode : Q;
  uBottomFade : Q
}.
End Ascii.

(** Uniforms of [customShaderMaterial]. *)
Module Custom.
Record uniforms := {
  uImage : option Texture;
  uResolution : vec2;
  uTime : Q;
  uSaturation : Q;
  uBrightness : Q;
  uContrast : Q;
  uExposure : Q;
  uDarkMode : Q;
  uIntensity : Q;
  uBaseTileSize : Q
}.
End Custom.

(** ** [asciiFragmentShader] *)
Section FragmentShader.
Context {B : Builtins}.
Import Ascii.

Definition getColorForIntensity (u : uniforms) (patternIndex : Z) (patternAlpha : Q)
    (useOriginalColors : bool) (originalColor : vec3) (patternColor : vec4) : vec3 :=
  if useOriginalColors then
    let backgroundColor := V3 1 1 1 in
    if ltb patternAlpha 0.001 then backgroundColor
    else if gtb (uUseOriginalSvgColors u) 0.5 then
      mix3 backgroundColor (rgb patternColor) patternAlpha
    else
      let blendedColor := mix3 backgroundColor originalColor patternAlpha in
      mix3 backgroundColor blendedColor (uAltPatternOpacity u)
  else regularPalette (uDarkMode u) patternIndex patternAlpha.

(** [main]; [tex] resolves a sampler uniform to the texture bound when the
    pass runs. *)
Definition main (u : uniforms) (tex : option Texture -> sampler2D)
    (gl_FragCoord vUv : vec2) : vec4 :=
  let pix := V2 (vx gl_FragCoord * uCoordinateScale u) (vy gl_FragCoord * uCoordinateScale u) in
  let tileCenterUV :=
    V2 (tileCenterUV (vx pix) (uBaseTileSize u) (vx (uLogicalResolution u)))
       (tileCenterUV (vy pix) (uBaseTileSize u) (vy (uLogicalResolution u))) in
  let adjustedTileCenter := tileCenterUV in
  if outOfBounds adjustedTileCenter then background (uDarkMode u)
  else
    let originalCol := rgb (texture2D (tex (uImage u)) adjustedTileCenter) in
    let originalCol :=
      processImageColor (uExposure u) (uBrightness u) (uContrast u) (uSaturation u)
        originalCol in
    let patternUV :=
      V2 (patternUV1 (vx pix) (uBaseTileSize u)) (patternUV1 (vy pix) (uBaseTileSize u)) in
    if ltb (sqrt (dot3 originalCol originalCol)) 0.04 then
      if gtb (uUseWhiteBackground u) 0.5 then background (uDarkMode u)
      else
        let patternColor :=
          samplePatternAtlas (tex (uPatternAtlas u)) (uPatternAtlasColumns u) 0 patternUV in
        let backgroundColor := if gtb (uDarkMode u) 0.5 then V3 0 0 0 else V3 1 1 1 in
        if ltb (c4a patternColor) 0.001 then vec4_of backgroundColor 1
        else V4 0.98 0.98 0.98 1
    else
      let tileIndex :=
        V2 (tileIndex (vx pix) (uBaseTileSize u)) (tileIndex (vy pix) (uBaseTileSize u)) in
      let lum := wobbledLum (uTime u) tileIndex originalCol in
      let patternIndex := patternIndexOf lum in
      let deformColor := rgb (texture2D (tex (uDeformTexture u)) adjustedTileCenter) in
      let paintStrength := (cr deformColor + cg deformColor + cb deformColor) / 3 in
      let useAltPatterns := gtb paintStrength (uFadeThreshold u) in
      let transitionFactor :=
        if gtb (uEnableFadeTransition u) 0.5 then
          let fadeStart := uFadeThreshold u in
          let fadeEnd := uFadeThreshold u + uFadeWidth u in
          smoothstep fadeStart fadeEnd paintStrength
        else if useAltPatterns then 1 else 0 in
      let regularAtlasIndex := regularAtlasIndexOf (uPatternAtlasColumns u) patternIndex in
      let altPatternIndex := altPatternIndexOf lum in
      let altAtlasIndex := Z.min altPatternIndex (uAltPatternAtlasColumns u - 1) in
      let altPatternColor :=
        sampleAltPatternAtlas (tex (uAltPatternAtlas u)) (uAltPatternAtlasColumns u)
          altAtlasIndex patternUV in
      let regularPatternColor :=
        samplePatternAtlas (tex (uPatternAtlas u)) (uPatternAtlasColumns u)
          regularAtlasIndex patternUV in
      let altColor :=
        getColorForIntensity u altPatternIndex (c4a altPatternColor) true originalCol
          altPatternColor in
      let regularColor :=
        getColorForIntensity u patternIndex (c4a regularPatternColor) false originalCol
          regularPatternColor in
      let regularColor :=
        regularFallback (tex (uPatternAtlas u)) (uPatternAtlasColumns u) (uDarkMode u)
          patternIndex patternUV regularColor in
      let finalColor := mix3 regularColor altColor transitionFactor in
      let finalColor :=
        if gtb (uBottomFade u) 0.5 then
          let fadeStart := 0.3 in
          let fadeStrength := smoothstep 0 fadeStart (vy vUv) in
          let fadeStrength := fadeStrength * fadeStrength * (3 - 2 * fadeStrength) in
          mix3 (if gtb (uDarkMode u) 0.5 then splat3 0 else splat3 1) finalColor fadeStrength
        else finalColor in
      vec4_of finalColor 1.

End FragmentShader.

(** ** [Scene3DAscii] *)

(** [SceneProps], without the props that only reach the 3D model
    ([modelPath], [accentColor], [enableFloat], [floatSpeed],
    [floatIntensity], [modelScale]). *)
Record SceneProps := {
  tileSize : Q;
  darkMode : bool;
  saturation : Q;
  brightness : Q;
  contrast : Q;
  exposure : Q;
  animationSpeed : Q;
  enablePainting : bool;
  paintRadius : Q;
  velocityDissipation : Q;
  densityDissipation : Q;
  useBlockyPattern : bool;
  luminanceOffset : Q;
  fadeThreshold : Q;
  fadeWidth : Q;
  patternOpacity : Q;
  enableFadeTransition : bool;
  invertLuminance : bool;
  mouseUV : vec2;
  isCardHovered : bool;
  shaderType : ShaderType;
  shaderIntensity : Q
}.

(** What the hooks give the callback in a frame: the canvas size of
    [useThree], [window.devicePixelRatio], and the picture that
    [gl.render(modelScene, camera)] draws. *)
Record Hooks := {
  width : Q;
  height : Q;
  devicePixelRatio : Q;
  modelRender : sampler2D
}.

Inductive FluidMaterial := FillMaterial | SplatMaterial | AdvectionMaterial.

(** What a render call of this component draws. *)
Inductive Drawing :=
  | DrawFill (u : Fill.uniforms)
  | DrawSplat (u : Splat.uniforms)
  | DrawAdvection (u : Advection.uniforms)
  | DrawModel
  | DrawAscii (u : Ascii.uniforms)
  | DrawCustom (t : ShaderType) (u : Custom.uniforms)
  | DrawDisplay (uMap : option Texture).

(** The objects the component keeps between frames. *)
Record State := {
  gl : Renderer Drawing;
  timeRef : Q;
  patternAtlas : option sampler2D;
  altPatternAtlas : option sampler2D;
  lastMouseRef : vec2;
  isMouseInitRef : bool;
  sceneFBO : Target;
  velocityFBO : DoubleFBO;
  densityFBO : DoubleFBO;
  patternFBO : Target;
  splatMaterial : Splat.uniforms;
  advectionMaterial : Advection.uniforms;
  fillMaterial : Fill.uniforms;
  densityInitializedRef : bool;
  asciiMaterial : Ascii.uniforms;
  displayMaterial : option Texture;
  customShaderMaterial : option Custom.uniforms;
  fluidMesh_material : FluidMaterial
}.

Definition set_gl (v : _) (s : State) : State :=
  {| gl := v; timeRef := timeRef s; patternAtlas := patternAtlas s;
     altPatternAtlas := altPatternAtlas s; lastMouseRef := lastMouseRef s;
     isMouseInitRef := isMouseInitRef s; sceneFBO := sceneFBO s;
     velocityFBO := velocityFBO s; densityFBO := densityFBO s; patternFBO := patternFBO s;
     splatMaterial := splatMaterial s; advectionMaterial := advectionMaterial s;
     fillMaterial := fillMaterial s; densityInitializedRef := densityInitializedRef s;
     asciiMaterial := asciiMaterial s; displayMaterial := displayMaterial s;
     customShaderMaterial := customShaderMaterial s;
     fluidMesh_material := fluidMesh_material s |}.
Definition set_timeRef (v : _) (s : State) : State :=
  {| gl := gl s; timeRef := v; patternAtlas := patternAtlas s;
     altPatternAtlas := altPatternAtlas s; lastMouseRef := lastMouseRef s;
     isMouseInitRef := isMouseInitRef s; sceneFBO := sceneFBO s;
     velocityFBO := velocityFBO s; densityFBO := densityFBO s; patternFBO := patternFBO s;
     splatMaterial := splatMaterial s; advectionMaterial := advectionMaterial s;
     fillMaterial := fillMaterial s; densityInitializedRef := densityInitializedRef s;
     asciiMaterial := asciiMaterial s; displayMaterial := displayMaterial s;
     customShaderMaterial := customShaderMaterial s;
     fluidMesh_material := fluidMesh_material s |}.
Definition set_patternAtlas (v : _) (s : State) : State :=
  {| gl := gl s; timeRef := timeRef s; patternAtlas := v;
     altPatternAtlas := altPatternAtlas s; lastMouseRef := lastMouseRef s;
     isMouseInitRef := isMouseInitRef s; sceneFBO := sceneFBO s;
     velocityFBO := velocityFBO s; densityFBO := densityFBO s; patternFBO := patternFBO s;
     splatMaterial := splatMaterial s; advectionMaterial := advectionMaterial s;
     fillMaterial := fillMaterial s; densityInitializedRef := densityInitializedRef s;
     asciiMaterial := asciiMaterial s; displayMaterial := displayMaterial s;
     customShaderMaterial := customShaderMaterial s;
     fluidMesh_material := fluidMesh_material s |}.
Definition set_altPatternAtlas (v : _) (s : State) : State :=
  {| gl := gl s; timeRef := timeRef s; patternAtlas := patternAtlas s;
     altPatternAtlas := v; lastMouseRef := lastMouseRef s;
     isMouseInitRef := isMouseInitRef s; sceneFBO := sceneFBO s;
     velocityFBO := velocityFBO s; densityFBO := densityFBO s; patternFBO := patternFBO s;
     splatMaterial := splatMaterial s; advectionMaterial := advectionMaterial s;
     fillMaterial := fillMaterial s; densityInitializedRef := densityInitializedRef s;
     asciiMaterial := asciiMaterial s; displayMaterial := displayMaterial s;
     customShaderMaterial := customShaderMaterial s;
     fluidMesh_material := fluidMesh_material s |}.
Definition set_lastMouseRef (v : _) (s : State) : State :=
  {| gl := gl s; timeRef := timeRef s; patternAtlas := patternAtlas s;
     altPatternAtlas := altPatternAtlas s; lastMouseRef := v;
     isMouseInitRef := isMouseInitRef s; sceneFBO := sceneFBO s;
     velocityFBO := velocityFBO s; densityFBO := densityFBO s; patternFBO := patternFBO s;
     splatMaterial := splatMaterial s; advectionMaterial := advectionMaterial s;
     fillMaterial := fillMaterial s; densityInitializedRef := densityInitializedRef s;
     asciiMaterial := asciiMaterial s; displayMaterial := displayMaterial s;
     customShaderMaterial := customShaderMaterial s;
     fluidMesh_material := fluidMesh_material s |}.
Definition set_isMouseInitRef (v : _) (s : State) : State :=
  {| gl := gl s; timeRef := timeRef s; patternAtlas := patternAtlas s;
     altPatternAtlas := altPatternAtlas s; lastMouseRef := lastMouseRef s;
     isMouseInitRef := v; sceneFBO := sceneFBO s; velocityFBO := velocityFBO s;
     densityFBO := densityFBO s; patternFBO := patternFBO s;
     splatMaterial := splatMaterial s; advectionMaterial := advectionMaterial s;
     fillMaterial := fillMaterial s; densityInitializedRef := densityInitializedRef s;
     asciiMaterial := asciiMaterial s; displayMaterial := displayMaterial s;
     customShaderMaterial := customShaderMaterial s;
     fluidMesh_material := fluidMesh_material s |}.
Definition set_velocityFBO (v : _) (s : State) : State :=
  {| gl := gl s; timeRef := timeRef s; patternAtlas := patternAtlas s;
     altPatternAtlas := altPatternAtlas s; lastMouseRef := lastMouseRef s;
     isMouseInitRef := isMouseInitRef s; sceneFBO := sceneFBO s; velocityFBO := v;
     densityFBO := densityFBO s; patternFBO := patternFBO s;
     splatMaterial := splatMaterial s; advectionMaterial := advectionMaterial s;
     fillMaterial := fillMaterial s; densityInitializedRef := densityInitializedRef s;
     asciiMaterial := asciiMaterial s; displayMaterial := displayMaterial s;
     customShaderMaterial := customShaderMaterial s;
     fluidMesh_material := fluidMesh_material s |}.
Definition set_densityFBO (v : _) (s : State) : State :=
  {| gl := gl s; timeRef := timeRef s; patternAtlas := patternAtlas s;
     altPatternAtlas := altPatternAtlas s; lastMouseRef := lastMouseRef s;
     isMouseInitRef := isMouseInitRef s; sceneFBO := sceneFBO s;
     velocityFBO := velocityFBO s; densityFBO := v; patternFBO := patternFBO s;
     splatMaterial := splatMaterial s; advectionMaterial := advectionMaterial s;
     fillMaterial := fillMaterial s; densityInitializedRef := densityInitializedRef s;
     asciiMaterial := asciiMaterial s; displayMaterial := displayMaterial s;
     customShaderMaterial := customShaderMaterial s;
     fluidMesh_material := fluidMesh_material s |}.
Definition set_splatMaterial (v : _) (s : State) : State :=
  {| gl := gl s; timeRef := timeRef s; patternAtlas := patternAtlas s;
     altPatternAtlas := altPatternAtlas s; lastMouseRef := lastMouseRef s;
     isMouseInitRef := isMouseInitRef s; sceneFBO := sceneFBO s;
     velocityFBO := velocityFBO s; densityFBO := densityFBO s; patternFBO := patternFBO s;
     splatMaterial := v; advectionMaterial := advectionMaterial s;
     fillMaterial := fillMaterial s; densityInitializedRef := densityInitializedRef s;
     asciiMaterial := asciiMaterial s; displayMaterial := displayMaterial s;
     customShaderMaterial := customShaderMaterial s;
     fluidMesh_material := fluidMesh_material s |}.
Definition set_advectionMaterial (v : _) (s : State) : State :=
  {| gl := gl s; timeRef := timeRef s; patternAtlas := patternAtlas s;
     altPatternAtlas := altPatternAtlas s; lastMouseRef := lastMouseRef s;
     isMouseInitRef := isMouseInitRef s; sceneFBO := sceneFBO s;
     velocityFBO := velocityFBO s; densityFBO := densityFBO s; patternFBO := patternFBO s;
     splatMaterial := splatMaterial s; advectionMaterial := v;
     fillMaterial := fillMaterial s; densityInitializedRef := densityInitializedRef s;
     asciiMaterial := asciiMaterial s; displayMaterial := displayMaterial s;
     customShaderMaterial := customShaderMaterial s;
     fluidMesh_material := fluidMesh_material s |}.
Definition set_fillMaterial (v : _) (s : State) : State :=
  {| gl := gl s; timeRef := timeRef s; patternAtlas := patternAtlas s;
     altPatternAtlas := altPatternAtlas s; lastMouseRef := lastMouseRef s;
     isMouseInitRef := isMouseInitRef s; sceneFBO := sceneFBO s;
     velocityFBO := velocityFBO s; densityFBO := densityFBO s; patternFBO := patternFBO s;
     splatMaterial := splatMaterial s; advectionMaterial := advectionMaterial s;
     fillMaterial := v; densityInitializedRef := densityInitializedRef s;
     asciiMaterial := asciiMaterial s; displayMaterial := displayMaterial s;
     customShaderMaterial := customShaderMaterial s;
     fluidMesh_material := fluidMesh_material s |}.
Definition set_densityInitializedRef (v : _) (s : State) : State :=
  {| gl := gl s; timeRef := timeRef s; patternAtlas := patternAtlas s;
     altPatternAtlas := altPatternAtlas s; lastMouseRef := lastMouseRef s;
     isMouseInitRef := isMouseInitRef s; sceneFBO := sceneFBO s;
     velocityFBO := velocityFBO s; densityFBO := densityFBO s; patternFBO := patternFBO s;
     splatMaterial := splatMaterial s; advectionMaterial := advectionMaterial s;
     fillMaterial := fillMaterial s; densityInitializedRef := v;
     asciiMaterial := asciiMaterial s; displayMaterial := displayMaterial s;
     customShaderMaterial := customShaderMaterial s;
     fluidMesh_material := fluidMesh_material s |}.
Definition set_asciiMaterial (v : _) (s : State) : State :=
  {| gl := gl s; timeRef := timeRef s; patternAtlas := patternAtlas s;
     altPatternAtlas := altPatternAtlas s; lastMouseRef := lastMouseRef s;
     isMouseInitRef := isMouseInitRef s; sceneFBO := sceneFBO s;
     velocityFBO := velocityFBO s; densityFBO := densityFBO s; patternFBO := patternFBO s;
     splatMaterial := splatMaterial s; advectionMaterial := advectionMaterial s;
     fillMaterial := fillMaterial s; densityInitializedRef := densityInitializedRef s;
     asciiMaterial := v; displayMaterial := displayMaterial s;
     customShaderMaterial := customShaderMaterial s;
     fluidMesh_material := fluidMesh_material s |}.
Definition set_displayMaterial (v : _) (s : State) : State :=
  {| gl := gl s; timeRef := timeRef s; patternAtlas := patternAtlas s;
     altPatternAtlas := altPatternAtlas s; lastMouseRef := lastMouseRef s;
     isMouseInitRef := isMouseInitRef s; sceneFBO := sceneFBO s;
     velocityFBO := velocityFBO s; densityFBO := densityFBO s; patternFBO := patternFBO s;
     splatMaterial := splatMaterial s; advectionMaterial := advectionMaterial s;
     fillMaterial := fillMaterial s; densityInitializedRef := densityInitializedRef s;
     asciiMaterial := asciiMaterial s; displayMaterial := v;
     customShaderMaterial := customShaderMaterial s;
     fluidMesh_material := fluidMesh_material s |}.
Definition set_customShaderMaterial (v : _) (s : State) : State :=
  {| gl := gl s; timeRef := timeRef s; patternAtlas := patternAtlas s;
     altPatternAtlas := altPatternAtlas s; lastMouseRef := lastMouseRef s;
     isMouseInitRef := isMouseInitRef s; sceneFBO := sceneFBO s;
     velocityFBO := velocityFBO s; densityFBO := densityFBO s; patternFBO := patternFBO s;
     splatMaterial := splatMaterial s; advectionMaterial := advectionMaterial s;
     fillMaterial := fillMaterial s; densityInitializedRef := densityInitializedRef s;
     asciiMaterial := asciiMaterial s; displayMaterial := displayMaterial s;
     customShaderMaterial := v; fluidMesh_material := fluidMesh_material s |}.
Definition set_fluidMesh_material (v : _) (s : State) : State :=
  {| gl := gl s; timeRef := timeRef s; patternAtlas := patternAtlas s;
     altPatternAtlas := altPatternAtlas s; lastMouseRef := lastMouseRef s;
     isMouseInitRef := isMouseInitRef s; sceneFBO := sceneFBO s;
     velocityFBO := velocityFBO s; densityFBO := densityFBO s; patternFBO := patternFBO s;
     splatMaterial := splatMaterial s; advectionMaterial := advectionMaterial s;
     fillMaterial := fillMaterial s; densityInitializedRef := densityInitializedRef s;
     asciiMaterial := asciiMaterial s; displayMaterial := displayMaterial s;
     customShaderMaterial := customShaderMaterial s; fluidMesh_material := v |}.

Definition isSome {A} (o : option A) : bool :=
  match o with Some _ => true | None => false end.

Definition float_of_bool (b : bool) : Q := if b then 1 else 0.

Section Scene3DAscii.
Context {B : Builtins}.

(** The ten filter programs of [shaderMap], as fragment functions of their
    uniforms and of the sampled [uImage]. *)
Variable shaderMap : ShaderType -> Custom.uniforms -> sampler2D -> sampler2D.

(** Initial uniforms of the materials, as the [useMemo] calls build them. *)
Definition newSplatMaterial (p : SceneProps) : Splat.uniforms :=
  {| Splat.texelSize := V2 (1 / 128) (1 / 128); Splat.uTarget := None;
     Splat.aspectRatio := 1; Splat.color := V3 0 0 0; Splat.point := V2 0 0;
     Splat.radius := paintRadius p |}.

Definition newAdvectionMaterial : Advection.uniforms :=
  {| Advection.texelSize := V2 (1 / 128) (1 / 128); Advection.uVelocity := None;
     Advection.uSource := None; Advection.dt := 0.016; Advection.dissipation := 1 |}.

Definition newFillMaterial : Fill.uniforms :=
  {| Fill.texelSize := V2 (1 / 512) (1 / 512); Fill.uColor := V3 0.5 0.5 0.5 |}.

Definition newAsciiMaterial (p : SceneProps) (h : Hooks) : Ascii.uniforms :=
  {| Ascii.uImage := None;
     Ascii.uImageDimensions := V2 (width h) (height h);
     Ascii.uDeformTexture := None;
     Ascii.uResolution := V2 (width h) (height h);
     Ascii.uLogicalResolution := V2 (width h) (height h);
     Ascii.uCoordinateScale := 1;
     Ascii.uPatternCount := 6;
     Ascii.uBaseTileSize := tileSize p;
     Ascii.uTime := 0;
     Ascii.uDeformStrength := 0.05;
     Ascii.uRandomSpeed := 0.1;
     Ascii.uRandomSpread := 0.5;
     Ascii.uRandomThreshold := 0.3;
     Ascii.uUseWhiteBackground := 1;
     Ascii.uSaturation := 1;
     Ascii.uBrightness := 0;
     Ascii.uContrast := 1;
     Ascii.uExposure := 0;
     Ascii.uAltPatternOpacity := 1;
     Ascii.uEnableFadeTransition := 0;
     Ascii.uFadeThreshold := 0.1;
     Ascii.uFadeWidth := 0.05;
     Ascii.uUseOriginalSvgColors := 0;
     Ascii.uPatternAtlas := None;
     Ascii.uAltPatternAtlas := None;
     Ascii.uPatternAtlasColumns := 4;
     Ascii.uAltPatternAtlasColumns := 6;
     Ascii.uDarkMode := float_of_bool (darkMode p);
     Ascii.uBottomFade := 0 |}.

Definition newCustomShaderMaterial (p : SceneProps) (h : Hooks) : option Custom.uniforms :=
  if is_ascii (shaderType p) then None
  else Some
    {| Custom.uImage := None;
       Custom.uResolution := V2 (width h) (height h);
       Custom.uTime := 0;
       Custom.uSaturation := saturation p;
       Custom.uBrightness := brightness p;
       Custom.uContrast := contrast p;
       Custom.uExposure := exposure p;
       Custom.uDarkMode := float_of_bool (darkMode p);
       Custom.uIntensity := shaderIntensity p;
       Custom.uBaseTileSize := tileSize p |}.

(** The component as first mounted: the render targets are new objects
    (identities 0 to 5), the refs hold their initial values and no atlas is
    loaded yet.  [g] is the renderer the canvas provides. *)
Definition mount (p : SceneProps) (h : Hooks) (g : Renderer Drawing) : State :=
  let sceneFBO := 0%nat in
  let '(velocityFBO, fresh) := newDoubleFBO 1%nat in
  let '(densityFBO, fresh) := newDoubleFBO fresh in
  {| gl := g; timeRef := 0; patternAtlas := None; altPatternAtlas := None;
     lastMouseRef := V2 (-1) (-1); isMouseInitRef := false;
     sceneFBO := sceneFBO; velocityFBO := velocityFBO; densityFBO := densityFBO;
     patternFBO := fresh;
     splatMaterial := newSplatMaterial p; advectionMaterial := newAdvectionMaterial;
     fillMaterial := newFillMaterial; densityInitializedRef := false;
     asciiMaterial := newAsciiMaterial p h; displayMaterial := None;
     customShaderMaterial := newCustomShaderMaterial p h;
     fluidMesh_material := SplatMaterial |}.

(** The texture loader's callbacks. *)
Definition setPatternAtlas (t : sampler2D) : Cmd State := set_patternAtlas (Some t).
Definition setAltPatternAtlas (t : sampler2D) : Cmd State := set_altPatternAtlas (Some t).

(** The effect on [isCardHovered]. *)
Definition onHoverChange (p : SceneProps) : Cmd State :=
  when (negb (isCardHovered p)) (set_isMouseInitRef false).

(** Renderer calls, lifted to the component state. *)
Definition gl_setRenderTarget (t : State -> option Target) : Cmd State :=
  fun s => set_gl (setRenderTarget (t s) (gl s)) s.

Definition gl_setAutoClear (b : bool) : Cmd State :=
  fun s => set_gl (setAutoClear b (gl s)) s.

Definition setSizeOf (t : State -> Target) (w h : Q) : Cmd State :=
  fun s => set_gl (setSize (t s) w h (gl s)) s.

(** [gl.render(fluidScene, quadCamera)]: the mesh is drawn with the material
    it currently has and that material's current uniforms. *)
Definition render_fluidScene : Cmd State := fun s =>
  let g := gl s in
  match fluidMesh_material s with
  | FillMaterial =>
      let u := fillMaterial s in
      set_gl (render (DrawFill u) (fillShader (Fill.uColor u)) g) s
  | SplatMaterial =>
      let u := splatMaterial s in
      set_gl (render (DrawSplat u)
                (splatShader (sample g (Splat.uTarget u)) (Splat.aspectRatio u)
                   (Splat.color u) (Splat.point u) (Splat.radius u)) g) s
  | AdvectionMaterial =>
      let u := advectionMaterial s in
      set_gl (render (DrawAdvection u)
                (advectionShader (sample g (Advection.uVelocity u))
                   (sample g (Advection.uSource u)) (Advection.texelSize u)
                   (Advection.dt u) (Advection.dissipation u)) g) s
  end.

(** [gl.render(modelScene, camera)]. *)
Definition render_modelScene (h : Hooks) : Cmd State := fun s =>
  set_gl (render DrawModel (modelRender h) (gl s)) s.

(** Window coordinates of the fragment at [vUv] of the bound target. *)
Definition fragCoord (g : Renderer Drawing) (vUv : vec2) : vec2 :=
  match renderTarget g with
  | Some t => V2 (vx vUv * fst (extent g t)) (vy vUv * snd (extent g t))
  | None => vUv
  end.

(** [gl.render(patternScene, quadCamera)]. *)
Definition render_patternScene : Cmd State := fun s =>
  let g := gl s in
  let u := asciiMaterial s in
  set_gl (render (DrawAscii u) (fun vUv => main u (sample g) (fragCoord g vUv) vUv) g) s.

(** [gl.render(customShaderScene, quadCamera)]. *)
Definition render_customShaderScene (t : ShaderType) : Cmd State := fun s =>
  let g := gl s in
  match customShaderMaterial s with
  | Some u => set_gl (render (DrawCustom t u) (shaderMap t u (sample g (Custom.uImage u))) g) s
  | None => s
  end.

(** [gl.render(displayScene, quadCamera)]. *)
Definition render_displayScene : Cmd State := fun s =>
  let g := gl s in
  set_gl (render (DrawDisplay (displayMaterial s)) (sample g (displayMaterial s)) g) s.

Definition velocityFBO_swap : Cmd State := fun s => set_velocityFBO (swap (velocityFBO s)) s.
Definition densityFBO_swap : Cmd State := fun s => set_densityFBO (swap (densityFBO s)) s.

(** The block [if (shaderType === 'ascii' && !densityInitializedRef.current)]. *)
Definition initDensity : Cmd State :=
  set_densityInitializedRef true ;;
  reading (fun s =>
    set_fillMaterial
      {| Fill.texelSize := Fill.texelSize (fillMaterial s); Fill.uColor := V3 0.5 0.5 0.5 |}) ;;
  set_fluidMesh_material FillMaterial ;;
  gl_setRenderTarget (fun s => Some (write (densityFBO s))) ;;
  render_fluidScene ;;
  densityFBO_swap ;;
  gl_setRenderTarget (fun s => Some (write (densityFBO s))) ;;
  render_fluidScene ;;
  densityFBO_swap.

(** The deadband test on the scaled pointer displacement. *)
Definition moved (deltaX deltaY : Q) : bool :=
  gtb (Qabs deltaX) 0.1 || gtb (Qabs deltaY) 0.1.

(** The two splat passes. *)
Definition splat (p : SceneProps) (h : Hooks) (deltaX deltaY : Q) : Cmd State :=
  reading (fun s =>
    set_splatMaterial
      {| Splat.texelSize := Splat.texelSize (splatMaterial s);
         Splat.uTarget := Some (TargetTexture (read (velocityFBO s)));
         Splat.aspectRatio := width h / height h;
         Splat.color := V3 (deltaX * 5) (deltaY * 5) 1;
         Splat.point := V2 (vx (mouseUV p)) (vy (mouseUV p));
         Splat.radius := Splat.radius (splatMaterial s) |}) ;;
  set_fluidMesh_material SplatMaterial ;;
  gl_setRenderTarget (fun s => Some (write (velocityFBO s))) ;;
  render_fluidScene ;;
  velocityFBO_swap ;;
  reading (fun s =>
    set_splatMaterial
      {| Splat.texelSize := Splat.texelSize (splatMaterial s);
         Splat.uTarget := Some (TargetTexture (read (densityFBO s)));
         Splat.aspectRatio := Splat.aspectRatio (splatMaterial s);
         Splat.color :=
           V3 (Qabs deltaX * 0.1 + 0.2) (Qabs deltaY * 0.1 + 0.3)
              (Qabs (deltaX + deltaY) * 0.05 + 0.5);
         Splat.point := Splat.point (splatMaterial s);
         Splat.radius := Splat.radius (splatMaterial s) |}) ;;
  gl_setRenderTarget (fun s => Some (write (densityFBO s))) ;;
  render_fluidScene ;;
  densityFBO_swap.

(** The two advection passes. *)
Definition advect (velocityDissipation densityDissipation : Q) : Cmd State :=
  reading (fun s =>
    set_advectionMaterial
      {| Advection.texelSize := Advection.texelSize (advectionMaterial s);
         Advection.uVelocity := Some (TargetTexture (read (velocityFBO s)));
         Advection.uSource := Some (TargetTexture (read (velocityFBO s)));
         Advection.dt := Advection.dt (advectionMaterial s);
         Advection.dissipation := velocityDissipation |}) ;;
  set_fluidMesh_material AdvectionMaterial ;;
  gl_setRenderTarget (fun s => Some (write (velocityFBO s))) ;;
  render_fluidScene ;;
  velocityFBO_swap ;;
  reading (fun s =>
    set_advectionMaterial
      {| Advection.texelSize := Advection.texelSize (advectionMaterial s);
         Advection.uVelocity := Advection.uVelocity (advectionMaterial s);
         Advection.uSource := Some (TargetTexture (read (densityFBO s)));
         Advection.dt := Advection.dt (advectionMaterial s);
         Advection.dissipation := densityDissipation |}) ;;
  gl_setRenderTarget (fun s => Some (write (densityFBO s))) ;;
  render_fluidScene ;;
  densityFBO_swap.

(** The condition of the fluid block. *)
Definition painting (p : SceneProps) : bool :=
  is_ascii (shaderType p) && enablePainting p && isCardHovered p
  && geb (vx (mouseUV p)) 0 && geb (vy (mouseUV p)) 0.

(** The fluid block of the callback. *)
Definition simulate (p : SceneProps) (h : Hooks) : Cmd State :=
  reading (fun s =>
    if negb (isMouseInitRef s) then
      set_isMouseInitRef true ;;
      set_lastMouseRef (mouseUV p)
    else
      let deltaX := (vx (mouseUV p) - vx (lastMouseRef s)) * 100 in
      let deltaY := (vy (mouseUV p) - vy (lastMouseRef s)) * 100 in
      when (moved deltaX deltaY) (splat p h deltaX deltaY) ;;
      set_lastMouseRef (mouseUV p)) ;;
  advect (velocityDissipation p) (densityDissipation p).

Definition renderWidth (h : Hooks) : Q := inject_Z (Math_round (width h * 2 * devicePixelRatio h)).
Definition renderHeight (h : Hooks) : Q := inject_Z (Math_round (height h * 2 * devicePixelRatio h)).

(** The assignments to [asciiMaterial.uniforms]; the uniforms not assigned
    keep the value they have. *)
Definition asciiUniforms (p : SceneProps) (h : Hooks) (s : State) : Ascii.uniforms :=
  let old := asciiMaterial s in
  {| Ascii.uImage := Some (TargetTexture (sceneFBO s));
     Ascii.uImageDimensions := V2 (width h * 2) (height h * 2);
     Ascii.uDeformTexture := Some (TargetTexture (read (densityFBO s)));
     Ascii.uResolution := V2 (renderWidth h) (renderHeight h);
     Ascii.uLogicalResolution := V2 (width h) (height h);
     Ascii.uCoordinateScale := width h / renderWidth h;
     Ascii.uPatternCount := Ascii.uPatternCount old;
     Ascii.uBaseTileSize := tileSize p;
     Ascii.uTime := timeRef s * animationSpeed p;
     Ascii.uDeformStrength := Ascii.uDeformStrength old;
     Ascii.uRandomSpeed := Ascii.uRandomSpeed old;
     Ascii.uRandomSpread := Ascii.uRandomSpread old;
     Ascii.uRandomThreshold := Ascii.uRandomThreshold old;
     Ascii.uUseWhiteBackground := Ascii.uUseWhiteBackground old;
     Ascii.uSaturation := saturation p;
     Ascii.uBrightness := brightness p;
     Ascii.uContrast := contrast p;
     Ascii.uExposure := exposure p;
     Ascii.uAltPatternOpacity := patternOpacity p;
     Ascii.uEnableFadeTransition := float_of_bool (enableFadeTransition p);
     Ascii.uFadeThreshold := fadeThreshold p;
     Ascii.uFadeWidth := fadeWidth p;
     Ascii.uUseOriginalSvgColors := Ascii.uUseOriginalSvgColors old;
     Ascii.uPatternAtlas := option_map Loaded (patternAtlas s);
     Ascii.uAltPatternAtlas := option_map Loaded (altPatternAtlas s);
     Ascii.uPatternAtlasColumns := if useBlockyPattern p then 6%Z else 4%Z;
     Ascii.uAltPatternAtlasColumns := 6;
     Ascii.uDarkMode := float_of_bool (darkMode p);
     Ascii.uBottomFade := Ascii.uBottomFade old |}.

(** The assignments to [customShaderMaterial!.uniforms]. *)
Definition customUniforms (p : SceneProps) (h : Hooks) (s : State) : Custom.uniforms :=
  {| Custom.uImage := Some (TargetTexture (sceneFBO s));
     Custom.uResolution := V2 (width h) (height h);
     Custom.uTime := timeRef s * animationSpeed p;
     Custom.uSaturation := saturation p;
     Custom.uBrightness := brightness p;
     Custom.uContrast := contrast p;
     Custom.uExposure := exposure p;
     Custom.uDarkMode := float_of_bool (darkMode p);
     Custom.uIntensity := shaderIntensity p;
     Custom.uBaseTileSize := tileSize p |}.

(** Rendering the 3D scene into [sceneFBO]. *)
Definition capture (h : Hooks) : Cmd State :=
  setSizeOf sceneFBO (width h * 2) (height h * 2) ;;
  gl_setRenderTarget (fun s => Some (sceneFBO s)) ;;
  render_modelScene h.

(** The pattern pass, or the selected filter's pass, into [patternFBO]. *)
Definition composite (p : SceneProps) (h : Hooks) : Cmd State :=
  if is_ascii (shaderType p) then
    reading (fun s => set_asciiMaterial (asciiUniforms p h s)) ;;
    setSizeOf patternFBO (renderWidth h) (renderHeight h) ;;
    gl_setRenderTarget (fun s => Some (patternFBO s)) ;;
    render_patternScene ;;
    reading (fun s => set_displayMaterial (Some (TargetTexture (patternFBO s))))
  else
    reading (fun s =>
      when (isSome (customShaderMaterial s))
        (set_customShaderMaterial (Some (customUniforms p h s)))) ;;
    setSizeOf patternFBO (renderWidth h) (renderHeight h) ;;
    gl_setRenderTarget (fun s => Some (patternFBO s)) ;;
    render_customShaderScene (shaderType p) ;;
    reading (fun s => set_displayMaterial (Some (TargetTexture (patternFBO s)))).

(** The blit to the canvas. *)
Definition present : Cmd State :=
  gl_setRenderTarget (fun _ => None) ;;
  gl_setAutoClear false ;;
  render_displayScene.

(** The guards at the head of the callback. *)
Definition ready (p : SceneProps) (s : State) : bool :=
  negb (is_ascii (shaderType p)
        && (negb (isSome (patternAtlas s)) || negb (isSome (altPatternAtlas s))))
  && negb (negb (is_ascii (shaderType p)) && negb (isSome (customShaderMaterial s))).

(** The callback given to [useFrame]. *)
Definition useFrame (p : SceneProps) (h : Hooks) : Cmd State :=
  reading (fun s =>
    if negb (ready p s) then skip
    else
      (fun s => set_timeRef (timeRef s + 0.05) s) ;;
      reading (fun s =>
        let prevTarget := getRenderTarget (gl s) in
        let prevAutoClear := autoClear (gl s) in
        when (is_ascii (shaderType p) && negb (densityInitializedRef s)) initDensity ;;
        when (painting p) (simulate p h) ;;
        capture h ;;
        composite p h ;;
        present ;;
        gl_setRenderTarget (fun _ => prevTarget) ;;
        gl_setAutoClear prevAutoClear)).

(** *** Observing a frame *)

(** The render calls of one execution of the callback from state [s], in
    the order they are made. *)
Definition trace (p : SceneProps) (h : Hooks) (s : State) : list (Pass Drawing) :=
  rev (passes (gl (useFrame p h (set_gl (clearPasses (gl s)) s)))).

End Scene3DAscii.

Definition is_splat (x : Pass Drawing) : bool :=
  match what x with DrawSplat _ => true | _ => false end.

Definition is_advection (x : Pass Drawing) : bool :=
  match what x with DrawAdvection _ => true | _ => false end.

(** The tile size the pattern pass of a trace divides by. *)
Fixpoint patternPassTileSize (t : list (Pass Drawing)) : option Q :=
  match t with
  | [] => None
  | x :: t' =>
      match what x with
      | DrawAscii u => Some (Ascii.uBaseTileSize u)
      | _ => patternPassTileSize t'
      end
  end.

(** The scaled pointer displacement the callback computes in state [s]. *)
Definition deltaX (p : SceneProps) (s : State) : Q := (vx (mouseUV p) - vx (lastMouseRef s)) * 100.
Definition deltaY (p : SceneProps) (s : State) : Q := (vy (mouseUV p) - vy (lastMouseRef s)) * 100.

(** Replacing the two luminance props of a configuration. *)
Definition withLuminance (p : SceneProps) (offset : Q) (invert : bool) : SceneProps :=
  {| tileSize := tileSize p; darkMode := darkMode p; saturation := saturation p;
     brightness := brightness p; contrast := contrast p; exposure := exposure p;
     animationSpeed := animationSpeed p; enablePainting := enablePainting p;
     paintRadius := paintRadius p; velocityDissipation := velocityDissipation p;
     densityDissipation := densityDissipation p; useBlockyPattern := useBlockyPattern p;
     luminanceOffset := offset; fadeThreshold := fadeThreshold p; fadeWidth := fadeWidth p;
     patternOpacity := patternOpacity p; enableFadeTransition := enableFadeTransition p;
     invertLuminance := invert; mouseUV := mouseUV p; isCardHovered := isCardHovered p;
     shaderType := shaderType p; shaderIntensity := shaderIntensity p |}.

(** The defaults of [Card3DAscii], for a pointer outside the card. *)
Definition defaultProps : SceneProps :=
  {| tileSize := 6; darkMode := false; saturation := 1; brightness := 0; contrast := 1;
     exposure := 0; animationSpeed := 1; enablePainting := false; paintRadius := 0.0035;
     velocityDissipation := 0.9; densityDissipation := 0.98; useBlockyPattern := true;
     luminanceOffset := 0.85; fadeThreshold := 0.1; fadeWidth := 0.05; patternOpacity := 1;
     enableFadeTransition := false; invertLuminance := true; mouseUV := V2 (-1) (-1);
     isCardHovered := false; shaderType := ascii; shaderIntensity := 0.8 |}.

End Card3DAscii.

(** ** CardAsciiPattern.tsx: the pattern shader of the image card and its frame callback *)

Module CardAsciiPattern.
Import Glsl Shader Fluid Three.
Local Open Scope cmd_scope.

(** Uniforms of [asciiMaterial]. *)
Module Ascii.
Record uniforms := {
  uImage : option Texture;
  uImageDimensions : vec2;
  uDeformTexture : option Texture;
  uResolution : vec2;
  uLogicalResolution : vec2;
  uCoordinateScale : Q;
  uBaseTileSize : Q;
  uTime : Q;
  uSaturation : Q;
  uBrightness : Q;
  uContrast : Q;
  uExposure : Q;
  uAltPatternOpacity : Q;
  uFadeThreshold : Q;
  uFadeWidth : Q;
  uPatternAtlas : option Texture;
  uAltPatternAtlas : option Texture;
  uPatternAtlasColumns : Z;
  uAltPatternAtlasColumns : Z;
  uDarkMode : Q
}.
End Ascii.

(** ** [asciiFragmentShader] *)
Section FragmentShader.
Context {B : Builtins}.
Import Ascii.

Definition getCoveredUV (uv containerSize imageSize : vec2) : vec2 :=
  let cmax := Qmax (vx containerSize) (vy containerSize) in
  let containerAspect := V2 (vx containerSize / cmax) (vy containerSize / cmax) in
  let imax := Qmax (vx imageSize) (vy imageSize) in
  let imageAspect := V2 (vx imageSize / imax) (vy imageSize / imax) in
  let scale := V2 (vx containerAspect / vx imageAspect) (vy containerAspect / vy imageAspect) in
  let scaleToFit := Qmax (vx scale) (vy scale) in
  let scaledSize := V2 (vx imageAspect * scaleToFit) (vy imageAspect * scaleToFit) in
  let offset :=
    V2 ((vx containerAspect - vx scaledSize) * 0.5) ((vy containerAspect - vy scaledSize) * 0.5) in
  let adjustedUV :=
    V2 ((vx uv * vx containerAspect - vx offset) / vx scaledSize)
       ((vy uv * vy containerAspect - vy offset) / vy scaledSize) in
  adjustedUV.

Definition getColorForIntensity (u : uniforms) (patternIndex : Z) (patternAlpha : Q)
    (useOriginalColors : bool) (originalColor : vec3) (patternColor : vec4) : vec3 :=
  if useOriginalColors then
    let backgroundColor := V3 1 1 1 in
    if ltb patternAlpha 0.001 then backgroundColor
    else
      let blendedColor := mix3 backgroundColor originalColor patternAlpha in
      mix3 backgroundColor blendedColor (uAltPatternOpacity u)
  else regularPalette (uDarkMode u) patternIndex patternAlpha.

Definition main (u : uniforms) (tex : option Texture -> sampler2D)
    (gl_FragCoord vUv : vec2) : vec4 :=
  let pix := V2 (vx gl_FragCoord * uCoordinateScale u) (vy gl_FragCoord * uCoordinateScale u) in
  let tileCenterUV :=
    V2 (tileCenterUV (vx pix) (uBaseTileSize u) (vx (uLogicalResolution u)))
       (tileCenterUV (vy pix) (uBaseTileSize u) (vy (uLogicalResolution u))) in
  let adjustedTileCenter :=
    getCoveredUV tileCenterUV (uLogicalResolution u) (uImageDimensions u) in
  if outOfBounds adjustedTileCenter then background (uDarkMode u)
  else
    let originalCol := rgb (texture2D (tex (uImage u)) adjustedTileCenter) in
    let originalCol :=
      processImageColor (uExposure u) (uBrightness u) (uContrast u) (uSaturation u)
        originalCol in
    let tileIndex :=
      V2 (tileIndex (vx pix) (uBaseTileSize u)) (tileIndex (vy pix) (uBaseTileSize u)) in
    let lum := wobbledLum (uTime u) tileIndex originalCol in
    let patternIndex := patternIndexOf lum in
    let patternUV :=
      V2 (patternUV1 (vx pix) (uBaseTileSize u)) (patternUV1 (vy pix) (uBaseTileSize u)) in
    let deformColor := rgb (texture2D (tex (uDeformTexture u)) adjustedTileCenter) in
    let paintStrength := (cr deformColor + cg deformColor + cb deformColor) / 3 in
    let fadeStart := uFadeThreshold u in
    let fadeEnd := uFadeThreshold u + uFadeWidth u in
    let transitionFactor := smoothstep fadeStart fadeEnd paintStrength in
    let regularAtlasIndex := regularAtlasIndexOf (uPatternAtlasColumns u) patternIndex in
    let altPatternIndex := altPatternIndexOf lum in
    let altAtlasIndex := Z.min altPatternIndex (uAltPatternAtlasColumns u - 1) in
    let altPatternColor :=
      sampleAltPatternAtlas (tex (uAltPatternAtlas u)) (uAltPatternAtlasColumns u)
        altAtlasIndex patternUV in
    let regularPatternColor :=
      samplePatternAtlas (tex (uPatternAtlas u)) (uPatternAtlasColumns u)
        regularAtlasIndex patternUV in
    let altColor :=
      getColorForIntensity u altPatternIndex (c4a altPatternColor) true originalCol
        altPatternColor in
    let regularColor :=
      getColorForIntensity u patternIndex (c4a regularPatternColor) false originalCol
        regularPatternColor in
    let regularColor :=
      regularFallback (tex (uPatternAtlas u)) (uPatternAtlasColumns u) (uDarkMode u)
        patternIndex patternUV regularColor in
    let finalColor := mix3 regularColor altColor transitionFactor in
    vec4_of finalColor 1.

End FragmentShader.

(** ** [AsciiFluidScene] *)

(** [SceneProps], without [imageUrl]. *)
Record SceneProps := {
  tileSize : Q;
  saturation : Q;
  darkMode : bool;
  enableInteractivity : bool
}.

(** The canvas size of [useThree] and [window.devicePixelRatio]. *)
Record Hooks := {
  width : Q;
  height : Q;
  devicePixelRatio : Q
}.

Inductive FluidMaterial := SplatMaterial | AdvectionMaterial.

Inductive Drawing :=
  | DrawSplat (u : Splat.uniforms)
  | DrawAdvection (u : Advection.uniforms)
  | DrawAscii (u : Ascii.uniforms)
  | DrawDisplay (uMap : option Texture).

Record State := {
  gl : Renderer Drawing;
  timeRef : Q;
  imageTexture : option sampler2D;
  imageDimensions : vec2;
  patternAtlas : option sampler2D;
  altPatternAtlas : option sampler2D;
  mouseRef : vec2;
  lastMouseRef : vec2;
  isMouseInitRef : bool;
  isHoveredRef : bool;
  velocityFBO : DoubleFBO;
  densityFBO : DoubleFBO;
  patternFBO : Target;
  splatMaterial : Splat.uniforms;
  advectionMaterial : Advection.uniforms;
  asciiMaterial : Ascii.uniforms;
  displayMaterial : option Texture;
  fluidMesh_material : FluidMaterial
}.

Definition set_gl (v : _) (s : State) : State :=
  {| gl := v; timeRef := timeRef s; imageTexture := imageTexture s;
     imageDimensions := imageDimensions s; patternAtlas := patternAtlas s;
     altPatternAtlas := altPatternAtlas s; mouseRef := mouseRef s;
     lastMouseRef := lastMouseRef s; isMouseInitRef := isMouseInitRef s;
     isHoveredRef := isHoveredRef s; velocityFBO := velocityFBO s;
     densityFBO := densityFBO s; patternFBO := patternFBO s;
     splatMaterial := splatMaterial s; advectionMaterial := advectionMaterial s;
     asciiMaterial := asciiMaterial s; displayMaterial := displayMaterial s;
     fluidMesh_material := fluidMesh_material s |}.
Definition set_timeRef (v : _) (s : State) : State :=
  {| gl := gl s; timeRef := v; imageTexture := imageTexture s;
     imageDimensions := imageDimensions s; patternAtlas := patternAtlas s;
     altPatternAtlas := altPatternAtlas s; mouseRef := mouseRef s;
     lastMouseRef := lastMouseRef s; isMouseInitRef := isMouseInitRef s;
     isHoveredRef := isHoveredRef s; velocityFBO := velocityFBO s;
     densityFBO := densityFBO s; patternFBO := patternFBO s;
     splatMaterial := splatMaterial s; advectionMaterial := advectionMaterial s;
     asciiMaterial := asciiMaterial s; displayMaterial := displayMaterial s;
     fluidMesh_material := fluidMesh_material s |}.
Definition set_imageTexture (v : _) (s : State) : State :=
  {| gl := gl s; timeRef := timeRef s; imageTexture := v;
     imageDimensions := imageDimensions s; patternAtlas := patternAtlas s;
     altPatternAtlas := altPatternAtlas s; mouseRef := mouseRef s;
     lastMouseRef := lastMouseRef s; isMouseInitRef := isMouseInitRef s;
     isHoveredRef := isHoveredRef s; velocityFBO := velocityFBO s;
     densityFBO := densityFBO s; patternFBO := patternFBO s;
     splatMaterial := splatMaterial s; advectionMaterial := advectionMaterial s;
     asciiMaterial := asciiMaterial s; displayMaterial := displayMaterial s;
     fluidMesh_material := fluidMesh_material s |}.
Definition set_imageDimensions (v : _) (s : State) : State :=
  {| gl := gl s; timeRef := timeRef s; imageTexture := imageTexture s;
     imageDimensions := v; patternAtlas := patternAtlas s;
     altPatternAtlas := altPatternAtlas s; mouseRef := mouseRef s;
     lastMouseRef := lastMouseRef s; isMouseInitRef := isMouseInitRef s;
     isHoveredRef := isHoveredRef s; velocityFBO := velocityFBO s;
     densityFBO := densityFBO s; patternFBO := patternFBO s;
     splatMaterial := splatMaterial s; advectionMaterial := advectionMaterial s;
     asciiMaterial := asciiMaterial s; displayMaterial := displayMaterial s;
     fluidMesh_material := fluidMesh_material s |}.
Definition set_patternAtlas (v : _) (s : State) : State :=
  {| gl := gl s; timeRef := timeRef s; imageTexture := imageTexture s;
     imageDimensions := imageDimensions s; patternAtlas := v;
     altPatternAtlas := altPatternAtlas s; mouseRef := mouseRef s;
     lastMouseRef := lastMouseRef s; isMouseInitRef := isMouseInitRef s;
     isHoveredRef := isHoveredRef s; velocityFBO := velocityFBO s;
     densityFBO := densityFBO s; patternFBO := patternFBO s;
     splatMaterial := splatMaterial s; advectionMaterial := advectionMaterial s;
     asciiMaterial := asciiMaterial s; displayMaterial := displayMaterial s;
     fluidMesh_material := fluidMesh_material s |}.
Definition set_altPatternAtlas (v : _) (s : State) : State :=
  {| gl := gl s; timeRef := timeRef s; imageTexture := imageTexture s;
     imageDimensions := imageDimensions s; patternAtlas := patternAtlas s;
     altPatternAtlas := v; mouseRef := mouseRef s; lastMouseRef := lastMouseRef s;
     isMouseInitRef := isMouseInitRef s; isHoveredRef := isHoveredRef s;
     velocityFBO := velocityFBO s; densityFBO := densityFBO s; patternFBO := patternFBO s;
     splatMaterial := splatMaterial s; advectionMaterial := advectionMaterial s;
     asciiMaterial := asciiMaterial s; displayMaterial := displayMaterial s;
     fluidMesh_material := fluidMesh_material s |}.
Definition set_mouseRef (v : _) (s : State) : State :=
  {| gl := gl s; timeRef := timeRef s; imageTexture := imageTexture s;
     imageDimensions := imageDimensions s; patternAtlas := patternAtlas s;
     altPatternAtlas := altPatternAtlas s; mouseRef := v; lastMouseRef := lastMouseRef s;
     isMouseInitRef := isMouseInitRef s; isHoveredRef := isHoveredRef s;
     velocityFBO := velocityFBO s; densityFBO := densityFBO s; patternFBO := patternFBO s;
     splatMaterial := splatMaterial s; advectionMaterial := advectionMaterial s;
     asciiMaterial := asciiMaterial s; displayMaterial := displayMaterial s;
     fluidMesh_material := fluidMesh_material s |}.
Definition set_lastMouseRef (v : _) (s : State) : State :=
  {| gl := gl s; timeRef := timeRef s; imageTexture := imageTexture s;
     imageDimensions := imageDimensions s; patternAtlas := patternAtlas s;
     altPatternAtlas := altPatternAtlas s; mouseRef := mouseRef s; lastMouseRef := v;
     isMouseInitRef := isMouseInitRef s; isHoveredRef := isHoveredRef s;
     velocityFBO := velocityFBO s; densityFBO := densityFBO s; patternFBO := patternFBO s;
     splatMaterial := splatMaterial s; advectionMaterial := advectionMaterial s;
     asciiMaterial := asciiMaterial s; displayMaterial := displayMaterial s;
     fluidMesh_material := fluidMesh_material s |}.
Definition set_isMouseInitRef (v : _) (s : State) : State :=
  {| gl := gl s; timeRef := timeRef s; imageTexture := imageTexture s;
     imageDimensions := imageDimensions s; patternAtlas := patternAtlas s;
     altPatternAtlas := altPatternAtlas s; mouseRef := mouseRef s;
     lastMouseRef := lastMouseRef s; isMouseInitRef := v; isHoveredRef := isHoveredRef s;
     velocityFBO := velocityFBO s; densityFBO := densityFBO s; patternFBO := patternFBO s;
     splatMaterial := splatMaterial s; advectionMaterial := advectionMaterial s;
     asciiMaterial := asciiMaterial s; displayMaterial := displayMaterial s;
     fluidMesh_material := fluidMesh_material s |}.
Definition set_isHoveredRef (v : _) (s : State) : State :=
  {| gl := gl s; timeRef := timeRef s; imageTexture := imageTexture s;
     imageDimensions := imageDimensions s; patternAtlas := patternAtlas s;
     altPatternAtlas := altPatternAtlas s; mouseRef := mouseRef s;
     lastMouseRef := lastMouseRef s; isMouseInitRef := isMouseInitRef s; isHoveredRef := v;
     velocityFBO := velocityFBO s; densityFBO := densityFBO s; patternFBO := patternFBO s;
     splatMaterial := splatMaterial s; advectionMaterial := advectionMaterial s;
     asciiMaterial := asciiMaterial s; displayMaterial := displayMaterial s;
     fluidMesh_material := fluidMesh_material s |}.
Definition set_velocityFBO (v : _) (s : State) : State :=
  {| gl := gl s; timeRef := timeRef s; imageTexture := imageTexture s;
     imageDimensions := imageDimensions s; patternAtlas := patternAtlas s;
     altPatternAtlas := altPatternAtlas s; mouseRef := mouseRef s;
     lastMouseRef := lastMouseRef s; isMouseInitRef := isMouseInitRef s;
     isHoveredRef := isHoveredRef s; velocityFBO := v; densityFBO := densityFBO s;
     patternFBO := patternFBO s; splatMaterial := splatMaterial s;
     advectionMaterial := advectionMaterial s; asciiMaterial := asciiMaterial s;
     displayMaterial := displayMaterial s; fluidMesh_material := fluidMesh_material s |}.
Definition set_densityFBO (v : _) (s : State) : State :=
  {| gl := gl s; timeRef := timeRef s; imageTexture := imageTexture s;
     imageDimensions := imageDimensions s; patternAtlas := patternAtlas s;
     altPatternAtlas := altPatternAtlas s; mouseRef := mouseRef s;
     lastMouseRef := lastMouseRef s; isMouseInitRef := isMouseInitRef s;
     isHoveredRef := isHoveredRef s; velocityFBO := velocityFBO s; densityFBO := v;
     patternFBO := patternFBO s; splatMaterial := splatMaterial s;
     advectionMaterial := advectionMaterial s; asciiMaterial := asciiMaterial s;
     displayMaterial := displayMaterial s; fluidMesh_material := fluidMesh_material s |}.
Definition set_splatMaterial (v : _) (s : State) : State :=
  {| gl := gl s; timeRef := timeRef s; imageTexture := imageTexture s;
     imageDimensions := imageDimensions s; patternAtlas := patternAtlas s;
     altPatternAtlas := altPatternAtlas s; mouseRef := mouseRef s;
     lastMouseRef := lastMouseRef s; isMouseInitRef := isMouseInitRef s;
     isHoveredRef := isHoveredRef s; velocityFBO := velocityFBO s;
     densityFBO := densityFBO s; patternFBO := patternFBO s; splatMaterial := v;
     advectionMaterial := advectionMaterial s; asciiMaterial := asciiMaterial s;
     displayMaterial := displayMaterial s; fluidMesh_material := fluidMesh_material s |}.
Definition set_advectionMaterial (v : _) (s : State) : State :=
  {| gl := gl s; timeRef := timeRef s; imageTexture := imageTexture s;
     imageDimensions := imageDimensions s; patternAtlas := patternAtlas s;
     altPatternAtlas := altPatternAtlas s; mouseRef := mouseRef s;
     lastMouseRef := lastMouseRef s; isMouseInitRef := isMouseInitRef s;
     isHoveredRef := isHoveredRef s; velocityFBO := velocityFBO s;
     densityFBO := densityFBO s; patternFBO := patternFBO s;
     splatMaterial := splatMaterial s; advectionMaterial := v;
     asciiMaterial := asciiMaterial s; displayMaterial := displayMaterial s;
     fluidMesh_material := fluidMesh_material s |}.
Definition set_asciiMaterial (v : _) (s : State) : State :=
  {| gl := gl s; timeRef := timeRef s; imageTexture := imageTexture s;
     imageDimensions := imageDimensions s; patternAtlas := patternAtlas s;
     altPatternAtlas := altPatternAtlas s; mouseRef := mouseRef s;
     lastMouseRef := lastMouseRef s; isMouseInitRef := isMouseInitRef s;
     isHoveredRef := isHoveredRef s; velocityFBO := velocityFBO s;
     densityFBO := densityFBO s; patternFBO := patternFBO s;
     splatMaterial := splatMaterial s; advectionMaterial := advectionMaterial s;
     asciiMaterial := v; displayMaterial := displayMaterial s;
     fluidMesh_material := fluidMesh_material s |}.
Definition set_displayMaterial (v : _) (s : State) : State :=
  {| gl := gl s; timeRef := timeRef s; imageTexture := imageTexture s;
     imageDimensions := imageDimensions s; patternAtlas := patternAtlas s;
     altPatternAtlas := altPatternAtlas s; mouseRef := mouseRef s;
     lastMouseRef := lastMouseRef s; isMouseInitRef := isMouseInitRef s;
     isHoveredRef := isHoveredRef s; velocityFBO := velocityFBO s;
     densityFBO := densityFBO s; patternFBO := patternFBO s;
     splatMaterial := splatMaterial s; advectionMaterial := advectionMaterial s;
     asciiMaterial := asciiMaterial s; displayMaterial := v;
     fluidMesh_material := fluidMesh_material s |}.
Definition set_fluidMesh_material (v : _) (s : State) : State :=
  {| gl := gl s; timeRef := timeRef s; imageTexture := imageTexture s;
     imageDimensions := imageDimensions s; patternAtlas := patternAtlas s;
     altPatternAtlas := altPatternAtlas s; mouseRef := mouseRef s;
     lastMouseRef := lastMouseRef s; isMouseInitRef := isMouseInitRef s;
     isHoveredRef := isHoveredRef s; velocityFBO := velocityFBO s;
     densityFBO := densityFBO s; patternFBO := patternFBO s;
     splatMaterial := splatMaterial s; advectionMaterial := advectionMaterial s;
     asciiMaterial := asciiMaterial s; displayMaterial := displayMaterial s;
     fluidMesh_material := v |}.

Definition isSome {A} (o : option A) : bool :=
  match o with Some _ => true | None => false end.

Definition float_of_bool (b : bool) : Q := if b then 1 else 0.

Section AsciiFluidScene.
Context {B : Builtins}.

Definition newSplatMaterial : Splat.uniforms :=
  {| Splat.texelSize := V2 (1 / 128) (1 / 128); Splat.uTarget := None;
     Splat.aspectRatio := 1; Splat.color := V3 0 0 0; Splat.point := V2 0 0;
     Splat.radius := 0.0035 |}.

Definition newAdvectionMaterial : Advection.uniforms :=
  {| Advection.texelSize := V2 (1 / 128) (1 / 128); Advection.uVelocity := None;
     Advection.uSource := None; Advection.dt := 0.016; Advection.dissipation := 1 |}.

Definition newAsciiMaterial (p : SceneProps) (h : Hooks) : Ascii.uniforms :=
  {| Ascii.uImage := None;
     Ascii.uImageDimensions := V2 1 1;
     Ascii.uDeformTexture := None;
     Ascii.uResolution := V2 (width h) (height h);
     Ascii.uLogicalResolution := V2 (width h) (height h);
     Ascii.uCoordinateScale := 1;
     Ascii.uBaseTileSize := tileSize p;
     Ascii.uTime := 0;
     Ascii.uSaturation := saturation p;
     Ascii.uBrightness := 0;
     Ascii.uContrast := 1;
     Ascii.uExposure := 0;
     Ascii.uAltPatternOpacity := 1;
     Ascii.uFadeThreshold := 0.1;
     Ascii.uFadeWidth := 0.05;
     Ascii.uPatternAtlas := None;
     Ascii.uAltPatternAtlas := None;
     Ascii.uPatternAtlasColumns := 4;
     Ascii.uAltPatternAtlasColumns := 6;
     Ascii.uDarkMode := float_of_bool (darkMode p) |}.

(** The component as first mounted: render targets 0 to 4, nothing loaded. *)
Definition mount (p : SceneProps) (h : Hooks) (g : Renderer Drawing) : State :=
  let '(velocityFBO, fresh) := newDoubleFBO 0%nat in
  let '(densityFBO, fresh) := newDoubleFBO fresh in
  {| gl := g; timeRef := 0; imageTexture := None; imageDimensions := V2 1 1;
     patternAtlas := None; altPatternAtlas := None;
     mouseRef := V2 (-1) (-1); lastMouseRef := V2 (-1) (-1);
     isMouseInitRef := false; isHoveredRef := false;
     velocityFBO := velocityFBO; densityFBO := densityFBO; patternFBO := fresh;
     splatMaterial := newSplatMaterial; advectionMaterial := newAdvectionMaterial;
     asciiMaterial := newAsciiMaterial p h; displayMaterial := None;
     fluidMesh_material := SplatMaterial |}.

(** The texture loader's callbacks. *)
Definition onImageLoaded (t : sampler2D) (dimensions : option vec2) : Cmd State :=
  set_imageTexture (Some t) ;;
  match dimensions with
  | Some d => set_imageDimensions d
  | None => skip
  end.
Definition setPatternAtlas (t : sampler2D) : Cmd State := set_patternAtlas (Some t).
Definition setAltPatternAtlas (t : sampler2D) : Cmd State := set_altPatternAtlas (Some t).

(** The pointer handlers; [x], [y] are the pointer position relative to the
    canvas rectangle, as the handler computes it from the event. *)
Definition handleMouseMove (x y : Q) : Cmd State :=
  set_mouseRef (V2 x y) ;;
  set_isHoveredRef true.

Definition handleMouseLeave : Cmd State :=
  set_isHoveredRef false ;;
  set_isMouseInitRef false.

Definition gl_setRenderTarget (t : State -> option Target) : Cmd State :=
  fun s => set_gl (setRenderTarget (t s) (gl s)) s.

Definition gl_setAutoClear (b : bool) : Cmd State :=
  fun s => set_gl (setAutoClear b (gl s)) s.

Definition setSizeOf (t : State -> Target) (w h : Q) : Cmd State :=
  fun s => set_gl (setSize (t s) w h (gl s)) s.

Definition render_fluidScene : Cmd State := fun s =>
  let g := gl s in
  match fluidMesh_material s with
  | SplatMaterial =>
      let u := splatMaterial s in
      set_gl (render (DrawSplat u)
                (splatShader (sample g (Splat.uTarget u)) (Splat.aspectRatio u)
                   (Splat.color u) (Splat.point u) (Splat.radius u)) g) s
  | AdvectionMaterial =>
      let u := advectionMaterial s in
      set_gl (render (DrawAdvection u)
                (advectionShader (sample g (Advection.uVelocity u))
                   (sample g (Advection.uSource u)) (Advection.texelSize u)
                   (Advection.dt u) (Advection.dissipation u)) g) s
  end.

Definition fragCoord (g : Renderer Drawing) (vUv : vec2) : vec2 :=
  match renderTarget g with
  | Some t => V2 (vx vUv * fst (extent g t)) (vy vUv * snd (extent g t))
  | None => vUv
  end.

Definition render_patternScene : Cmd State := fun s =>
  let g := gl s in
  let u := asciiMaterial s in
  set_gl (render (DrawAscii u) (fun vUv => main u (sample g) (fragCoord g vUv) vUv) g) s.

Definition render_displayScene : Cmd State := fun s =>
  let g := gl s in
  set_gl (render (DrawDisplay (displayMaterial s)) (sample g (displayMaterial s)) g) s.

Definition velocityFBO_swap : Cmd State := fun s => set_velocityFBO (swap (velocityFBO s)) s.
Definition densityFBO_swap : Cmd State := fun s => set_densityFBO (swap (densityFBO s)) s.

Definition moved (deltaX deltaY : Q) : bool :=
  gtb (Qabs deltaX) 0.1 || gtb (Qabs deltaY) 0.1.

Definition splat (h : Hooks) (mouse : vec2) (deltaX deltaY : Q) : Cmd State :=
  reading (fun s =>
    set_splatMaterial
      {| Splat.texelSize := Splat.texelSize (splatMaterial s);
         Splat.uTarget := Some (TargetTexture (read (velocityFBO s)));
         Splat.aspectRatio := width h / height h;
         Splat.color := V3 (deltaX * 5) (deltaY * 5) 1;
         Splat.point := V2 (vx mouse) (vy mouse);
         Splat.radius := Splat.radius (splatMaterial s) |}) ;;
  set_fluidMesh_material SplatMaterial ;;
  gl_setRenderTarget (fun s => Some (write (velocityFBO s))) ;;
  render_fluidScene ;;
  velocityFBO_swap ;;
  reading (fun s =>
    set_splatMaterial
      {| Splat.texelSize := Splat.texelSize (splatMaterial s);
         Splat.uTarget := Some (TargetTexture (read (densityFBO s)));
         Splat.aspectRatio := Splat.aspectRatio (splatMaterial s);
         Splat.color :=
           V3 (Qabs deltaX * 0.1 + 0.2) (Qabs deltaY * 0.1 + 0.3)
              (Qabs (deltaX + deltaY) * 0.05 + 0.5);
         Splat.point := Splat.point (splatMaterial s);
         Splat.radius := Splat.radius (splatMaterial s) |}) ;;
  gl_setRenderTarget (fun s => Some (write (densityFBO s))) ;;
  render_fluidScene ;;
  densityFBO_swap.

(** The block under [// Advection]. *)
Definition advect : Cmd State :=
  reading (fun s =>
    set_advectionMaterial
      {| Advection.texelSize := Advection.texelSize (advectionMaterial s);
         Advection.uVelocity := Some (TargetTexture (read (velocityFBO s)));
         Advection.uSource := Some (TargetTexture (read (velocityFBO s)));
         Advection.dt := Advection.dt (advectionMaterial s);
         Advection.dissipation := 0.9 |}) ;;
  set_fluidMesh_material AdvectionMaterial ;;
  gl_setRenderTarget (fun s => Some (write (velocityFBO s))) ;;
  render_fluidScene ;;
  velocityFBO_swap ;;
  reading (fun s =>
    set_advectionMaterial
      {| Advection.texelSize := Advection.texelSize (advectionMaterial s);
         Advection.uVelocity := Advection.uVelocity (advectionMaterial s);
         Advection.uSource := Some (TargetTexture (read (densityFBO s)));
         Advection.dt := Advection.dt (advectionMaterial s);
         Advection.dissipation := 0.96 |}) ;;
  gl_setRenderTarget (fun s => Some (write (densityFBO s))) ;;
  render_fluidScene ;;
  densityFBO_swap.

(** The block under [// Fluid simulation]. *)
Definition paint (p : SceneProps) (h : Hooks) : Cmd State :=
  reading (fun s =>
    when (enableInteractivity p && isHoveredRef s)
      (let mouse := mouseRef s in
       if negb (isMouseInitRef s) then
         set_isMouseInitRef true ;;
         set_lastMouseRef mouse
       else
         let deltaX := (vx mouse - vx (lastMouseRef s)) * 100 in
         let deltaY := (vy mouse - vy (lastMouseRef s)) * 100 in
         when (moved deltaX deltaY) (splat h mouse deltaX deltaY) ;;
         set_lastMouseRef mouse)).

Definition renderWidth (h : Hooks) : Q := inject_Z (Math_round (width h * 2 * devicePixelRatio h)).
Definition renderHeight (h : Hooks) : Q := inject_Z (Math_round (height h * 2 * devicePixelRatio h)).

(** The assignments to [asciiMaterial.uniforms]. *)
Definition asciiUniforms (h : Hooks) (s : State) : Ascii.uniforms :=
  let old := asciiMaterial s in
  {| Ascii.uImage := option_map Loaded (imageTexture s);
     Ascii.uImageDimensions := imageDimensions s;
     Ascii.uDeformTexture := Some (TargetTexture (read (densityFBO s)));
     Ascii.uResolution := V2 (renderWidth h) (renderHeight h);
     Ascii.uLogicalResolution := V2 (width h) (height h);
     Ascii.uCoordinateScale := width h / renderWidth h;
     Ascii.uBaseTileSize := Ascii.uBaseTileSize old;
     Ascii.uTime := timeRef s;
     Ascii.uSaturation := Ascii.uSaturation old;
     Ascii.uBrightness := Ascii.uBrightness old;
     Ascii.uContrast := Ascii.uContrast old;
     Ascii.uExposure := Ascii.uExposure old;
     Ascii.uAltPatternOpacity := Ascii.uAltPatternOpacity old;
     Ascii.uFadeThreshold := Ascii.uFadeThreshold old;
     Ascii.uFadeWidth := Ascii.uFadeWidth old;
     Ascii.uPatternAtlas := option_map Loaded (patternAtlas s);
     Ascii.uAltPatternAtlas := option_map Loaded (altPatternAtlas s);
     Ascii.uPatternAtlasColumns := Ascii.uPatternAtlasColumns old;
     Ascii.uAltPatternAtlasColumns := Ascii.uAltPatternAtlasColumns old;
     Ascii.uDarkMode := Ascii.uDarkMode old |}.

(** The block under [// ASCII pattern render]. *)
Definition composite (h : Hooks) : Cmd State :=
  reading (fun s => set_asciiMaterial (asciiUniforms h s)) ;;
  setSizeOf patternFBO (renderWidth h) (renderHeight h) ;;
  gl_setRenderTarget (fun s => Some (patternFBO s)) ;;
  render_patternScene.

(** The block under [// Display], up to the render call. *)
Definition present : Cmd State :=
  reading (fun s => set_displayMaterial (Some (TargetTexture (patternFBO s)))) ;;
  gl_setRenderTarget (fun _ => None) ;;
  gl_setAutoClear false ;;
  render_displayScene.

Definition ready (s : State) : bool :=
  isSome (imageTexture s) && isSome (patternAtlas s) && isSome (altPatternAtlas s).

(** The callback given to [useFrame]. *)
Definition useFrame (p : SceneProps) (h : Hooks) : Cmd State :=
  reading (fun s =>
    if negb (ready s) then skip
    else
      (fun s => set_timeRef (timeRef s + 0.05) s) ;;
      reading (fun s =>
        let prevTarget := getRenderTarget (gl s) in
        let prevAutoClear := autoClear (gl s) in
        paint p h ;;
        advect ;;
        composite h ;;
        present ;;
        gl_setRenderTarget (fun _ => prevTarget) ;;
        gl_setAutoClear prevAutoClear)).

(** *** Observing a frame *)

Definition trace (p : SceneProps) (h : Hooks) (s : State) : list (Pass Drawing) :=
  rev (passes (gl (useFrame p h (set_gl (clearPasses (gl s)) s)))).

End AsciiFluidScene.

Definition is_splat (x : Pass Drawing) : bool :=
  match what x with DrawSplat _ => true | _ => false end.

Definition is_advection (x : Pass Drawing) : bool :=
  match what x with DrawAdvection _ => true | _ => false end.

Fixpoint patternPassTileSize (t : list (Pass Drawing)) : option Q :=
  match t with
  | [] => None
  | x :: t' =>
      match what x with
      | DrawAscii u => Some (Ascii.uBaseTileSize u)
      | _ => patternPassTileSize t'
      end
  end.

Definition deltaX (s : State) : Q := (vx (mouseRef s) - vx (lastMouseRef s)) * 100.
Definition deltaY (s : State) : Q := (vy (mouseRef s) - vy (lastMouseRef s)) * 100.

End CardAsciiPattern.

(** ** Inputs for evaluating the model *)

Module Sample.
Import Glsl Three.

(** A rational stand-in for the built-ins: [pow] is exact at integer
    exponents, the others are truncated series exact at 0.  The theorems
    hold for every instance; this one only evaluates the model on concrete
    inputs. *)
#[export] Instance builtins : Builtins := {|
  pow := fun x y => Qpower x (Qfloor y);
  sin := fun x => x - x * x * x / 6;
  exp := fun x => 1 + x + x * x / 2;
  sqrt := fun x => x
|}.

(** A renderer as the canvas provides it: drawing to the canvas, automatic
    clearing on, every target transparent black and of size 1 x 1. *)
Definition renderer {D : Type} : Renderer D :=
  {| renderTarget := None; autoClear := true; contents := fun _ _ => V4 0 0 0 0;
     extent := fun _ => (1, 1); canvas := fun _ => V4 0 0 0 0; passes := [] |}.

(** An atlas with no ink anywhere, and one whose columns left of 3/4 are
    opaque. *)
Definition emptyAtlas : sampler2D := fun _ => V4 0 0 0 0.
Definition inkLeftAtlas : sampler2D :=
  fun uv => if ltb (vx uv) 0.75 then V4 0 0 0 1 else V4 0 0 0 0.

(** A uniformly coloured picture. *)
Definition flat (c : vec3) : sampler2D := fun _ => vec4_of c 1.

End Sample.

(** ** Which textures a render call samples *)

Module Feedback.
Import Glsl Three.

Definition isTarget (t : Target) (x : option Texture) : bool :=
  match x with
  | Some (TargetTexture t') => Nat.eqb t' t
  | _ => false
  end.

(** Whether a render call of the 3D card samples the texture of target [t]. *)
Definition samples3d (d : Card3DAscii.Drawing) (t : Target) : bool :=
  match d with
  | Card3DAscii.DrawFill _ => false
  | Card3DAscii.DrawSplat u => isTarget t (Splat.uTarget u)
  | Card3DAscii.DrawAdvection u =>
      isTarget t (Advection.uVelocity u) || isTarget t (Advection.uSource u)
  | Card3DAscii.DrawModel => false
  | Card3DAscii.DrawAscii u =>
      isTarget t (Card3DAscii.Ascii.uImage u)
      || isTarget t (Card3DAscii.Ascii.uDeformTexture u)
      || isTarget t (Card3DAscii.Ascii.uPatternAtlas u)
      || isTarget t (Card3DAscii.Ascii.uAltPatternAtlas u)
  | Card3DAscii.DrawCustom _ u => isTarget t (Card3DAscii.Custom.uImage u)
  | Card3DAscii.DrawDisplay uMap => isTarget t uMap
  end.

(** Whether a render call of the image card samples the texture of [t]. *)
Definition samples2d (d : CardAsciiPattern.Drawing) (t : Target) : bool :=
  match d with
  | CardAsciiPattern.DrawSplat u => isTarget t (Splat.uTarget u)
  | CardAsciiPattern.DrawAdvection u =>
      isTarget t (Advection.uVelocity u) || isTarget t (Advection.uSource u)
  | CardAsciiPattern.DrawAscii u =>
      isTarget t (CardAsciiPattern.Ascii.uImage u)
      || isTarget t (CardAsciiPattern.Ascii.uDeformTexture u)
      || isTarget t (CardAsciiPattern.Ascii.uPatternAtlas u)
      || isTarget t (CardAsciiPattern.Ascii.uAltPatternAtlas u)
  | CardAsciiPattern.DrawDisplay uMap => isTarget t uMap
  end.

(** A render call that does not sample the target it draws into. *)
Definition feedbackFree {D} (samples : D -> Target -> bool) (x : Pass D) : bool :=
  match into x with
  | Some t => negb (samples (what x) t)
  | None => true
  end.

End Feedback.

(** ** Kinds of render calls of the image card *)

Module Trace2D.
Import Three.

Inductive Kind := SPLAT | ADVECTION | PATTERN | DISPLAY.

Definition kind (d : CardAsciiPattern.Drawing) : Kind :=
  match d with
  | CardAsciiPattern.DrawSplat _ => SPLAT
  | CardAsciiPattern.DrawAdvection _ => ADVECTION
  | CardAsciiPattern.DrawAscii _ => PATTERN
  | CardAsciiPattern.DrawDisplay _ => DISPLAY
  end.

Definition kinds (t : list (Pass CardAsciiPattern.Drawing)) : list Kind :=
  map (fun x => kind (what x)) t.

End Trace2D.

(** ** What a frame of the 3D card draws, and where *)

Module Trace3D.
Import Three.

Inductive Kind := FILL | SPLAT | ADVECTION | MODEL | PATTERN | FILTER | DISPLAY.

Definition kind (d : Card3DAscii.Drawing) : Kind :=
  match d with
  | Card3DAscii.DrawFill _ => FILL
  | Card3DAscii.DrawSplat _ => SPLAT
  | Card3DAscii.DrawAdvection _ => ADVECTION
  | Card3DAscii.DrawModel => MODEL
  | Card3DAscii.DrawAscii _ => PATTERN
  | Card3DAscii.DrawCustom _ _ => FILTER
  | Card3DAscii.DrawDisplay _ => DISPLAY
  end.

(** Each render call of a trace with the target it draws into; [None] is
    the canvas. *)
Definition calls (t : list (Pass Card3DAscii.Drawing)) : list (Kind * option Target) :=
  map (fun x => (kind (what x), into x)) t.

End Trace3D.

(** ** Card3DAscii.tsx: the card component's pointer handlers *)

Module Card3D.
Import Glsl.

(** The fields of a [DOMRect] the handlers read. *)
Record DOMRect := { left : Q; top : Q; width : Q; height : Q }.

(** [isHovered], [mouseUVRef.current] and [rectRef.current]. *)
Record CardState := {
  isHovered : bool;
  mouseUVRef : vec2;
  rectRef : option DOMRect
}.

(** The card as first rendered. *)
Definition initial : CardState :=
  {| isHovered := false; mouseUVRef := V2 (-1) (-1); rectRef := None |}.

(** [updateRect]; [container] is the bounding rectangle of
    [containerRef.current], [None] when that ref is null. *)
Definition updateRect (container : option DOMRect) (c : CardState) : CardState :=
  match container with
  | Some rect => {| isHovered := isHovered c; mouseUVRef := mouseUVRef c; rectRef := Some rect |}
  | None => c
  end.

Definition handleMouseMove (container : option DOMRect) (clientX clientY : Q)
    (c : CardState) : CardState :=
  let c := match rectRef c with None => updateRect container c | Some _ => c end in
  match rectRef c with
  | None => c
  | Some rect =>
      let x := (clientX - left rect) / width rect in
      let y := 1 - (clientY - top rect) / height rect in
      {| isHovered := isHovered c;
         mouseUVRef := V2 (Qmax 0 (Qmin 1 x)) (Qmax 0 (Qmin 1 y));
         rectRef := rectRef c |}
  end.

Definition handleMouseEnter (container : option DOMRect) (c : CardState) : CardState :=
  let c := updateRect container c in
  {| isHovered := true; mouseUVRef := mouseUVRef c; rectRef := rectRef c |}.

Definition handleMouseLeave (c : CardState) : CardState :=
  {| isHovered := false; mouseUVRef := V2 (-1) (-1); rectRef := rectRef c |}.

(** The props [Scene3DAscii] gets from the card: [p] with [mouseUV] and
    [isCardHovered] taken from the card's state. *)
Definition sceneProps (p : Card3DAscii.SceneProps) (c : CardState) : Card3DAscii.SceneProps :=
  {| Card3DAscii.tileSize := Card3DAscii.tileSize p;
     Card3DAscii.darkMode := Card3DAscii.darkMode p;
     Card3DAscii.saturation := Card3DAscii.saturation p;
     Card3DAscii.brightness := Card3DAscii.brightness p;
     Card3DAscii.contrast := Card3DAscii.contrast p;
     Card3DAscii.exposure := Card3DAscii.exposure p;
     Card3DAscii.animationSpeed := Card3DAscii.animationSpeed p;
     Card3DAscii.enablePainting := Card3DAscii.enablePainting p;
     Card3DAscii.paintRadius := Card3DAscii.paintRadius p;
     Card3DAscii.velocityDissipation := Card3DAscii.velocityDissipation p;
     Card3DAscii.densityDissipation := Card3DAscii.densityDissipation p;
     Card3DAscii.useBlockyPattern := Card3DAscii.useBlockyPattern p;
     Card3DAscii.luminanceOffset := Card3DAscii.luminanceOffset p;
     Card3DAscii.fadeThreshold := Card3DAscii.fadeThreshold p;
     Card3DAscii.fadeWidth := Card3DAscii.fadeWidth p;
     Card3DAscii.patternOpacity := Card3DAscii.patternOpacity p;
     Card3DAscii.enableFadeTransition := Card3DAscii.enableFadeTransition p;
     Card3DAscii.invertLuminance := Card3DAscii.invertLuminance p;
     Card3DAscii.mouseUV := mouseUVRef c;
     Card3DAscii.isCardHovered := isHovered c;
     Card3DAscii.shaderType := Card3DAscii.shaderType p;
     Card3DAscii.shaderIntensity := Card3DAscii.shaderIntensity p |}.

End Card3D.

(** ** shaders.ts: the parts of the filters that are plain arithmetic *)

Module Filters.
Import Glsl.

Definition fract (x : Q) : Q := x - floor x.

(** [thermalGradient] of [thermalShader]; [colors[i]] is [colorAt i]. *)
Definition colors : list vec3 :=
  [V3 0 0 0; V3 0 0 0.5; V3 0.5 0 0.5; V3 1 0 0; V3 1 0.5 0; V3 1 1 0; V3 1 1 1].

Definition colorAt (i : Z) : vec3 := nth (Z.to_nat i) colors (V3 0 0 0).

Definition thermalGradient (t : Q) : vec3 :=
  let t := clamp t 0 1 * 6 in
  let i := Qfloor t in
  let f := fract t in
  if (6 <=? i)%Z then colorAt 6
  else
    let c1 := colorAt i in
    let c2 := colorAt (i + 1) in
    mix3 c1 c2 f.

(** The first statements of [main] of [pixelateShader]: the block size, the
    point of the image a fragment samples, and the colour reduction. *)
Definition pixelSize (uBaseTileSize uIntensity : Q) : Q :=
  uBaseTileSize * (1 + uIntensity * 2).

Definition pixelateUV (uResolution : vec2) (uBaseTileSize uIntensity : Q) (vUv : vec2) : vec2 :=
  let pixelSize := pixelSize uBaseTileSize uIntensity in
  let pixels := V2 (vx uResolution / pixelSize) (vy uResolution / pixelSize) in
  V2 (floor (vx vUv * vx pixels) / vx pixels) (floor (vy vUv * vy pixels) / vy pixels).

Definition levels (uIntensity : Q) : Q := mix 256 4 uIntensity.

Definition reduceColor (uIntensity : Q) (color : vec3) : vec3 :=
  let levels := levels uIntensity in
  map3 (fun c => floor (c * levels) / levels) color.

End Filters.

(** ** Card3DAscii.tsx: the blend of the regular and the alternate colour *)

Module Blend.
Import Glsl.

(** The statements of [main] that set [transitionFactor], as a function of
    the three uniforms and the paint strength of the tile. *)
Definition transitionFactor
    (uEnableFadeTransition uFadeThreshold uFadeWidth paintStrength : Q) : Q :=
  if gtb uEnableFadeTransition 0.5 then
    let fadeStart := uFadeThreshold in
    let fadeEnd := uFadeThreshold + uFadeWidth in
    smoothstep fadeStart fadeEnd paintStrength
  else
    let useAltPatterns := gtb paintStrength uFadeThreshold in
    if useAltPatterns then 1 else 0.

End Blend.

(** ** Samplers as fields *)

Module Fields.
Import Glsl.

Definition eq2 (p q : vec2) : Prop := vx p == vx q /\ vy p == vy q.

Definition eq4 (c d : vec4) : Prop :=
  c4r c == c4r d /\ c4g c == c4g d /\ c4b c == c4b d /\ c4a c == c4a d.

(** A sampler that gives equal colours at equal points. *)
Definition extensional (t : sampler2D) : Prop :=
  forall p q, eq2 p q -> eq4 (t p) (t q).

(** A velocity field that is zero everywhere. *)
Definition still (velocity : sampler2D) : Prop :=
  forall p, c4r (velocity p) == 0 /\ c4g (velocity p) == 0.

(** [a] multiplied by itself [n] times. *)
Fixpoint power (a : Q) (n : nat) : Q :=
  match n with
  | O => 1
  | S k => a * power a k
  end.

End Fields.

(** ** Sample scenes *)

Module Examples.
Import Glsl Three.

(** A stand-in for the ten filters: each shows the captured image. *)
Definition shaderMap :
    Card3DAscii.ShaderType -> Card3DAscii.Custom.uniforms -> sampler2D -> sampler2D :=
  fun _ _ image => image.

Definition hooks3d : Card3DAscii.Hooks :=
  {| Card3DAscii.width := 300; Card3DAscii.height := 200;
     Card3DAscii.devicePixelRatio := 1;
     Card3DAscii.modelRender := Sample.flat (V3 0.2 0.4 0.6) |}.

(** The defaults of [Card3DAscii] with painting enabled and the pointer
    over the card at [mouse]. *)
Definition paintingProps (mouse : vec2) : Card3DAscii.SceneProps :=
  {| Card3DAscii.tileSize := 6; Card3DAscii.darkMode := false;
     Card3DAscii.saturation := 1; Card3DAscii.brightness := 0;
     Card3DAscii.contrast := 1; Card3DAscii.exposure := 0;
     Card3DAscii.animationSpeed := 1; Card3DAscii.enablePainting := true;
     Card3DAscii.paintRadius := 0.0035; Card3DAscii.velocityDissipation := 0.9;
     Card3DAscii.densityDissipation := 0.98; Card3DAscii.useBlockyPattern := true;
     Card3DAscii.luminanceOffset := 0.85; Card3DAscii.fadeThreshold := 0.1;
     Card3DAscii.fadeWidth := 0.05; Card3DAscii.patternOpacity := 1;
     Card3DAscii.enableFadeTransition := false; Card3DAscii.invertLuminance := true;
     Card3DAscii.mouseUV := mouse; Card3DAscii.isCardHovered := true;
     Card3DAscii.shaderType := Card3DAscii.ascii; Card3DAscii.shaderIntensity := 0.8 |}.

(** The 3D card mounted with props [p], both atlases loaded. *)
Definition scene3d (p : Card3DAscii.SceneProps) : Card3DAscii.State :=
  Card3DAscii.setAltPatternAtlas Sample.inkLeftAtlas
    (Card3DAscii.setPatternAtlas Sample.inkLeftAtlas
       (Card3DAscii.mount p hooks3d Sample.renderer)).

Definition hooks2d : CardAsciiPattern.Hooks :=
  {| CardAsciiPattern.width := 300; CardAsciiPattern.height := 200;
     CardAsciiPattern.devicePixelRatio := 1 |}.

(** The defaults of [CardAsciiPattern]. *)
Definition props2d : CardAsciiPattern.SceneProps :=
  {| CardAsciiPattern.tileSize := 8; CardAsciiPattern.saturation := 1;
     CardAsciiPattern.darkMode := false; CardAsciiPattern.enableInteractivity := true |}.

(** The image card mounted, its image and both atlases loaded. *)
Definition scene2d : CardAsciiPattern.State :=
  CardAsciiPattern.setAltPatternAtlas Sample.inkLeftAtlas
    (CardAsciiPattern.setPatternAtlas Sample.inkLeftAtlas
       (CardAsciiPattern.onImageLoaded (Sample.flat (V3 0.2 0.4 0.6)) (Some (V2 640 480))
          (CardAsciiPattern.mount props2d hooks2d Sample.renderer))).

(** The 3D card after a first frame with the pointer over it at [mouse]:
    the density pair is initialised and the pointer has a history. *)
Definition hovered3d (mouse : vec2) : Card3DAscii.State :=
  Card3DAscii.useFrame (B := Sample.builtins) shaderMap (paintingProps mouse) hooks3d
    (scene3d (paintingProps mouse)).

(** The mounted 3D card with a uniform flow in the read buffer of the
    velocity pair and a ramp in the read buffer of the density pair. *)
Definition flowing3d : Card3DAscii.State :=
  let s := scene3d (paintingProps (V2 0.5 0.5)) in
  Card3DAscii.set_gl
    {| renderTarget := None; autoClear := true;
       contents := fun t uv =>
         if Nat.eqb t (read (Card3DAscii.velocityFBO s)) then V4 2 1 0 1
         else if Nat.eqb t (read (Card3DAscii.densityFBO s)) then V4 (vx uv) (vy uv) 0.5 1
         else V4 0 0 0 0;
       extent := fun _ => (1, 1); canvas := fun _ => V4 0 0 0 0; passes := [] |} s.

(** The image card after a first frame with the pointer over the canvas at
    [(x, y)]: the pointer has a history. *)
Definition hovered2d (x y : Q) : CardAsciiPattern.State :=
  CardAsciiPattern.useFrame (B := Sample.builtins) props2d hooks2d
    (CardAsciiPattern.handleMouseMove x y scene2d).

End Examples.

(** * Properties *)

(** ** Facts about the GLSL layer *)

Section GlslFacts.
Import Glsl.

Lemma ltb_lt x y : ltb x y = true <-> x < y.
Proof.
  unfold ltb. rewrite negb_true_iff, <- not_true_iff_false, Qle_bool_iff.
  split; [apply Qnot_le_lt | apply Qlt_not_le].
Qed.

Lemma ltb_ge x y : ltb x y = false <-> y <= x.
Proof. unfold ltb. rewrite negb_false_iff. apply Qle_bool_iff. Qed.

Lemma gtb_gt x y : gtb x y = true <-> y < x.
Proof. apply ltb_lt. Qed.

Lemma gtb_le x y : gtb x y = false <-> x <= y.
Proof. apply ltb_ge. Qed.

Lemma geb_ge x y : geb x y = true <-> y <= x.
Proof. apply Qle_bool_iff. Qed.

Lemma clamp_in_unit x : in_unit (clamp x 0 1).
Proof.
  unfold in_unit, clamp. split.
  - apply Q.min_glb; [apply Q.le_max_r | lra].
  - apply Q.le_min_r.
Qed.

Lemma map3_clamp_in_unit (f : Q -> Q) c : in_unit3 (map3 (fun x => clamp (f x) 0 1) c).
Proof. repeat split; apply clamp_in_unit. Qed.

Lemma mix_one x y : mix x y 1 == y.
Proof. unfold mix. ring. Qed.

Lemma mix_zero x y : mix x y 0 == x.
Proof. unfold mix. ring. Qed.

End GlslFacts.

(** ** Pattern index selection *)

Section PatternIndex.
Import Glsl Shader.

Lemma Qfloor_bucket s :
  0.5 <= s -> s < 3.5 -> (0 <= Qfloor (s * 0.8) <= 2)%Z.
Proof.
  intros Hlo Hhi. split.
  - change 0%Z with (Qfloor 0). apply Qfloor_resp_le. lra.
  - change 2%Z with (Qfloor 2.8). apply Qfloor_resp_le. lra.
Qed.

Lemma patternIndexOf_range lum : (0 <= patternIndexOf lum <= 5)%Z.
Proof. unfold patternIndexOf, iclamp. lia. Qed.

Lemma patternIndexOf_monotone lum lum' :
  lum <= lum' -> (patternIndexOf lum <= patternIndexOf lum')%Z.
Proof.
  intros Hle. unfold patternIndexOf, iclamp.
  assert (Hs : lum * 5 <= lum' * 5) by lra.
  destruct (ltb (lum * 5) 0.5) eqn:A1; [| destruct (ltb (lum * 5) 3.5) eqn:A2;
    [| destruct (ltb (lum * 5) 5) eqn:A3]];
  (destruct (ltb (lum' * 5) 0.5) eqn:B1; [| destruct (ltb (lum' * 5) 3.5) eqn:B2;
    [| destruct (ltb (lum' * 5) 5) eqn:B3]]);
  rewrite ?ltb_lt, ?ltb_ge in *;
  try (exfalso; lra);
  try (pose proof (Qfloor_bucket (lum * 5) ltac:(assumption) ltac:(assumption)));
  try (pose proof (Qfloor_bucket (lum' * 5) ltac:(assumption) ltac:(assumption)));
  try (assert (Qfloor (lum * 5 * 0.8) <= Qfloor (lum' * 5 * 0.8))%Z
         by (apply Qfloor_resp_le; lra));
  lia.
Qed.

(** C1.  For every luminance [l] in [0,1] and every inversion offset [o],
    the pattern index selected from [o - l] is an integer between 0 and 5,
    and it does not decrease when [o - l] grows. *)
Theorem pattern_index_bounded_and_monotone (o l l' : Q) :
  in_unit l -> in_unit l' -> o - l <= o - l' ->
  (0 <= patternIndexOf (o - l) <= 5)%Z
  /\ (patternIndexOf (o - l) <= patternIndexOf (o - l'))%Z.
Proof.
  intros _ _ Hle. split.
  - apply patternIndexOf_range.
  - apply patternIndexOf_monotone, Hle.
Qed.

Lemma pattern_index_bounded_and_monotone_witness :
  (0 <= patternIndexOf (0.85 - 1) <= 5)%Z
  /\ (patternIndexOf (0.85 - 1) <= patternIndexOf (0.85 - 0))%Z.
Proof.
  apply (pattern_index_bounded_and_monotone 0.85 1 0);
    unfold in_unit; try split; lra.
Defined.

End PatternIndex.

(** ** The colour adjustment stage *)

Section ColorAdjustment.
Import Glsl Shader.
Context {B : Builtins}.

Lemma clamp_settles x k : x == k -> in_unit k -> clamp x 0 1 == k.
Proof.
  intros Hx [H0 H1]. unfold clamp.
  rewrite Q.max_l by lra. rewrite Q.min_l by lra. exact Hx.
Qed.

Lemma adjustSaturation_one color : eq3 (adjustSaturation color 1) color.
Proof. repeat split; apply mix_one. Qed.

Lemma adjustSaturation_zero color :
  eq3 (adjustSaturation color 0) (splat3 (calculateLuminance color)).
Proof. repeat split; apply mix_zero. Qed.

(** Pure red at saturation 2, with neutral exposure, brightness and
    contrast: the red channel leaves the unit interval. *)
Lemma saturation_overshoots :
  pow 2 0 == 1 -> 1 < cr (processImageColor 0 0 1 2 (V3 1 0 0)).
Proof.
  intros Hpow.
  unfold processImageColor, adjustSaturation, adjustContrast, adjustBrightness,
    adjustExposure, calculateLuminance, mix3, zip3, splat3, map3, mix.
  cbn [cr cg cb].
  assert (Er : clamp (1 * pow 2 0) 0 1 == 1)
    by (apply clamp_settles; [lra | unfold in_unit; lra]).
  assert (Ez : clamp (0 * pow 2 0) 0 1 == 0)
    by (apply clamp_settles; [lra | unfold in_unit; lra]).
  assert (Br : clamp (clamp (1 * pow 2 0) 0 1 + 0) 0 1 == 1)
    by (apply clamp_settles; [lra | unfold in_unit; lra]).
  assert (Bz : clamp (clamp (0 * pow 2 0) 0 1 + 0) 0 1 == 0)
    by (apply clamp_settles; [lra | unfold in_unit; lra]).
  assert (Cr : clamp ((clamp (clamp (1 * pow 2 0) 0 1 + 0) 0 1 - 0.5) * 1 + 0.5) 0 1 == 1)
    by (apply clamp_settles; [lra | unfold in_unit; lra]).
  assert (Cz : clamp ((clamp (clamp (0 * pow 2 0) 0 1 + 0) 0 1 - 0.5) * 1 + 0.5) 0 1 == 0)
    by (apply clamp_settles; [lra | unfold in_unit; lra]).
  lra.
Qed.

(** C2.  The colour adjustment applies exposure, brightness, contrast and
    saturation in that order.  Exposure multiplies every channel by
    [pow 2 e], brightness adds [b], contrast scales the distance to 0.5 by
    [c], and each of the three clamps its result to [0,1] before the next
    step begins; the saturation step blends the grey of weights 0.299,
    0.587, 0.114 with the colour after contrast and is not clamped.
    Neutral controls change nothing (exposure 0 on a colour in [0,1],
    brightness 0, contrast 1), contrast 0 gives the mid grey, saturation 1
    returns the colour after contrast, saturation 0 its grey, and a
    saturation above 1 can leave [0,1]. *)
Theorem color_adjustment_stage (e b c s : Q) (color : vec3) :
  pow 2 0 == 1 ->
  let exposed := adjustExposure color e in
  let brightened := adjustBrightness exposed b in
  let contrasted := adjustContrast brightened c in
  let clamped x := Qmin (Qmax x 0) 1 in
  let grey := 0.299 * cr contrasted + 0.587 * cg contrasted + 0.114 * cb contrasted in
  processImageColor e b c s color = adjustSaturation contrasted s
  /\ in_unit3 exposed /\ in_unit3 brightened /\ in_unit3 contrasted
  /\ adjustSaturation contrasted s =
       mix3 (splat3 (0.299 * cr contrasted + 0.587 * cg contrasted + 0.114 * cb contrasted))
            contrasted s
  /\ eq3 (processImageColor e b c 1 color) contrasted
  /\ eq3 (processImageColor e b c 0 color) (splat3 (calculateLuminance contrasted))
  /\ (in_unit3 (V3 1 0 0) /\ 1 < cr (processImageColor 0 0 1 2 (V3 1 0 0)))
  /\ exposed = V3 (clamped (cr color * pow 2 e)) (clamped (cg color * pow 2 e))
                  (clamped (cb color * pow 2 e))
  /\ brightened = V3 (clamped (cr exposed + b)) (clamped (cg exposed + b))
                     (clamped (cb exposed + b))
  /\ contrasted = V3 (clamped ((cr brightened - 0.5) * c + 0.5))
                     (clamped ((cg brightened - 0.5) * c + 0.5))
                     (clamped ((cb brightened - 0.5) * c + 0.5))
  /\ processImageColor e b c s color
     = V3 (grey * (1 - s) + cr contrasted * s) (grey * (1 - s) + cg contrasted * s)
          (grey * (1 - s) + cb contrasted * s)
  /\ (in_unit3 color -> eq3 (adjustExposure color 0) color)
  /\ (b == 0 -> eq3 brightened exposed)
  /\ (0 <= b -> cr exposed + b <= 1 -> cr brightened == cr exposed + b)
  /\ (c == 1 -> eq3 contrasted brightened)
  /\ (c == 0 -> eq3 contrasted (splat3 0.5)).
Proof.
  intros Hpow exposed brightened contrasted clamped grey.
  assert (He : in_unit3 exposed) by apply map3_clamp_in_unit.
  assert (Hb : in_unit3 brightened) by apply map3_clamp_in_unit.
  split; [reflexivity |].
  split; [exact He |].
  split; [exact Hb |].
  split; [apply (map3_clamp_in_unit (fun x => (x - 0.5) * c + 0.5)) |].
  split; [reflexivity |].
  split; [apply adjustSaturation_one |].
  split; [apply adjustSaturation_zero |].
  split; [split; [unfold in_unit3, in_unit; cbn; lra | apply saturation_overshoots, Hpow] |].
  split; [reflexivity |].
  split; [reflexivity |].
  split; [reflexivity |].
  split; [reflexivity |].
  split; [| split; [| split; [| split]]].
  - intros (Hr & Hg & Hbl). unfold adjustExposure, map3, eq3. cbn [cr cg cb].
    repeat split; apply clamp_settles; try assumption; rewrite Hpow; ring.
  - intros Hz. destruct He as (Hr & Hg & Hbl).
    unfold brightened, adjustBrightness, map3, eq3. cbn [cr cg cb].
    repeat split; apply clamp_settles; try assumption; rewrite Hz; ring.
  - intros Hpos Hle. destruct He as ((Hr0 & Hr1) & _).
    unfold brightened, adjustBrightness, map3. cbn [cr].
    apply clamp_settles; [reflexivity |]. unfold in_unit. split; lra.
  - intros Hone. destruct Hb as (Hr & Hg & Hbl).
    unfold contrasted, adjustContrast, map3, eq3. cbn [cr cg cb].
    repeat split; apply clamp_settles; try assumption; rewrite Hone; ring.
  - intros Hz. unfold contrasted, adjustContrast, map3, eq3, splat3. cbn [cr cg cb].
    repeat split; apply clamp_settles; try (unfold in_unit; lra); rewrite Hz; ring.
Qed.

End ColorAdjustment.

Section ColorAdjustmentWitness.
Import Glsl Shader.
#[local] Existing Instance Sample.builtins.

Lemma color_adjustment_stage_witness :
  let contrasted :=
    adjustContrast (adjustBrightness (adjustExposure (V3 0.2 0.4 0.6) 0.5) 0.1) 1.2 in
  processImageColor 0.5 0.1 1.2 1.5 (V3 0.2 0.4 0.6) = adjustSaturation contrasted 1.5
  /\ in_unit3 contrasted
  /\ 1 < cr (processImageColor 0 0 1 2 (V3 1 0 0)).
Proof.
  destruct (color_adjustment_stage 0.5 0.1 1.2 1.5 (V3 0.2 0.4 0.6))
    as (H1 & _ & _ & H4 & _ & _ & _ & (_ & H9) & _).
  - reflexivity.
  - intro contrasted. repeat split; try exact H1; try apply H4; exact H9.
Defined.

End ColorAdjustmentWitness.

(** ** Ping-pong pairs *)

Section PingPong.
Import Three.

Lemma swap_involutive d : swap (swap d) = d.
Proof. destruct d; reflexivity. Qed.

Lemma swap_iter_distinct fresh n :
  read (Nat.iter n swap (fst (newDoubleFBO fresh)))
    <> write (Nat.iter n swap (fst (newDoubleFBO fresh))).
Proof.
  induction n as [| n IH]; cbn [Nat.iter].
  - cbn. lia.
  - change (write (Nat.iter n swap (fst (newDoubleFBO fresh)))
              <> read (Nat.iter n swap (fst (newDoubleFBO fresh)))).
    intro E. apply IH. symmetry. exact E.
Qed.

(** C9.  For every pair the constructor makes and any number of swaps
    applied to it: swapping twice gives the pair back, the two buffers are
    different objects, and a swap exchanges the reading and the writing
    role. *)
Theorem ping_pong_swap (fresh : Target) (n : nat) :
  let d := Nat.iter n swap (fst (newDoubleFBO fresh)) in
  swap (swap d) = d
  /\ read d <> write d
  /\ read (swap d) = write d
  /\ write (swap d) = read d.
Proof.
  intro d. split; [apply swap_involutive |].
  split; [apply swap_iter_distinct |].
  split; reflexivity.
Qed.

End PingPong.

(** ** The frame callback of the 3D card, by cases *)

Section Scene3DAsciiFrame.
Import Glsl Shader Fluid Three Card3DAscii.
Context {B : Builtins}.
Variable shaderMap : ShaderType -> Custom.uniforms -> sampler2D -> sampler2D.

(** The callback with its conditions read in the state it starts from. *)
Lemma useFrame_cases p h s :
  useFrame shaderMap p h s =
    if ready p s then
      let s1 := set_timeRef (timeRef s + 0.05) s in
      let s2 :=
        if is_ascii (shaderType p) && negb (densityInitializedRef s)
        then initDensity s1 else s1 in
      let s3 :=
        if painting p then
          advect (velocityDissipation p) (densityDissipation p)
            (set_lastMouseRef (mouseUV p)
               (if isMouseInitRef s then
                  if moved (deltaX p s) (deltaY p s)
                  then splat p h (deltaX p s) (deltaY p s) s2 else s2
                else set_isMouseInitRef true s2))
        else s2 in
      gl_setAutoClear (autoClear (gl s))
        (gl_setRenderTarget (fun _ => renderTarget (gl s))
           (present (composite shaderMap p h (capture h s3))))
    else s.
Proof.
  unfold useFrame, reading at 1. destruct (ready p s); [| reflexivity].
  cbn [negb]. unfold seq at 1. unfold reading at 1. unfold seq.
  cbn [densityInitializedRef set_timeRef]. cbv zeta.
  destruct (is_ascii (shaderType p) && negb (densityInitializedRef s));
    destruct (painting p); unfold when, skip; try reflexivity.
  - unfold simulate, seq, reading at 1.
    change (isMouseInitRef (initDensity (set_timeRef (timeRef s + 0.05) s)))
      with (isMouseInitRef s).
    change (lastMouseRef (initDensity (set_timeRef (timeRef s + 0.05) s)))
      with (lastMouseRef s).
    unfold deltaX, deltaY.
    destruct (isMouseInitRef s); cbn [negb]; [| reflexivity].
    unfold when, skip. destruct (moved _ _); reflexivity.
  - unfold simulate, seq, reading at 1.
    cbn [isMouseInitRef lastMouseRef set_timeRef].
    unfold deltaX, deltaY.
    destruct (isMouseInitRef s); cbn [negb]; [| reflexivity].
    unfold when, skip. destruct (moved _ _); reflexivity.
Qed.

Lemma painting_ascii p : painting p = true -> is_ascii (shaderType p) = true.
Proof.
  unfold painting. destruct (is_ascii (shaderType p)); [reflexivity | discriminate].
Qed.

(** In a frame that passes the guards the renderer ends as it started, and
    the last render call went to the canvas with [autoClear] off. *)
Lemma useFrame_restores p h s :
  let s' := useFrame shaderMap p h s in
  renderTarget (gl s') = renderTarget (gl s)
  /\ autoClear (gl s') = autoClear (gl s)
  /\ (if ready p s
      then exists d rest,
             passes (gl s') = {| what := d; into := None; cleared := false |} :: rest
      else s' = s).
Proof.
  intros s'. subst s'. unfold useFrame, reading. destruct (ready p s); cbn [negb].
  - unfold seq. split; [reflexivity |]. split; [reflexivity |].
    eexists; eexists; reflexivity.
  - repeat split.
Qed.

End Scene3DAsciiFrame.

(** ** The frame callback of the image card, by cases *)

Section AsciiFluidSceneFrame.
Import Glsl Shader Fluid Three CardAsciiPattern.
Context {B : Builtins}.

Lemma useFrame2D_cases p h s :
  useFrame p h s =
    if ready s then
      let s1 := set_timeRef (timeRef s + 0.05) s in
      let s2 :=
        if enableInteractivity p && isHoveredRef s then
          set_lastMouseRef (mouseRef s)
            (if isMouseInitRef s then
               if moved (deltaX s) (deltaY s)
               then splat h (mouseRef s) (deltaX s) (deltaY s) s1 else s1
             else set_isMouseInitRef true s1)
        else s1 in
      gl_setAutoClear (autoClear (gl s))
        (gl_setRenderTarget (fun _ => renderTarget (gl s))
           (present (composite h (advect s2))))
    else s.
Proof.
  unfold useFrame, reading at 1. destruct (ready s); [| reflexivity].
  cbn [negb]. unfold seq at 1. unfold reading at 1. unfold seq.
  unfold paint, reading at 1.
  cbn [isHoveredRef isMouseInitRef mouseRef lastMouseRef set_timeRef]. cbv zeta.
  destruct (enableInteractivity p && isHoveredRef s); unfold when, skip; [| reflexivity].
  unfold deltaX, deltaY.
  destruct (isMouseInitRef s); cbn [negb]; [| reflexivity].
  unfold seq. destruct (moved _ _); reflexivity.
Qed.

Lemma useFrame2D_restores p h s :
  let s' := useFrame p h s in
  renderTarget (gl s') = renderTarget (gl s)
  /\ autoClear (gl s') = autoClear (gl s)
  /\ (if ready s
      then exists d rest,
             passes (gl s') = {| what := d; into := None; cleared := false |} :: rest
      else s' = s).
Proof.
  intros s'. subst s'. unfold useFrame, reading. destruct (ready s); cbn [negb].
  - unfold seq. split; [reflexivity |]. split; [reflexivity |].
    eexists; eexists; reflexivity.
  - repeat split.
Qed.

End AsciiFluidSceneFrame.

(** ** Atlas addressing *)

Section AtlasAddressing.
Import Glsl Shader.

Lemma Qdiv_le_upper a b c : 0 < c -> a <= b * c -> a / c <= b.
Proof. intros Hc H. apply Qle_shift_div_r; assumption. Qed.

Lemma Qdiv_le_lower a b c : 0 < c -> b * c <= a -> b <= a / c.
Proof. intros Hc H. apply Qle_shift_div_l; assumption. Qed.

Lemma inject_Z_pos n : (1 <= n)%Z -> 0 < inject_Z n.
Proof.
  intros H. change 0 with (inject_Z 0). rewrite <- Zlt_Qlt. lia.
Qed.

(** X1.  With [columns >= 1] columns and a local coordinate in [0,1], the
    regular sampler reads the atlas at a point of the cell of the column it
    is given: its abscissa lies between [index/columns] and
    [(index+1)/columns], and its ordinate is the local one. *)
Theorem samplePatternAtlas_stays_in_cell
    (atlas : sampler2D) (columns index : Z) (uv : vec2) :
  (1 <= columns)%Z -> 0 <= vx uv <= 1 ->
  let q := V2 (vx uv / inject_Z columns + inject_Z index / inject_Z columns)
              (vy uv / 1 + 0) in
  samplePatternAtlas atlas columns index uv = atlas q
  /\ inject_Z index / inject_Z columns <= vx q
  /\ vx q <= (inject_Z index + 1) / inject_Z columns
  /\ vy q == vy uv.
Proof.
  intros Hc [Hx0 Hx1] q. pose proof (inject_Z_pos columns Hc) as Hpos.
  split; [reflexivity |]. cbn [vx vy q].
  assert (E : (inject_Z index + 1) / inject_Z columns
              == 1 / inject_Z columns + inject_Z index / inject_Z columns)
    by (field; lra).
  assert (L0 : 0 <= vx uv / inject_Z columns)
    by (apply Qdiv_le_lower; [assumption | lra]).
  assert (L1 : vx uv / inject_Z columns <= 1 / inject_Z columns).
  { apply Qdiv_le_upper; [assumption |].
    assert (F : 1 / inject_Z columns * inject_Z columns == 1) by (field; lra).
    lra. }
  repeat split; try lra. field.
Qed.

Lemma samplePatternAtlas_stays_in_cell_witness :
  let q := V2 (0.5 / inject_Z 4 + inject_Z 3 / inject_Z 4) (0.25 / 1 + 0) in
  samplePatternAtlas Sample.inkLeftAtlas 4 3 (V2 0.5 0.25) = Sample.inkLeftAtlas q
  /\ inject_Z 3 / inject_Z 4 <= vx q
  /\ vx q <= (inject_Z 3 + 1) / inject_Z 4
  /\ vy q == 0.25.
Proof.
  apply (samplePatternAtlas_stays_in_cell Sample.inkLeftAtlas 4 3 (V2 0.5 0.25)).
  - lia.
  - cbn. lra.
Defined.

(** X2.  The alternate sampler keeps a margin of half a texel of a 512-wide
    cell on both sides: its abscissa lies in
    [(index + m)/columns, (index + 1 - m)/columns] with [m = 0.5/512], hence
    strictly inside the cell. *)
Theorem sampleAltPatternAtlas_keeps_margin
    (atlas : sampler2D) (columns index : Z) (uv : vec2) :
  (1 <= columns)%Z -> 0 <= vx uv <= 1 ->
  let m := 0.5 / 512 in
  let q := V2 ((vx uv * (1 - 2 * m) + m) / inject_Z columns
                 + inject_Z index / inject_Z columns)
              ((vy uv * (1 - 2 * m) + 0) / 1 + 0) in
  sampleAltPatternAtlas atlas columns index uv = atlas q
  /\ (inject_Z index + m) / inject_Z columns <= vx q
  /\ vx q <= (inject_Z index + 1 - m) / inject_Z columns
  /\ inject_Z index / inject_Z columns < vx q
  /\ vx q < (inject_Z index + 1) / inject_Z columns.
Proof.
  intros Hc [Hx0 Hx1] m q. pose proof (inject_Z_pos columns Hc) as Hpos.
  split; [reflexivity |]. cbn [vx vy q].
  set (N := inject_Z columns) in *. set (i := inject_Z index).
  set (u := vx uv * (1 - 2 * m) + m).
  assert (Hm : m == 1 # 1024) by (unfold m; reflexivity).
  assert (Hu : m <= u <= 1 - m) by (unfold u; nra).
  assert (E1 : (i + m) / N == m / N + i / N) by (field; lra).
  assert (E2 : (i + 1 - m) / N == (1 - m) / N + i / N) by (field; lra).
  assert (E3 : (i + 1) / N == 1 / N + i / N) by (field; lra).
  assert (A : m / N <= u / N).
  { apply Qdiv_le_lower; [assumption |].
    assert (F : m / N * N == m) by (field; lra). lra. }
  assert (Bd : u / N <= (1 - m) / N).
  { apply Qdiv_le_upper; [assumption |].
    assert (F : (1 - m) / N * N == 1 - m) by (field; lra). lra. }
  assert (P0 : 0 < m / N) by (apply Qlt_shift_div_l; lra).
  assert (P1 : (1 - m) / N < 1 / N).
  { apply Qlt_shift_div_r; [assumption |].
    assert (F : 1 / N * N == 1) by (field; lra). lra. }
  repeat split; lra.
Qed.

Lemma sampleAltPatternAtlas_keeps_margin_witness :
  let m := 0.5 / 512 in
  let q := V2 ((1 * (1 - 2 * m) + m) / inject_Z 6 + inject_Z 2 / inject_Z 6)
              ((0 * (1 - 2 * m) + 0) / 1 + 0) in
  sampleAltPatternAtlas Sample.emptyAtlas 6 2 (V2 1 0) = Sample.emptyAtlas q
  /\ (inject_Z 2 + m) / inject_Z 6 <= vx q
  /\ vx q <= (inject_Z 2 + 1 - m) / inject_Z 6
  /\ inject_Z 2 / inject_Z 6 < vx q
  /\ vx q < (inject_Z 2 + 1) / inject_Z 6.
Proof.
  apply (sampleAltPatternAtlas_keeps_margin Sample.emptyAtlas 6 2 (V2 1 0)).
  - lia.
  - cbn. lra.
Defined.

(** X3.  For an atlas of at least one column the regular column chosen for
    any pattern index is a column of the atlas, a denser index never gets a
    later column, and index 5 gets column 0. *)
Theorem regularAtlasIndexOf_in_atlas (columns i j : Z) :
  (1 <= columns)%Z -> (0 <= i <= j)%Z ->
  (0 <= regularAtlasIndexOf columns i <= columns - 1)%Z
  /\ (regularAtlasIndexOf columns j <= regularAtlasIndexOf columns i)%Z
  /\ regularAtlasIndexOf columns 5 = 0%Z.
Proof.
  intros Hc Hij. unfold regularAtlasIndexOf.
  repeat match goal with
         | |- context [(?a =? ?b)%Z] => destruct (Z.eqb_spec a b)
         end; lia.
Qed.

Lemma regularAtlasIndexOf_in_atlas_witness :
  (0 <= regularAtlasIndexOf 4 1 <= 4 - 1)%Z
  /\ (regularAtlasIndexOf 4 4 <= regularAtlasIndexOf 4 1)%Z
  /\ regularAtlasIndexOf 4 5 = 0%Z.
Proof. apply (regularAtlasIndexOf_in_atlas 4 1 4); lia. Defined.

Lemma altPatternIndexOf_range lum : (0 <= altPatternIndexOf lum <= 5)%Z.
Proof. unfold altPatternIndexOf, iclamp. lia. Qed.

(** X4.  The index into the alternate atlas lies between 0 and 5, does not
    decrease with the inverted luminance, and after the [min] with
    [columns - 1] it is a column of an atlas with at least one column. *)
Theorem altPatternIndexOf_monotone_in_atlas (lum lum' : Q) (columns : Z) :
  lum <= lum' -> (1 <= columns)%Z ->
  (altPatternIndexOf lum <= altPatternIndexOf lum')%Z
  /\ (0 <= altPatternIndexOf lum <= 5)%Z
  /\ (0 <= Z.min (altPatternIndexOf lum) (columns - 1) <= columns - 1)%Z.
Proof.
  intros Hle Hc. split; [| pose proof (altPatternIndexOf_range lum); lia].
  unfold altPatternIndexOf, iclamp.
  repeat match goal with
         | |- context [ltb ?a ?b] =>
             let E := fresh "E" in
             destruct (ltb a b) eqn:E;
             [apply ltb_lt in E | apply ltb_ge in E]
         end; try lia; exfalso; lra.
Qed.

Lemma altPatternIndexOf_monotone_in_atlas_witness :
  (altPatternIndexOf 0.2 <= altPatternIndexOf 0.6)%Z
  /\ (0 <= altPatternIndexOf 0.2 <= 5)%Z
  /\ (0 <= Z.min (altPatternIndexOf 0.2) (6 - 1) <= 6 - 1)%Z.
Proof. apply (altPatternIndexOf_monotone_in_atlas 0.2 0.6 6); [lra | lia]. Defined.

End AtlasAddressing.

(** ** Luminance, palette and fallback *)

Section LuminanceAndPalette.
Import Glsl Shader.
Context {B : Builtins}.

Lemma wobbledLum_range uTime tileIndex originalCol :
  -0.15 <= wobbledLum uTime tileIndex originalCol <= 0.85.
Proof.
  unfold wobbledLum, invertLum.
  match goal with
  | |- context [clamp ?x 0 1] => pose proof (clamp_in_unit x) as [H0 H1]
  end.
  lra.
Qed.

(** X5.  Whatever the tile colour, the time and the value of [sin], the
    inverted luminance [main] computes lies in [-0.15, 0.85]; so the pattern
    index and the alternate index it selects are at most 4: index 5 is
    never selected. *)
Theorem main_never_selects_index_5 (uTime : Q) (tileIndex : vec2) (originalCol : vec3) :
  let lum := wobbledLum uTime tileIndex originalCol in
  -0.15 <= lum <= 0.85
  /\ (0 <= patternIndexOf lum <= 4)%Z
  /\ (0 <= altPatternIndexOf lum <= 4)%Z.
Proof.
  intros lum. pose proof (wobbledLum_range uTime tileIndex originalCol) as [Hlo Hhi].
  fold lum in Hlo, Hhi. split; [split; assumption |]. split.
  - pose proof (patternIndexOf_range lum).
    pose proof (patternIndexOf_monotone lum 0.85 Hhi) as Hm.
    change (patternIndexOf 0.85) with 4%Z in Hm. lia.
  - pose proof (altPatternIndexOf_range lum).
    assert (Hm : (altPatternIndexOf lum <= altPatternIndexOf 0.85)%Z).
    { unfold altPatternIndexOf, iclamp.
      repeat match goal with
             | |- context [ltb ?a ?b] =>
                 let E := fresh "E" in
                 destruct (ltb a b) eqn:E;
                 [apply ltb_lt in E | apply ltb_ge in E]
             end; try lia; exfalso; lra. }
    change (altPatternIndexOf 0.85) with 4%Z in Hm. lia.
Qed.

End LuminanceAndPalette.

Section Fallback.
Import Glsl Shader.

Lemma regularPalette_cases uDarkMode patternIndex patternAlpha :
  regularNeedsFallback (regularPalette uDarkMode patternIndex patternAlpha)
  = negb (gtb uDarkMode 0.5) && ltb patternAlpha 0.001.
Proof.
  unfold regularPalette.
  destruct (gtb uDarkMode 0.5); destruct (ltb patternAlpha 0.001);
    repeat match goal with
           | |- context [if ?c then _ else _] => destruct c
           end; reflexivity.
Qed.

(** X6.  The colour of the regular path needs the fallback exactly when
    the shader is in light mode and the sampled cell is empty (alpha below
    0.001).  In dark mode the fallback block leaves the colour as it is,
    whatever the atlas holds, and so does it for every inked cell. *)
Theorem fallback_only_for_empty_light_cells
    (uPatternAtlas : sampler2D) (uPatternAtlasColumns : Z) (uDarkMode : Q)
    (patternIndex : Z) (patternUV : vec2) (patternAlpha : Q) :
  let regularColor := regularPalette uDarkMode patternIndex patternAlpha in
  regularNeedsFallback regularColor = negb (gtb uDarkMode 0.5) && ltb patternAlpha 0.001
  /\ (if gtb uDarkMode 0.5 || negb (ltb patternAlpha 0.001)
      then regularFallback uPatternAtlas uPatternAtlasColumns uDarkMode patternIndex
             patternUV regularColor = regularColor
      else True).
Proof.
  intros regularColor. split; [apply regularPalette_cases |].
  unfold regularFallback. unfold regularColor at 1.
  rewrite regularPalette_cases.
  destruct (gtb uDarkMode 0.5); cbn [negb andb orb]; [reflexivity |].
  destruct (ltb patternAlpha 0.001); cbn [negb]; [exact I | reflexivity].
Qed.

(** X7.  When the regular colour of a tile needs the fallback, the tile
    gets pure white if the re-sampled column ([columns - 2] for pattern
    indices up to 2, [columns - 3] above) is empty too, and the grey
    (0.925, 0.925, 0.925) otherwise. *)
Theorem fallback_substitution
    (uPatternAtlas : sampler2D) (uPatternAtlasColumns : Z) (uDarkMode : Q)
    (patternIndex : Z) (patternUV : vec2) (patternAlpha : Q) :
  let regularColor := regularPalette uDarkMode patternIndex patternAlpha in
  let column :=
    if (patternIndex <=? 2)%Z then (uPatternAtlasColumns - 2)%Z
    else (uPatternAtlasColumns - 3)%Z in
  let resampled := samplePatternAtlas uPatternAtlas uPatternAtlasColumns column patternUV in
  regularNeedsFallback regularColor = true ->
  regularFallback uPatternAtlas uPatternAtlasColumns uDarkMode patternIndex patternUV
    regularColor
  = if ltb (c4a resampled) 0.001 then V3 1 1 1 else V3 0.925 0.925 0.925.
Proof.
  intros regularColor column resampled Hneed.
  unfold regularFallback. rewrite Hneed. fold column. fold resampled.
  unfold regularColor in Hneed. rewrite regularPalette_cases in Hneed.
  destruct (gtb uDarkMode 0.5); [discriminate |]. reflexivity.
Qed.

Lemma fallback_substitution_witness :
  regularFallback Sample.inkLeftAtlas 4 0 0 (V2 0 0) (regularPalette 0 0 0)
  = V3 0.925 0.925 0.925.
Proof.
  apply (fallback_substitution Sample.inkLeftAtlas 4 0 0 (V2 0 0) 0). reflexivity.
Defined.

End Fallback.

(** ** Tile arithmetic *)

Section TileArithmetic.
Import Glsl Shader.

Lemma floor_spec x : floor x <= x /\ x < floor x + 1.
Proof.
  unfold floor. split; [apply Qfloor_le |].
  pose proof (Qlt_floor x) as H. rewrite inject_Z_plus in H. exact H.
Qed.

(** X8.  For a positive tile size the tile origin is the multiple of the
    tile size at or below the pixel, the pixel lies less than one tile
    beyond it, the coordinate inside the tile is in [0,1), and snapping an
    origin again leaves it in place. *)
Theorem tile_arithmetic (pix uBaseTileSize : Q) :
  0 < uBaseTileSize ->
  tilePos pix uBaseTileSize == tileIndex pix uBaseTileSize * uBaseTileSize
  /\ tilePos pix uBaseTileSize <= pix
  /\ pix < tilePos pix uBaseTileSize + uBaseTileSize
  /\ 0 <= patternUV1 pix uBaseTileSize < 1
  /\ tilePos (tilePos pix uBaseTileSize) uBaseTileSize == tilePos pix uBaseTileSize.
Proof.
  intros Ht. unfold tilePos, tileIndex, patternUV1, fmod.
  set (k := floor (pix / uBaseTileSize)).
  destruct (floor_spec (pix / uBaseTileSize)) as [Hlo Hhi]. fold k in Hlo, Hhi.
  assert (E : pix / uBaseTileSize * uBaseTileSize == pix) by (field; lra).
  assert (L : k * uBaseTileSize <= pix) by nra.
  assert (U : pix < k * uBaseTileSize + uBaseTileSize) by nra.
  split; [reflexivity |]. split; [exact L |]. split; [exact U |]. split.
  - split.
    + apply Qdiv_le_lower; [assumption | lra].
    + apply Qlt_shift_div_r; [assumption | lra].
  - assert (K : floor (k * uBaseTileSize / uBaseTileSize) = k).
    { unfold k, floor.
      assert (E2 : inject_Z (Qfloor (pix / uBaseTileSize)) * uBaseTileSize / uBaseTileSize
                   == inject_Z (Qfloor (pix / uBaseTileSize))) by (field; lra).
      rewrite E2, Qfloor_Z. reflexivity. }
    rewrite K. reflexivity.
Qed.

Lemma tile_arithmetic_witness :
  tilePos 20 6 == tileIndex 20 6 * 6
  /\ tilePos 20 6 <= 20
  /\ 20 < tilePos 20 6 + 6
  /\ 0 <= patternUV1 20 6 < 1
  /\ tilePos (tilePos 20 6) 6 == tilePos 20 6.
Proof. apply (tile_arithmetic 20 6). lra. Defined.

Lemma smoothstep_edges (edge0 edge1 x : Q) :
  edge0 < edge1 ->
  0 <= smoothstep edge0 edge1 x <= 1
  /\ (x <= edge0 -> smoothstep edge0 edge1 x == 0)
  /\ (edge1 <= x -> smoothstep edge0 edge1 x == 1).
Proof.
  intros He. unfold smoothstep.
  set (t := clamp ((x - edge0) / (edge1 - edge0)) 0 1).
  pose proof (clamp_in_unit ((x - edge0) / (edge1 - edge0))) as [H0 H1]. fold t in H0, H1.
  split.
  { assert (A : 0 <= t * t) by (apply Qmult_le_0_compat; assumption).
    assert (L : 0 <= t * t * (3 - 2 * t)) by (apply Qmult_le_0_compat; [assumption | lra]).
    assert (C : 0 <= (1 - t) * (1 - t)) by (apply Qmult_le_0_compat; lra).
    assert (U : 0 <= (1 - t) * (1 - t) * (1 + 2 * t))
      by (apply Qmult_le_0_compat; [assumption | lra]).
    assert (E : (1 - t) * (1 - t) * (1 + 2 * t) == 1 - t * t * (3 - 2 * t)) by ring.
    split; lra. }
  split.
  - intros Hx.
    assert (T : t == 0).
    { unfold t, clamp. rewrite Q.max_r.
      - apply Q.min_l. lra.
      - apply Qdiv_le_upper; lra. }
    rewrite T. ring.
  - intros Hx.
    assert (T : t == 1).
    { unfold t, clamp. apply Q.min_r. apply Q.max_le_iff. left.
      apply Qdiv_le_lower; lra. }
    rewrite T. ring.
Qed.

Lemma smoothstep_inside (edge0 edge1 x : Q) :
  edge0 < x -> x < edge1 -> 0 < smoothstep edge0 edge1 x < 1.
Proof.
  intros Hl Hu. unfold smoothstep.
  set (t := clamp ((x - edge0) / (edge1 - edge0)) 0 1).
  assert (Ht : 0 < t < 1).
  { assert (E : t == (x - edge0) / (edge1 - edge0)).
    { unfold t, clamp. rewrite Q.max_l.
      - apply Q.min_l. apply Qdiv_le_upper; lra.
      - apply Qdiv_le_lower; lra. }
    rewrite E. split.
    - apply Qlt_shift_div_l; lra.
    - apply Qlt_shift_div_r; lra. }
  destruct Ht as [H0 H1].
  assert (A : 0 < t * t) by (apply Qmult_lt_0_compat; assumption).
  assert (L : 0 < t * t * (3 - 2 * t)) by (apply Qmult_lt_0_compat; [assumption | lra]).
  assert (C : 0 < (1 - t) * (1 - t)) by (apply Qmult_lt_0_compat; lra).
  assert (U : 0 < (1 - t) * (1 - t) * (1 + 2 * t))
    by (apply Qmult_lt_0_compat; [assumption | lra]).
  assert (E : (1 - t) * (1 - t) * (1 + 2 * t) == 1 - t * t * (3 - 2 * t)) by ring.
  split; lra.
Qed.

(** X9.  With a positive fade width the factor that blends the regular
    and the alternate colour of a tile lies in [0,1] in both modes, so the
    blend is a convex combination; the hard switch and the smooth fade agree
    outside the fade band (0 up to the threshold, 1 from the threshold plus
    the width on) and differ strictly inside it, where the hard switch is
    already at 1 and the fade is strictly between 0 and 1. *)
Theorem transition_modes_agree_outside_band
    (uEnableFadeTransition uFadeThreshold uFadeWidth paintStrength : Q) :
  0 < uFadeWidth ->
  let factor :=
    Blend.transitionFactor uEnableFadeTransition uFadeThreshold uFadeWidth paintStrength in
  0 <= factor <= 1
  /\ (paintStrength <= uFadeThreshold -> factor == 0)
  /\ (uFadeThreshold + uFadeWidth <= paintStrength -> factor == 1)
  /\ (uFadeThreshold < paintStrength -> paintStrength < uFadeThreshold + uFadeWidth ->
      Blend.transitionFactor 0 uFadeThreshold uFadeWidth paintStrength == 1
      /\ 0 < Blend.transitionFactor 1 uFadeThreshold uFadeWidth paintStrength < 1).
Proof.
  intros Hw factor.
  assert (He : uFadeThreshold < uFadeThreshold + uFadeWidth) by lra.
  destruct (smoothstep_edges uFadeThreshold (uFadeThreshold + uFadeWidth) paintStrength He)
    as (Hr & Hlo & Hhi).
  unfold factor, Blend.transitionFactor. cbv zeta.
  split; [| split; [| split]].
  - destruct (gtb uEnableFadeTransition 0.5); [exact Hr |].
    destruct (gtb paintStrength uFadeThreshold); lra.
  - intros Hp. destruct (gtb uEnableFadeTransition 0.5); [exact (Hlo Hp) |].
    rewrite (proj2 (gtb_le _ _) Hp). reflexivity.
  - intros Hp. destruct (gtb uEnableFadeTransition 0.5); [exact (Hhi Hp) |].
    assert (G : uFadeThreshold < paintStrength) by lra.
    rewrite (proj2 (gtb_gt _ _) G). reflexivity.
  - intros Hl Hu. split.
    + change (gtb 0 0.5) with false. cbv iota. rewrite (proj2 (gtb_gt _ _) Hl). reflexivity.
    + change (gtb 1 0.5) with true. cbv iota. apply smoothstep_inside; assumption.
Qed.

Lemma transition_modes_agree_outside_band_witness :
  0 <= Blend.transitionFactor 1 0.1 0.05 0.12 <= 1.
Proof.
  refine (proj1 (transition_modes_agree_outside_band 1 0.1 0.05 0.12 _)).
  reflexivity.
Defined.

End TileArithmetic.

(** ** Cover fitting of the image card *)

Section CoverFit.
Import Glsl Shader CardAsciiPattern.

Lemma Qdiv_pos a b : 0 < a -> 0 < b -> 0 < a / b.
Proof. intros Ha Hb. apply Qlt_shift_div_l; [assumption | lra]. Qed.

Lemma Qmax_pos_l a b : 0 < a -> 0 < Qmax a b.
Proof. intros Ha. pose proof (Q.le_max_l a b). lra. Qed.

(** One axis of the fit: [a] is the container's aspect on that axis, [s]
    the scaled image size, which covers it. *)
Lemma cover_axis u a s :
  0 <= u <= 1 -> 0 < a -> a <= s ->
  0 <= (u * a - (a - s) * 0.5) / s <= 1.
Proof.
  intros [Hu0 Hu1] Ha Hs.
  assert (P : 0 <= u * a) by (apply Qmult_le_0_compat; lra).
  assert (U : u * a <= a) by nra.
  split.
  - apply Qdiv_le_lower; lra.
  - apply Qdiv_le_upper; lra.
Qed.

(** X10.  For a container and an image of positive size the cover fit maps
    every point of the unit square to a point of the unit square, so no
    tile whose centre is inside the output is sent to the flat background;
    and when image and container have the same size it maps every point to
    itself. *)
Theorem getCoveredUV_stays_in_image (uv containerSize imageSize : vec2) :
  0 < vx containerSize -> 0 < vy containerSize ->
  0 < vx imageSize -> 0 < vy imageSize ->
  0 <= vx uv <= 1 -> 0 <= vy uv <= 1 ->
  let q := getCoveredUV uv containerSize imageSize in
  (0 <= vx q <= 1 /\ 0 <= vy q <= 1)
  /\ outOfBounds q = false
  /\ (vx (getCoveredUV uv containerSize containerSize) == vx uv
      /\ vy (getCoveredUV uv containerSize containerSize) == vy uv).
Proof.
  intros Hcx Hcy Hix Hiy Hux Huy q.
  assert (R : 0 <= vx q <= 1 /\ 0 <= vy q <= 1).
  { unfold q, getCoveredUV. cbn [vx vy].
    set (cmax := Qmax (vx containerSize) (vy containerSize)).
    set (imax := Qmax (vx imageSize) (vy imageSize)).
    assert (Hcm : 0 < cmax) by (apply Qmax_pos_l; assumption).
    assert (Him : 0 < imax) by (apply Qmax_pos_l; assumption).
    set (cax := vx containerSize / cmax). set (cay := vy containerSize / cmax).
    set (iax := vx imageSize / imax). set (iay := vy imageSize / imax).
    assert (Hcax : 0 < cax) by (apply Qdiv_pos; assumption).
    assert (Hcay : 0 < cay) by (apply Qdiv_pos; assumption).
    assert (Hiax : 0 < iax) by (apply Qdiv_pos; assumption).
    assert (Hiay : 0 < iay) by (apply Qdiv_pos; assumption).
    set (fit := Qmax (cax / iax) (cay / iay)).
    assert (Fx : cax / iax <= fit) by apply Q.le_max_l.
    assert (Fy : cay / iay <= fit) by apply Q.le_max_r.
    assert (Ex : iax * (cax / iax) == cax) by (field; lra).
    assert (Ey : iay * (cay / iay) == cay) by (field; lra).
    assert (Sx : cax <= iax * fit) by nra.
    assert (Sy : cay <= iay * fit) by nra.
    split; apply cover_axis; assumption. }
  split; [exact R |]. split.
  - destruct R as [[Hx0 Hx1] [Hy0 Hy1]]. unfold outOfBounds.
    assert (A : ltb (vx q) 0 = false) by (apply ltb_ge; assumption).
    assert (A' : gtb (vx q) 1 = false) by (apply gtb_le; assumption).
    assert (C : ltb (vy q) 0 = false) by (apply ltb_ge; assumption).
    assert (C' : gtb (vy q) 1 = false) by (apply gtb_le; assumption).
    rewrite A, A', C, C'. reflexivity.
  - unfold getCoveredUV. cbn [vx vy].
    set (cmax := Qmax (vx containerSize) (vy containerSize)).
    assert (Hcm : 0 < cmax) by (apply Qmax_pos_l; assumption).
    set (cax := vx containerSize / cmax). set (cay := vy containerSize / cmax).
    assert (Hcax : 0 < cax) by (apply Qdiv_pos; assumption).
    assert (Hcay : 0 < cay) by (apply Qdiv_pos; assumption).
    assert (Ex : cax / cax == 1) by (field; lra).
    assert (Ey : cay / cay == 1) by (field; lra).
    assert (F : Qmax (cax / cax) (cay / cay) == 1).
    { rewrite Ex, Ey. apply Q.max_l. lra. }
    rewrite F. split; field; lra.
Qed.

Lemma getCoveredUV_stays_in_image_witness :
  let q := getCoveredUV (V2 1 0) (V2 300 200) (V2 100 100) in
  (0 <= vx q <= 1 /\ 0 <= vy q <= 1)
  /\ outOfBounds q = false
  /\ (vx (getCoveredUV (V2 1 0) (V2 300 200) (V2 300 200)) == 1
      /\ vy (getCoveredUV (V2 1 0) (V2 300 200) (V2 300 200)) == 0).
Proof.
  apply (getCoveredUV_stays_in_image (V2 1 0) (V2 300 200) (V2 100 100));
    cbn; lra.
Defined.

End CoverFit.

(** ** The deadband *)

Section Deadband.
Import Glsl.

Lemma still_below_deadband d : d == 0 -> gtb (Qabs d) 0.1 = false.
Proof.
  intros Hd. apply gtb_le. rewrite Hd. cbn. lra.
Qed.

End Deadband.

(** ** Frames of the 3D card *)

Section Scene3DAsciiTraces.
Import Glsl Shader Fluid Three Card3DAscii.
Context {B : Builtins}.
Variable shaderMap : ShaderType -> Custom.uniforms -> sampler2D -> sampler2D.

(** Case analysis on a frame: the guards, the shader type, the density
    initialisation, the fluid gate, the pointer history and the deadband. *)
Ltac frame3d p s :=
  let Hr := fresh "Hready" in
  let EA := fresh "Hascii" in
  let EP := fresh "Hpaint" in
  destruct (ready p s) eqn:Hr;
  [ destruct (is_ascii (shaderType p)) eqn:EA;
    [ destruct (painting p) eqn:EP
    | assert (EP : painting p = false)
        by (destruct (painting p) eqn:EP';
            [apply painting_ascii in EP'; congruence | reflexivity]) ];
    unfold trace; rewrite useFrame_cases;
    change (ready p (set_gl (clearPasses (gl s)) s)) with (ready p s);
    rewrite Hr; cbv zeta;
    change (densityInitializedRef (set_gl (clearPasses (gl s)) s))
      with (densityInitializedRef s);
    change (isMouseInitRef (set_gl (clearPasses (gl s)) s)) with (isMouseInitRef s);
    change (deltaX p (set_gl (clearPasses (gl s)) s)) with (deltaX p s);
    change (deltaY p (set_gl (clearPasses (gl s)) s)) with (deltaY p s);
    rewrite ?EP, ?EA; unfold composite; rewrite ?EA;
    [ destruct (densityInitializedRef s);
      (destruct (isMouseInitRef s); [destruct (moved (deltaX p s) (deltaY p s)) |])
    | destruct (densityInitializedRef s)
    | let C := fresh "Hcustom" in
      assert (C : exists u, customShaderMaterial s = Some u)
        by (unfold ready in Hr; rewrite EA in Hr; cbn in Hr;
            destruct (customShaderMaterial s) as [u |];
            [exists u; reflexivity | discriminate]);
      destruct C as [? C]; destruct s; cbn [customShaderMaterial] in C; subst ]
  | unfold trace; rewrite useFrame_cases;
    change (ready p (set_gl (clearPasses (gl s)) s)) with (ready p s);
    rewrite Hr ];
  cbn [negb andb orb app].

(** X11.  A frame of the 3D card that passes its guards makes its render
    calls in this order, each into the stated target: on the first pattern
    frame two fills, into the write and then the read buffer of the density
    pair; then, only while painting is on, the pointer is over the card and
    the pattern effect is selected, the fluid passes: when the pointer has a
    history and moved beyond the deadband a splat into the write buffer of
    the velocity pair and one into the write buffer of the density pair,
    and in any case an advection of the velocity pair followed by one of
    the density pair, each into the buffer the preceding swaps left as the
    write buffer; then the model into the scene target, the pattern or
    filter pass into the pattern target, and the blit to the canvas.  With
    one of the ten filters selected the frame is the last three calls. *)
Theorem scene3d_pass_order (p : SceneProps) (h : Hooks) (s : State) :
  ready p s = true ->
  let V := velocityFBO s in
  let D := densityFBO s in
  Trace3D.calls (trace shaderMap p h s) =
    (if is_ascii (shaderType p) && negb (densityInitializedRef s)
     then [(Trace3D.FILL, Some (write D)); (Trace3D.FILL, Some (read D))] else [])
    ++ (if painting p then
          if isMouseInitRef s && moved (deltaX p s) (deltaY p s)
          then [(Trace3D.SPLAT, Some (write V)); (Trace3D.SPLAT, Some (write D));
                (Trace3D.ADVECTION, Some (read V)); (Trace3D.ADVECTION, Some (read D))]
          else [(Trace3D.ADVECTION, Some (write V)); (Trace3D.ADVECTION, Some (write D))]
        else [])
    ++ [(Trace3D.MODEL, Some (sceneFBO s));
        (if is_ascii (shaderType p) then Trace3D.PATTERN else Trace3D.FILTER,
         Some (patternFBO s));
        (Trace3D.DISPLAY, None)]
  /\ (is_ascii (shaderType p) = false ->
      Trace3D.calls (trace shaderMap p h s) =
        [(Trace3D.MODEL, Some (sceneFBO s)); (Trace3D.FILTER, Some (patternFBO s));
         (Trace3D.DISPLAY, None)]).
Proof.
  intros Hr. cbv zeta. split.
  - frame3d p s; try discriminate; reflexivity.
  - intros Hf. frame3d p s; try discriminate; reflexivity.
Qed.

Lemma scene3d_splat_cases p h s :
  existsb is_splat (trace shaderMap p h s)
  = ready p s && painting p && isMouseInitRef s && moved (deltaX p s) (deltaY p s).
Proof. frame3d p s; reflexivity. Qed.

Lemma moved3D_still dx dy : dx == 0 -> dy == 0 -> moved dx dy = false.
Proof.
  intros Hx Hy. unfold moved.
  rewrite (still_below_deadband dx Hx), (still_below_deadband dy Hy). reflexivity.
Qed.

(** X12.  A frame of the 3D card runs a splat exactly when it passes its
    guards, the fluid gate is open, the pointer already has a previous
    position, and the scaled displacement exceeds 0.1 on some axis.  A
    pointer that has not moved since the last frame never splats, and
    neither does the first frame after the hover effect has seen the
    pointer leave. *)
Theorem scene3d_splat_iff (p : SceneProps) (h : Hooks) (s : State) :
  existsb is_splat (trace shaderMap p h s)
  = ready p s && painting p && isMouseInitRef s && moved (deltaX p s) (deltaY p s)
  /\ (vx (mouseUV p) == vx (lastMouseRef s) ->
      vy (mouseUV p) == vy (lastMouseRef s) ->
      existsb is_splat (trace shaderMap p h s) = false)
  /\ (forall away : SceneProps,
      isCardHovered away = false ->
      existsb is_splat (trace shaderMap p h (onHoverChange away s)) = false).
Proof.
  split; [apply scene3d_splat_cases |]. split.
  - intros Hx Hy. rewrite scene3d_splat_cases.
    assert (M : moved (deltaX p s) (deltaY p s) = false).
    { apply moved3D_still; unfold deltaX, deltaY.
      - rewrite Hx. ring.
      - rewrite Hy. ring. }
    rewrite M. apply andb_false_r.
  - intros away Ha. rewrite scene3d_splat_cases.
    unfold onHoverChange, when. rewrite Ha. cbn [negb].
    change (isMouseInitRef (set_isMouseInitRef false s)) with false.
    rewrite andb_false_r. reflexivity.
Qed.

(** X13.  The pattern pass of the 3D card divides by the [tileSize] prop
    exactly as given: nothing validates or clamps it. *)
Theorem scene3d_tile_size_unchecked (p : SceneProps) (h : Hooks) (s : State) :
  patternPassTileSize (trace shaderMap p h s)
  = if ready p s && is_ascii (shaderType p) then Some (tileSize p) else None.
Proof. frame3d p s; reflexivity. Qed.


(** X14.  The [luminanceOffset] and [invertLuminance] props of the 3D card
    reach nothing: a frame computes the same state whatever their values. *)
Theorem scene3d_luminance_props_unused
    (p : SceneProps) (h : Hooks) (s : State) (offset : Q) (invert : bool) :
  useFrame shaderMap (withLuminance p offset invert) h s = useFrame shaderMap p h s.
Proof. destruct p; reflexivity. Qed.

(** X15.  In a frame of the 3D card that passes its guards, advection runs
    exactly when the fluid gate is open.  Then the last two fluid passes
    advect the velocity pair by itself with [velocityDissipation] and the
    density pair with [densityDissipation], both along the velocity texture
    as it was before this advection, each drawing into the buffer that is
    read afterwards.  With the gate closed (painting disabled, a filter
    selected, or the pointer off the card) no advection runs and both pairs
    keep their roles. *)
Theorem scene3d_advection_gated (p : SceneProps) (h : Hooks) (s : State) :
  ready p s = true ->
  let s' := useFrame shaderMap p h s in
  if painting p then
    exists uv ud cv cd,
      filter is_advection (trace shaderMap p h s) =
        [ {| what := DrawAdvection uv; into := Some (read (velocityFBO s')); cleared := cv |};
          {| what := DrawAdvection ud; into := Some (read (densityFBO s')); cleared := cd |} ]
      /\ Advection.dissipation uv = velocityDissipation p
      /\ Advection.uSource uv = Advection.uVelocity uv
      /\ Advection.uVelocity uv = Some (TargetTexture (write (velocityFBO s')))
      /\ Advection.dissipation ud = densityDissipation p
      /\ Advection.uVelocity ud = Advection.uVelocity uv
      /\ Advection.uSource ud = Some (TargetTexture (write (densityFBO s')))
  else
    filter is_advection (trace shaderMap p h s) = []
    /\ velocityFBO s' = velocityFBO s
    /\ read (densityFBO s') = read (densityFBO s)
    /\ write (densityFBO s') = write (densityFBO s).
Proof.
  intros Hr s'. unfold s'. rewrite (useFrame_cases shaderMap p h s), Hr. cbv zeta.
  frame3d p s; try discriminate.
  all: lazymatch goal with
       | |- exists _ _ _ _, filter is_advection ?T = _ /\ _ =>
           let T' := eval lazy in (filter is_advection T) in
           lazymatch T' with
           | [ {| what := DrawAdvection ?a; into := _; cleared := ?c1 |};
               {| what := DrawAdvection ?b; into := _; cleared := ?c2 |} ] =>
               exists a, b, c1, c2; repeat (split; [reflexivity |]); reflexivity
           end
       | |- _ => repeat (split; [reflexivity |]); reflexivity
       end.
Qed.

(** X16.  Over a frame of the 3D card the two buffers of the velocity pair
    exchange roles exactly when the fluid block ran without a splat (one
    swap); with a splat (two swaps) or without the fluid block the roles
    stay.  The density pair behaves the same, its two initial fills
    cancelling out. *)
Theorem scene3d_ping_pong_roles (p : SceneProps) (h : Hooks) (s : State) :
  let s' := useFrame shaderMap p h s in
  let flips :=
    ready p s && painting p
    && negb (isMouseInitRef s && moved (deltaX p s) (deltaY p s)) in
  read (velocityFBO s') = (if flips then write (velocityFBO s) else read (velocityFBO s))
  /\ write (velocityFBO s') = (if flips then read (velocityFBO s) else write (velocityFBO s))
  /\ read (densityFBO s') = (if flips then write (densityFBO s) else read (densityFBO s))
  /\ write (densityFBO s') = (if flips then read (densityFBO s) else write (densityFBO s)).
Proof.
  intros s' flips. unfold s', flips. rewrite (useFrame_cases shaderMap p h s).
  destruct (ready p s) eqn:Hr; [| repeat split].
  cbv zeta.
  destruct (painting p) eqn:EP; cbn [andb];
    [destruct (isMouseInitRef s); [destruct (moved (deltaX p s) (deltaY p s)) |] |];
    cbn [andb negb]; unfold composite;
    destruct (is_ascii (shaderType p)) eqn:EA;
    try (apply painting_ascii in EP; congruence);
    cbn [andb];
    try (destruct (densityInitializedRef s); cbn [negb]; repeat split; reflexivity).
  assert (C : exists u, customShaderMaterial s = Some u)
    by (unfold ready in Hr; rewrite EA in Hr; cbn in Hr;
        destruct (customShaderMaterial s) as [u |];
        [exists u; reflexivity | discriminate]).
  destruct C as [u C]. destruct s. cbn [customShaderMaterial] in C. subst.
  repeat split; reflexivity.
Qed.

(** Evaluating the state transformers of a block inside [contents],
    leaving the shaders and the comparisons of targets folded. *)
Ltac expose_contents :=
  match goal with
  | |- context [contents (gl ?S) ?t] =>
      let c := eval lazy beta iota zeta delta
        [advect splat initDensity seq reading when skip
         gl_setRenderTarget gl_setAutoClear setSizeOf render_fluidScene
         velocityFBO_swap densityFBO_swap
         set_gl set_timeRef set_lastMouseRef set_isMouseInitRef set_velocityFBO
         set_densityFBO set_splatMaterial set_advectionMaterial set_fillMaterial
         set_densityInitializedRef set_fluidMesh_material
         gl timeRef lastMouseRef isMouseInitRef sceneFBO velocityFBO densityFBO patternFBO
         splatMaterial advectionMaterial fillMaterial densityInitializedRef
         fluidMesh_material
         setRenderTarget setAutoClear setSize render sample
         renderTarget autoClear contents extent canvas passes
         swap read write
         Advection.texelSize Advection.uVelocity Advection.uSource Advection.dt
         Advection.dissipation
         Splat.texelSize Splat.uTarget Splat.aspectRatio Splat.color Splat.point
         Splat.radius Fill.texelSize Fill.uColor]
        in (contents (gl S) t) in
      change (contents (gl S) t) with c
  end.

(** X17.  The density initialisation leaves both buffers of the density
    pair at the mid grey (0.5, 0.5, 0.5, 1) everywhere, keeps the roles of
    the two buffers, and marks the pair as initialised. *)
Theorem density_initialised_to_mid_grey (s : State) (uv : vec2) :
  contents (gl (initDensity s)) (read (densityFBO s)) uv = V4 0.5 0.5 0.5 1
  /\ contents (gl (initDensity s)) (write (densityFBO s)) uv = V4 0.5 0.5 0.5 1
  /\ read (densityFBO (initDensity s)) = read (densityFBO s)
  /\ write (densityFBO (initDensity s)) = write (densityFBO s)
  /\ densityInitializedRef (initDensity s) = true.
Proof.
  destruct s as [g tr pa apa lm imi sf vf [r w] pf sm am fm di asm dm csm fmm].
  cbn [densityFBO read write].
  split; [| split; [| repeat split]].
  - expose_contents. rewrite Nat.eqb_refl. reflexivity.
  - expose_contents. rewrite Nat.eqb_refl. destruct (Nat.eqb w r); reflexivity.
Qed.

(** X18.  When the four buffers of the two pairs are different objects,
    the advection block leaves in the velocity pair's read buffer the old
    velocity field advected by itself, and in the density pair's read
    buffer the old density field advected by the old velocity field, not
    by the newly advected one: the colour at [uv] is the colour the old
    field had at [uv - dt * velocity(uv) * texelSize], with red, green and
    blue multiplied by the field's dissipation and alpha set to 1. *)
Theorem advect_advects_both_fields (vd dd : Q) (s : State) (uv : vec2) :
  NoDup [read (velocityFBO s); write (velocityFBO s);
         read (densityFBO s); write (densityFBO s)] ->
  let s' := advect vd dd s in
  let V := contents (gl s) (read (velocityFBO s)) in
  let D := contents (gl s) (read (densityFBO s)) in
  let u := advectionMaterial s in
  let back :=
    V2 (vx uv - Advection.dt u * c4r (V uv) * vx (Advection.texelSize u))
       (vy uv - Advection.dt u * c4g (V uv) * vy (Advection.texelSize u)) in
  contents (gl s') (read (velocityFBO s')) uv
    = V4 (vd * c4r (V back)) (vd * c4g (V back)) (vd * c4b (V back)) 1
  /\ contents (gl s') (read (densityFBO s')) uv
    = V4 (dd * c4r (D back)) (dd * c4g (D back)) (dd * c4b (D back)) 1
  /\ contents (gl s') (read (velocityFBO s')) uv
    = advectionShader V V (Advection.texelSize u) (Advection.dt u) vd uv
  /\ contents (gl s') (read (densityFBO s')) uv
    = advectionShader V D (Advection.texelSize u) (Advection.dt u) dd uv.
Proof.
  intros Hd. cbv zeta.
  destruct s as [g tr pa apa lm imi sf [rv wv] [rd wd] pf sm am fm di asm dm csm fmm].
  cbn [velocityFBO densityFBO read write gl advectionMaterial] in Hd |- *.
  assert (N1 : Nat.eqb rv wv = false)
    by (apply Nat.eqb_neq; intro; subst; inversion Hd; cbn in *; intuition).
  assert (N2 : Nat.eqb rd wv = false).
  { apply Nat.eqb_neq; intro; subst.
    inversion Hd as [| ? ? _ Hd1]; inversion Hd1; cbn in *; intuition. }
  assert (N3 : Nat.eqb wv wd = false).
  { apply Nat.eqb_neq; intro; subst.
    inversion Hd as [| ? ? _ Hd1]; inversion Hd1; cbn in *; intuition. }
  split; [| split; [| split]].
  - expose_contents. rewrite N3, Nat.eqb_refl. reflexivity.
  - expose_contents. rewrite Nat.eqb_refl. rewrite ?N1, ?N2. reflexivity.
  - expose_contents. rewrite N3, Nat.eqb_refl. reflexivity.
  - expose_contents. rewrite Nat.eqb_refl. rewrite ?N1, ?N2. reflexivity.
Qed.

(** Evaluating a check over the render calls of a frame, leaving the
    comparisons of targets folded. *)
Ltac eval_trace :=
  lazy beta iota zeta delta
    [advect splat initDensity seq reading when skip
     gl_setRenderTarget gl_setAutoClear setSizeOf render_fluidScene
     render_patternScene render_modelScene render_customShaderScene render_displayScene
     capture present asciiUniforms customUniforms option_map isSome
     velocityFBO_swap densityFBO_swap
     set_gl set_timeRef set_lastMouseRef set_isMouseInitRef set_velocityFBO
     set_densityFBO set_splatMaterial set_advectionMaterial set_fillMaterial
     set_densityInitializedRef set_fluidMesh_material set_asciiMaterial
     set_displayMaterial set_customShaderMaterial
     gl timeRef patternAtlas altPatternAtlas lastMouseRef isMouseInitRef sceneFBO
     velocityFBO densityFBO patternFBO
     splatMaterial advectionMaterial fillMaterial densityInitializedRef
     asciiMaterial displayMaterial customShaderMaterial fluidMesh_material
     setRenderTarget setAutoClear setSize render clearPasses
     renderTarget autoClear contents extent canvas passes what into cleared
     swap read write
     Advection.uVelocity Advection.uSource Splat.uTarget
     Ascii.uImage Ascii.uDeformTexture Ascii.uPatternAtlas Ascii.uAltPatternAtlas
     Custom.uImage
     Feedback.feedbackFree Feedback.samples3d Feedback.isTarget
     forallb rev app negb orb andb].

(** Two entries of a duplicate-free list of targets are different. *)
Ltac distinct_targets Hd :=
  apply Nat.eqb_neq; intro; subst;
  repeat match type of Hd with
         | NoDup (_ :: _) =>
             let Hn := fresh "Hn" in
             let Ht := fresh "Ht" in
             inversion Hd as [| ? ? Hn Ht]; subst;
             try (exfalso; apply Hn; cbn; auto 10; fail);
             clear Hd; rename Ht into Hd
         end.

Ltac decide_targets Hd :=
  repeat match goal with
         | |- context [Nat.eqb ?a ?a] => rewrite (Nat.eqb_refl a)
         | |- context [Nat.eqb ?a ?b] =>
             let H := fresh "Hne" in
             assert (H : Nat.eqb a b = false) by (distinct_targets Hd);
             rewrite H; clear H
         end.

(** X19.  When the six render targets of the 3D card are different
    objects, no render call of a frame samples the texture of the target it
    draws into: every fluid pass reads the pair's read buffer and writes
    the other one, and the composite and the blit read targets written
    earlier. *)
Theorem scene3d_no_feedback (p : SceneProps) (h : Hooks) (s : State) :
  NoDup [sceneFBO s; read (velocityFBO s); write (velocityFBO s);
         read (densityFBO s); write (densityFBO s); patternFBO s] ->
  forallb (Feedback.feedbackFree Feedback.samples3d) (trace shaderMap p h s) = true.
Proof.
  intros Hd.
  destruct s as [g tr pa apa lm imi sf [rv wv] [rd wd] pf sm am fm di asm dm csm fmm].
  cbn [sceneFBO velocityFBO densityFBO patternFBO read write] in Hd.
  unfold trace. rewrite useFrame_cases. unfold ready, deltaX, deltaY.
  cbn [set_gl clearPasses gl patternAtlas altPatternAtlas customShaderMaterial
       densityInitializedRef isMouseInitRef lastMouseRef].
  destruct (painting p) eqn:EP;
    [pose proof (painting_ascii p EP) as EA | destruct (is_ascii (shaderType p)) eqn:EA];
    rewrite ?EA; unfold composite; rewrite ?EA;
    destruct pa, apa, csm, di, imi; cbn [isSome negb andb orb]; cbv zeta;
    try destruct (moved _ _);
    eval_trace; decide_targets Hd; reflexivity.
Qed.

End Scene3DAsciiTraces.

Section Scene3DAsciiWitnesses.
Import Glsl Shader Fluid Three Card3DAscii Examples.
#[local] Existing Instance Sample.builtins.

Lemma scene3d_pass_order_witness :
  Trace3D.calls (trace shaderMap (paintingProps (V2 0.6 0.5)) hooks3d (hovered3d (V2 0.5 0.5)))
  = [(Trace3D.SPLAT, Some 1%nat); (Trace3D.SPLAT, Some 3%nat);
     (Trace3D.ADVECTION, Some 2%nat); (Trace3D.ADVECTION, Some 4%nat);
     (Trace3D.MODEL, Some 0%nat); (Trace3D.PATTERN, Some 5%nat); (Trace3D.DISPLAY, None)].
Proof.
  exact (proj1 (scene3d_pass_order shaderMap (paintingProps (V2 0.6 0.5)) hooks3d
                  (hovered3d (V2 0.5 0.5)) eq_refl)).
Defined.

Lemma scene3d_advection_gated_witness :
  ready (paintingProps (V2 0.5 0.5)) (scene3d (paintingProps (V2 0.5 0.5))) = true
  /\ length (filter is_advection
               (trace shaderMap (paintingProps (V2 0.5 0.5)) hooks3d
                  (scene3d (paintingProps (V2 0.5 0.5))))) = 2%nat.
Proof.
  split; [reflexivity |].
  pose proof (scene3d_advection_gated shaderMap (paintingProps (V2 0.5 0.5)) hooks3d
                (scene3d (paintingProps (V2 0.5 0.5))) eq_refl) as H.
  hnf in H. destruct H as (uv & ud & cv & cd & H & _).
  rewrite H. reflexivity.
Defined.

Lemma advect_advects_both_fields_witness :
  contents (gl (advect 0.9 0.98 flowing3d))
    (read (velocityFBO (advect 0.9 0.98 flowing3d))) (V2 0.5 0.5)
  = V4 (0.9 * 2) (0.9 * 1) (0.9 * 0) 1
  /\ contents (gl (advect 0.9 0.98 flowing3d))
       (read (densityFBO (advect 0.9 0.98 flowing3d))) (V2 0.5 0.5)
     = V4 (0.98 * (0.5 - 0.016 * 2 * (1 / 128))) (0.98 * (0.5 - 0.016 * 1 * (1 / 128)))
          (0.98 * 0.5) 1.
Proof.
  assert (Hd : NoDup [read (velocityFBO flowing3d); write (velocityFBO flowing3d);
                      read (densityFBO flowing3d); write (densityFBO flowing3d)])
    by (repeat constructor; cbn; intuition discriminate).
  split.
  - exact (proj1 (advect_advects_both_fields 0.9 0.98 flowing3d (V2 0.5 0.5) Hd)).
  - exact (proj1 (proj2 (advect_advects_both_fields 0.9 0.98 flowing3d (V2 0.5 0.5) Hd))).
Defined.

Lemma scene3d_no_feedback_witness :
  forallb (Feedback.feedbackFree Feedback.samples3d)
    (trace shaderMap (paintingProps (V2 0.5 0.5)) hooks3d
       (scene3d (paintingProps (V2 0.5 0.5)))) = true.
Proof.
  assert (Hd : NoDup [sceneFBO (scene3d (paintingProps (V2 0.5 0.5)));
                      read (velocityFBO (scene3d (paintingProps (V2 0.5 0.5))));
                      write (velocityFBO (scene3d (paintingProps (V2 0.5 0.5))));
                      read (densityFBO (scene3d (paintingProps (V2 0.5 0.5))));
                      write (densityFBO (scene3d (paintingProps (V2 0.5 0.5))));
                      patternFBO (scene3d (paintingProps (V2 0.5 0.5)))])
    by (repeat constructor; cbn; intuition discriminate).
  exact (scene3d_no_feedback shaderMap (paintingProps (V2 0.5 0.5)) hooks3d
           (scene3d (paintingProps (V2 0.5 0.5))) Hd).
Defined.

End Scene3DAsciiWitnesses.

(** ** The sizes of the render targets *)

Section Scene3DAsciiSizes.
Import Glsl Shader Fluid Three Card3DAscii.
Context {B : Builtins}.
Variable shaderMap : ShaderType -> Custom.uniforms -> sampler2D -> sampler2D.

Lemma Math_round_near (x : Q) : x - 0.5 < inject_Z (Math_round x) <= x + 0.5.
Proof.
  unfold Math_round.
  pose proof (Qfloor_le (x + 0.5)) as Hl.
  pose proof (Qlt_floor (x + 0.5)) as Hu.
  rewrite inject_Z_plus in Hu. change (inject_Z 1) with 1 in Hu.
  split; lra.
Qed.

(** Evaluating the state transformers of a frame's tail inside [extent]. *)
Ltac expose_extent :=
  match goal with
  | |- context [extent (gl ?S) ?t] =>
      let c := eval lazy beta iota zeta delta
        [capture composite present seq reading when skip isSome
         gl_setRenderTarget gl_setAutoClear setSizeOf
         render_modelScene render_patternScene render_customShaderScene render_displayScene
         set_gl set_asciiMaterial set_displayMaterial set_customShaderMaterial
         gl sceneFBO patternFBO asciiMaterial displayMaterial customShaderMaterial
         setRenderTarget setAutoClear setSize render
         renderTarget autoClear contents extent canvas passes]
        in (extent (gl S) t) in
      change (extent (gl S) t) with c
  end.

Lemma frame_tail_extent p h (s : State) g0 a0 t :
  extent (gl (gl_setAutoClear a0 (gl_setRenderTarget (fun _ => g0)
                (present (composite shaderMap p h (capture h s)))))) t
  = if Nat.eqb t (patternFBO s) then (renderWidth h, renderHeight h)
    else if Nat.eqb t (sceneFBO s) then (width h * 2, height h * 2)
    else extent (gl s) t.
Proof.
  destruct s as [g tr pa apa lm imi sf vf df pf sm am fm di asm dm csm fmm].
  cbn [patternFBO sceneFBO gl].
  unfold composite. destruct (is_ascii (shaderType p)).
  - expose_extent. reflexivity.
  - destruct csm; expose_extent; reflexivity.
Qed.

(** X20.  A frame that passes the guards resizes the pattern target to
    twice the canvas size times the device pixel ratio, rounded to the
    nearest integer, and the capture target to twice the canvas size with
    neither the ratio nor the rounding; the rounded size is within one half
    of the exact product, and where the rounded width is positive the
    pattern shader's coordinate scale maps the width of the pattern target
    back to the width of the canvas. *)
Theorem frame_target_sizes (p : SceneProps) (h : Hooks) (s : State) :
  ready p s = true ->
  let s' := useFrame shaderMap p h s in
  extent (gl s') (patternFBO s) = (renderWidth h, renderHeight h)
  /\ (sceneFBO s <> patternFBO s ->
      extent (gl s') (sceneFBO s) = (width h * 2, height h * 2))
  /\ width h * 2 * devicePixelRatio h - 0.5 < renderWidth h
     <= width h * 2 * devicePixelRatio h + 0.5
  /\ height h * 2 * devicePixelRatio h - 0.5 < renderHeight h
     <= height h * 2 * devicePixelRatio h + 0.5
  /\ (0 < renderWidth h ->
      forall at_pass : State,
      fst (extent (gl s') (patternFBO s))
      * Ascii.uCoordinateScale (asciiUniforms p h at_pass) == width h).
Proof.
  intros Hr s'.
  assert (E : forall t,
             extent (gl s') t
             = if Nat.eqb t (patternFBO s) then (renderWidth h, renderHeight h)
               else if Nat.eqb t (sceneFBO s) then (width h * 2, height h * 2)
               else extent (gl s) t).
  { intros t. unfold s'. rewrite useFrame_cases, Hr. cbv zeta.
    rewrite frame_tail_extent.
    destruct (is_ascii (shaderType p) && negb (densityInitializedRef s));
      destruct (painting p);
      try (destruct (isMouseInitRef s); [destruct (moved (deltaX p s) (deltaY p s)) |]);
      reflexivity. }
  split; [| split; [| split; [| split]]].
  - rewrite E, Nat.eqb_refl. reflexivity.
  - intros Hne. rewrite E.
    destruct (Nat.eqb (sceneFBO s) (patternFBO s)) eqn:En.
    + apply Nat.eqb_eq in En. contradiction.
    + rewrite Nat.eqb_refl. reflexivity.
  - apply Math_round_near.
  - apply Math_round_near.
  - intros Hpos at_pass. rewrite E, Nat.eqb_refl. cbn [fst].
    unfold asciiUniforms. cbn [Ascii.uCoordinateScale].
    field. lra.
Qed.

End Scene3DAsciiSizes.

Section Scene3DAsciiSizesWitness.
Import Glsl Three Card3DAscii Examples.
#[local] Existing Instance Sample.builtins.

Lemma frame_target_sizes_witness :
  extent (gl (useFrame shaderMap (paintingProps (V2 0.5 0.5)) hooks3d
                (scene3d (paintingProps (V2 0.5 0.5)))))
    (patternFBO (scene3d (paintingProps (V2 0.5 0.5))))
  = (renderWidth hooks3d, renderHeight hooks3d).
Proof.
  exact (proj1 (frame_target_sizes shaderMap (paintingProps (V2 0.5 0.5)) hooks3d
                  (scene3d (paintingProps (V2 0.5 0.5))) eq_refl)).
Defined.

End Scene3DAsciiSizesWitness.

(** ** Frames of the image card *)

Section AsciiFluidSceneTraces.
Import Glsl Shader Fluid Three CardAsciiPattern Trace2D.
Context {B : Builtins}.

(** Case analysis on a frame: the guard, the interaction gate, the pointer
    history and the deadband. *)
Ltac frame2d p s :=
  let Hr := fresh "Hready" in
  destruct (ready s) eqn:Hr;
  unfold trace; rewrite useFrame2D_cases;
  change (ready (set_gl (clearPasses (gl s)) s)) with (ready s);
  rewrite Hr; cbv zeta;
  [ change (isHoveredRef (set_gl (clearPasses (gl s)) s)) with (isHoveredRef s);
    change (isMouseInitRef (set_gl (clearPasses (gl s)) s)) with (isMouseInitRef s);
    change (deltaX (set_gl (clearPasses (gl s)) s)) with (deltaX s);
    change (deltaY (set_gl (clearPasses (gl s)) s)) with (deltaY s);
    destruct (enableInteractivity p); [destruct (isHoveredRef s) |];
    cbn [andb];
    try (destruct (isMouseInitRef s); [destruct (moved (deltaX s) (deltaY s)) |])
  | ];
  cbn [negb andb orb app].

(** X21.  A frame of the image card that passes its guard always advects:
    after the two splats, if a splat is due, it advects the velocity pair by
    itself with dissipation 0.9 and the density pair with dissipation 0.96,
    whether or not the pointer is over the canvas, then draws the pattern
    and blits it. *)
Theorem card2d_always_advects (p : SceneProps) (h : Hooks) (s : State) :
  ready s = true ->
  let s' := useFrame p h s in
  kinds (trace p h s) =
    (if enableInteractivity p && isHoveredRef s && isMouseInitRef s
        && moved (deltaX s) (deltaY s)
     then [SPLAT; SPLAT] else [])
    ++ [ADVECTION; ADVECTION; PATTERN; DISPLAY]
  /\ exists uv ud cv cd,
      filter is_advection (trace p h s) =
        [ {| what := DrawAdvection uv; into := Some (read (velocityFBO s')); cleared := cv |};
          {| what := DrawAdvection ud; into := Some (read (densityFBO s')); cleared := cd |} ]
      /\ Advection.dissipation uv = 0.9
      /\ Advection.uSource uv = Advection.uVelocity uv
      /\ Advection.uVelocity uv = Some (TargetTexture (write (velocityFBO s')))
      /\ Advection.dissipation ud = 0.96
      /\ Advection.uVelocity ud = Advection.uVelocity uv
      /\ Advection.uSource ud = Some (TargetTexture (write (densityFBO s'))).
Proof.
  intros Hr s'. split.
  - frame2d p s; try discriminate; reflexivity.
  - unfold s'. rewrite (useFrame2D_cases p h s), Hr. cbv zeta.
    frame2d p s; try discriminate.
    all: lazymatch goal with
         | |- exists _ _ _ _, filter is_advection ?T = _ /\ _ =>
             let T' := eval lazy in (filter is_advection T) in
             lazymatch T' with
             | [ {| what := DrawAdvection ?a; into := _; cleared := ?c1 |};
                 {| what := DrawAdvection ?b; into := _; cleared := ?c2 |} ] =>
                 exists a, b, c1, c2; repeat (split; [reflexivity |]); reflexivity
             end
         end.
Qed.

End AsciiFluidSceneTraces.

Section AsciiFluidScenePointer.
Import Glsl Shader Fluid Three CardAsciiPattern Trace2D.
Context {B : Builtins}.

Ltac frame2d p s :=
  let Hr := fresh "Hready" in
  destruct (ready s) eqn:Hr;
  unfold trace; rewrite useFrame2D_cases;
  change (ready (set_gl (clearPasses (gl s)) s)) with (ready s);
  rewrite Hr; cbv zeta;
  [ change (isHoveredRef (set_gl (clearPasses (gl s)) s)) with (isHoveredRef s);
    change (isMouseInitRef (set_gl (clearPasses (gl s)) s)) with (isMouseInitRef s);
    change (deltaX (set_gl (clearPasses (gl s)) s)) with (deltaX s);
    change (deltaY (set_gl (clearPasses (gl s)) s)) with (deltaY s);
    destruct (enableInteractivity p); [destruct (isHoveredRef s) |];
    cbn [andb];
    try (destruct (isMouseInitRef s); [destruct (moved (deltaX s) (deltaY s)) |])
  | ];
  cbn [negb andb orb app].

Lemma moved2D_still dx dy : dx == 0 -> dy == 0 -> moved dx dy = false.
Proof.
  intros Hx Hy. unfold moved.
  rewrite (still_below_deadband dx Hx), (still_below_deadband dy Hy). reflexivity.
Qed.

Lemma card2d_splat_cases p h s :
  existsb is_splat (trace p h s)
  = ready s && enableInteractivity p && isHoveredRef s && isMouseInitRef s
    && moved (deltaX s) (deltaY s).
Proof. frame2d p s; reflexivity. Qed.

(** X22.  A frame of the image card runs a splat exactly when it passes
    its guard, interactivity is enabled, the pointer is over the canvas and
    has a previous position, and the scaled displacement exceeds 0.1 on
    some axis; a pointer that has not moved since the last frame never
    splats. *)
Theorem card2d_splat_iff (p : SceneProps) (h : Hooks) (s : State) :
  existsb is_splat (trace p h s)
  = ready s && enableInteractivity p && isHoveredRef s && isMouseInitRef s
    && moved (deltaX s) (deltaY s)
  /\ (vx (mouseRef s) == vx (lastMouseRef s) ->
      vy (mouseRef s) == vy (lastMouseRef s) ->
      existsb is_splat (trace p h s) = false).
Proof.
  split; [apply card2d_splat_cases |].
  intros Hx Hy. rewrite card2d_splat_cases.
  assert (M : moved (deltaX s) (deltaY s) = false).
  { apply moved2D_still; unfold deltaX, deltaY.
    - rewrite Hx. ring.
    - rewrite Hy. ring. }
  rewrite M. apply andb_false_r.
Qed.

(** X23.  After the pointer leaves the canvas no frame splats until the
    pointer is back; the first frame after it is back does not splat
    either, whatever the distance to the position it left at, and when it
    passes the guard with interactivity on it records the new position as
    the pointer's history. *)
Theorem card2d_leave_forgets_history (p : SceneProps) (h : Hooks) (s : State) (x y : Q) :
  let away := handleMouseLeave s in
  let back := handleMouseMove x y away in
  existsb is_splat (trace p h away) = false
  /\ existsb is_splat (trace p h back) = false
  /\ (if ready s && enableInteractivity p
      then lastMouseRef (useFrame p h back) = V2 x y
           /\ isMouseInitRef (useFrame p h back) = true
      else True).
Proof.
  intros away back. split; [| split].
  - rewrite card2d_splat_cases.
    change (isMouseInitRef away) with false.
    rewrite andb_false_r. reflexivity.
  - rewrite card2d_splat_cases.
    change (isMouseInitRef back) with false.
    rewrite andb_false_r. reflexivity.
  - rewrite useFrame2D_cases.
    change (ready back) with (ready s).
    destruct (ready s); [| exact I].
    destruct (enableInteractivity p); [| exact I].
    cbn [andb]. cbv zeta.
    change (isHoveredRef back) with true.
    change (isMouseInitRef back) with false.
    cbn [andb]. split; reflexivity.
Qed.

Ltac eval_trace2d :=
  lazy beta iota zeta delta
    [advect splat composite present seq reading when skip
     gl_setRenderTarget gl_setAutoClear setSizeOf render_fluidScene
     render_patternScene render_displayScene asciiUniforms option_map isSome
     velocityFBO_swap densityFBO_swap
     set_gl set_timeRef set_mouseRef set_lastMouseRef set_isMouseInitRef set_isHoveredRef
     set_velocityFBO set_densityFBO set_splatMaterial set_advectionMaterial
     set_fluidMesh_material set_asciiMaterial set_displayMaterial
     gl timeRef imageTexture imageDimensions patternAtlas altPatternAtlas mouseRef
     lastMouseRef isMouseInitRef isHoveredRef velocityFBO densityFBO patternFBO
     splatMaterial advectionMaterial asciiMaterial displayMaterial fluidMesh_material
     setRenderTarget setAutoClear setSize render clearPasses
     renderTarget autoClear contents extent canvas passes what into cleared
     swap read write
     Advection.uVelocity Advection.uSource Splat.uTarget
     Ascii.uImage Ascii.uDeformTexture Ascii.uPatternAtlas Ascii.uAltPatternAtlas
     Feedback.feedbackFree Feedback.samples2d Feedback.isTarget
     forallb rev app negb orb andb].

Ltac distinct_targets Hd :=
  apply Nat.eqb_neq; intro; subst;
  repeat match type of Hd with
         | NoDup (_ :: _) =>
             let Hn := fresh "Hn" in
             let Ht := fresh "Ht" in
             inversion Hd as [| ? ? Hn Ht]; subst;
             try (exfalso; apply Hn; cbn; auto 10; fail);
             clear Hd; rename Ht into Hd
         end.

Ltac decide_targets Hd :=
  repeat match goal with
         | |- context [Nat.eqb ?a ?a] => rewrite (Nat.eqb_refl a)
         | |- context [Nat.eqb ?a ?b] =>
             let H := fresh "Hne" in
             assert (H : Nat.eqb a b = false) by (distinct_targets Hd);
             rewrite H; clear H
         end.

(** X24.  When the five render targets of the image card are different
    objects, no render call of a frame samples the texture of the target it
    draws into. *)
Theorem card2d_no_feedback (p : SceneProps) (h : Hooks) (s : State) :
  NoDup [read (velocityFBO s); write (velocityFBO s);
         read (densityFBO s); write (densityFBO s); patternFBO s] ->
  forallb (Feedback.feedbackFree Feedback.samples2d) (trace p h s) = true.
Proof.
  intros Hd.
  destruct s as [g tr it idim pa apa m lm imi ih [rv wv] [rd wd] pf sm am asm dm fmm].
  cbn [velocityFBO densityFBO patternFBO read write] in Hd.
  unfold trace. rewrite useFrame2D_cases. unfold ready, deltaX, deltaY.
  cbn [set_gl clearPasses gl imageTexture patternAtlas altPatternAtlas
       isHoveredRef isMouseInitRef mouseRef lastMouseRef].
  destruct (enableInteractivity p), it, pa, apa, ih, imi;
    cbn [isSome negb andb orb]; cbv zeta;
    try destruct (moved _ _);
    eval_trace2d; decide_targets Hd; reflexivity.
Qed.

End AsciiFluidScenePointer.

Section MoreSceneWitnesses.
Import Glsl Shader Fluid Three Examples.
#[local] Existing Instance Sample.builtins.

Lemma scene3d_splat_iff_witness :
  (Card3DAscii.painting (paintingProps (V2 0.5 0.5)) = true
   /\ Card3DAscii.isMouseInitRef (hovered3d (V2 0.5 0.5)) = true)
  /\ existsb Card3DAscii.is_splat
       (Card3DAscii.trace shaderMap (paintingProps (V2 0.6 0.5)) hooks3d
          (hovered3d (V2 0.5 0.5))) = true
  /\ existsb Card3DAscii.is_splat
       (Card3DAscii.trace shaderMap (paintingProps (V2 0.5 0.5)) hooks3d
          (hovered3d (V2 0.5 0.5))) = false.
Proof.
  split; [split; reflexivity |]. split.
  - exact (proj1 (scene3d_splat_iff shaderMap (paintingProps (V2 0.6 0.5)) hooks3d
                    (hovered3d (V2 0.5 0.5)))).
  - assert (Hx : vx (Card3DAscii.mouseUV (paintingProps (V2 0.5 0.5)))
                 == vx (Card3DAscii.lastMouseRef (hovered3d (V2 0.5 0.5))))
      by reflexivity.
    assert (Hy : vy (Card3DAscii.mouseUV (paintingProps (V2 0.5 0.5)))
                 == vy (Card3DAscii.lastMouseRef (hovered3d (V2 0.5 0.5))))
      by reflexivity.
    exact (proj1 (proj2 (scene3d_splat_iff shaderMap (paintingProps (V2 0.5 0.5))
                           hooks3d (hovered3d (V2 0.5 0.5)))) Hx Hy).
Defined.

Lemma card2d_always_advects_witness :
  Trace2D.kinds (CardAsciiPattern.trace props2d hooks2d scene2d)
  = (if CardAsciiPattern.enableInteractivity props2d
        && CardAsciiPattern.isHoveredRef scene2d
        && CardAsciiPattern.isMouseInitRef scene2d
        && CardAsciiPattern.moved (CardAsciiPattern.deltaX scene2d)
             (CardAsciiPattern.deltaY scene2d)
     then [Trace2D.SPLAT; Trace2D.SPLAT] else [])
    ++ [Trace2D.ADVECTION; Trace2D.ADVECTION; Trace2D.PATTERN; Trace2D.DISPLAY].
Proof.
  exact (proj1 (card2d_always_advects props2d hooks2d scene2d eq_refl)).
Defined.

Lemma card2d_splat_iff_witness :
  (CardAsciiPattern.isHoveredRef (hovered2d 0.5 0.5) = true
   /\ CardAsciiPattern.isMouseInitRef (hovered2d 0.5 0.5) = true)
  /\ existsb CardAsciiPattern.is_splat
       (CardAsciiPattern.trace props2d hooks2d
          (CardAsciiPattern.handleMouseMove 0.6 0.5 (hovered2d 0.5 0.5))) = true
  /\ existsb CardAsciiPattern.is_splat
       (CardAsciiPattern.trace props2d hooks2d
          (CardAsciiPattern.handleMouseMove 0.5 0.5 (hovered2d 0.5 0.5))) = false.
Proof.
  split; [split; reflexivity |]. split.
  - exact (proj1 (card2d_splat_iff props2d hooks2d
                    (CardAsciiPattern.handleMouseMove 0.6 0.5 (hovered2d 0.5 0.5)))).
  - assert (Hx : vx (CardAsciiPattern.mouseRef
                       (CardAsciiPattern.handleMouseMove 0.5 0.5 (hovered2d 0.5 0.5)))
                 == vx (CardAsciiPattern.lastMouseRef
                          (CardAsciiPattern.handleMouseMove 0.5 0.5 (hovered2d 0.5 0.5))))
      by reflexivity.
    assert (Hy : vy (CardAsciiPattern.mouseRef
                       (CardAsciiPattern.handleMouseMove 0.5 0.5 (hovered2d 0.5 0.5)))
                 == vy (CardAsciiPattern.lastMouseRef
                          (CardAsciiPattern.handleMouseMove 0.5 0.5 (hovered2d 0.5 0.5))))
      by reflexivity.
    exact (proj2 (card2d_splat_iff props2d hooks2d
                    (CardAsciiPattern.handleMouseMove 0.5 0.5 (hovered2d 0.5 0.5))) Hx Hy).
Defined.

Lemma card2d_no_feedback_witness :
  forallb (Feedback.feedbackFree Feedback.samples2d)
    (CardAsciiPattern.trace props2d hooks2d scene2d) = true.
Proof.
  assert (Hd : NoDup [read (CardAsciiPattern.velocityFBO scene2d);
                      write (CardAsciiPattern.velocityFBO scene2d);
                      read (CardAsciiPattern.densityFBO scene2d);
                      write (CardAsciiPattern.densityFBO scene2d);
                      CardAsciiPattern.patternFBO scene2d])
    by (repeat constructor; cbn; intuition discriminate).
  exact (card2d_no_feedback props2d hooks2d scene2d Hd).
Defined.

End MoreSceneWitnesses.

(** ** The filters *)

Section FilterFacts.
Import Glsl Filters.

Lemma fract_range x : 0 <= fract x < 1.
Proof. unfold fract. destruct (floor_spec x). lra. Qed.

Lemma clamp_below x : x <= 0 -> clamp x 0 1 == 0.
Proof.
  intros H. unfold clamp. rewrite Q.max_r by assumption. apply Q.min_l. lra.
Qed.

Lemma clamp_above x : 1 <= x -> clamp x 0 1 == 1.
Proof.
  intros H. unfold clamp. apply Q.min_r. apply Q.max_le_iff. left. assumption.
Qed.

Lemma clamp_inside x : 0 <= x <= 1 -> clamp x 0 1 == x.
Proof.
  intros [H0 H1]. unfold clamp. rewrite Q.max_l by assumption. apply Q.min_l. assumption.
Qed.

(** The gradient at a scaled heat [T] whose integer part is [k]. *)
Lemma thermal_at_knot t k :
  (0 <= k <= 6)%Z -> clamp t 0 1 * 6 == inject_Z k -> eq3 (thermalGradient t) (colorAt k).
Proof.
  intros Hk HT. unfold thermalGradient.
  assert (Hi : Qfloor (clamp t 0 1 * 6) = k) by (rewrite HT; apply Qfloor_Z).
  assert (Hf : fract (clamp t 0 1 * 6) == 0).
  { unfold fract, floor. rewrite Hi, HT. ring. }
  rewrite Hi.
  destruct (6 <=? k)%Z eqn:E.
  - apply Z.leb_le in E. replace k with 6%Z by lia. repeat split; reflexivity.
  - unfold mix3, zip3, eq3, mix. cbn [cr cg cb].
    repeat split; rewrite Hf; ring.
Qed.

(** X25.  The thermal ramp always yields a colour with components in
    [0,1]; it is black for a heat of 0 or less and white for a heat of 1 or
    more, and at the heat [k/6] it is exactly the [k]-th colour of its
    table. *)
Theorem thermalGradient_ramp (t : Q) (k : Z) :
  (0 <= k <= 6)%Z ->
  in_unit3 (thermalGradient t)
  /\ (t <= 0 -> eq3 (thermalGradient t) (V3 0 0 0))
  /\ (1 <= t -> eq3 (thermalGradient t) (V3 1 1 1))
  /\ eq3 (thermalGradient (inject_Z k / 6)) (colorAt k).
Proof.
  intros Hk. split; [| split; [| split]].
  - unfold thermalGradient.
    pose proof (clamp_in_unit t) as [C0 C1].
    pose proof (fract_range (clamp t 0 1 * 6)) as [F0 F1].
    set (T := clamp t 0 1 * 6) in *.
    assert (I0 : (0 <= Qfloor T)%Z)
      by (change 0%Z with (Qfloor 0); apply Qfloor_resp_le; unfold T; lra).
    assert (I6 : (Qfloor T <= 6)%Z)
      by (change 6%Z with (Qfloor 6); apply Qfloor_resp_le; unfold T; lra).
    set (f := fract T) in *.
    destruct (6 <=? Qfloor T)%Z eqn:E.
    + change (colorAt 6) with (V3 1 1 1).
      unfold in_unit3, in_unit. cbn [cr cg cb]. lra.
    + apply Z.leb_gt in E.
      assert (Hc : Qfloor T = 0%Z \/ Qfloor T = 1%Z \/ Qfloor T = 2%Z
                   \/ Qfloor T = 3%Z \/ Qfloor T = 4%Z \/ Qfloor T = 5%Z) by lia.
      destruct Hc as [H | [H | [H | [H | [H | H]]]]]; rewrite H;
        [ change (colorAt 0) with (V3 0 0 0); change (colorAt (0 + 1)) with (V3 0 0 0.5)
        | change (colorAt 1) with (V3 0 0 0.5); change (colorAt (1 + 1)) with (V3 0.5 0 0.5)
        | change (colorAt 2) with (V3 0.5 0 0.5); change (colorAt (2 + 1)) with (V3 1 0 0)
        | change (colorAt 3) with (V3 1 0 0); change (colorAt (3 + 1)) with (V3 1 0.5 0)
        | change (colorAt 4) with (V3 1 0.5 0); change (colorAt (4 + 1)) with (V3 1 1 0)
        | change (colorAt 5) with (V3 1 1 0); change (colorAt (5 + 1)) with (V3 1 1 1) ];
        unfold in_unit3, in_unit, mix3, zip3, mix; cbn [cr cg cb];
        repeat split; lra.
  - intros Ht. apply (thermal_at_knot t 0); [lia |].
    rewrite (clamp_below t Ht). reflexivity.
  - intros Ht. apply (thermal_at_knot t 6); [lia |].
    rewrite (clamp_above t Ht). reflexivity.
  - apply thermal_at_knot; [assumption |].
    assert (B : 0 <= inject_Z k / 6 <= 1).
    { assert (0 <= inject_Z k) by (change 0 with (inject_Z 0); rewrite <- Zle_Qle; lia).
      assert (inject_Z k <= 6) by (change 6 with (inject_Z 6); rewrite <- Zle_Qle; lia).
      split; [apply Qdiv_le_lower; lra | apply Qdiv_le_upper; lra]. }
    rewrite (clamp_inside _ B). field.
Qed.

Lemma thermalGradient_ramp_witness :
  in_unit3 (thermalGradient 0.4)
  /\ eq3 (thermalGradient (inject_Z 3 / 6)) (V3 1 0 0).
Proof.
  destruct (thermalGradient_ramp 0.4 3) as (H1 & _ & _ & H4); [lia |].
  split; [exact H1 | exact H4].
Defined.

(** X26.  For a positive resolution, tile size and a non-negative
    intensity, the point a fragment of the pixelate filter samples lies at
    or below the fragment on both axes and less than one block
    ([pixelSize / resolution]) away from it. *)
Theorem pixelate_snaps_to_block (uResolution : vec2) (uBaseTileSize uIntensity : Q) (vUv : vec2) :
  0 < vx uResolution -> 0 < vy uResolution -> 0 < uBaseTileSize -> 0 <= uIntensity ->
  let q := pixelateUV uResolution uBaseTileSize uIntensity vUv in
  let size := pixelSize uBaseTileSize uIntensity in
  (vx q <= vx vUv /\ vx vUv < vx q + size / vx uResolution)
  /\ (vy q <= vy vUv /\ vy vUv < vy q + size / vy uResolution).
Proof.
  intros Hrx Hry Ht Hi q size.
  assert (Hs : 0 < size) by (unfold size, pixelSize; nra).
  assert (axis : forall r v, 0 < r ->
            floor (v * (r / size)) / (r / size) <= v
            /\ v < floor (v * (r / size)) / (r / size) + size / r).
  { intros r v Hr.
    assert (Hp : 0 < r / size) by (apply Qdiv_pos; assumption).
    set (n := r / size) in *.
    destruct (floor_spec (v * n)) as [L U].
    assert (E : size / r == 1 / n) by (unfold n; field; lra).
    assert (E1 : floor (v * n) / n * n == floor (v * n)) by (field; lra).
    assert (E2 : 1 / n * n == 1) by (field; lra).
    rewrite E. split.
    - apply Qdiv_le_upper; [assumption | lra].
    - assert (G : v * n < (floor (v * n) / n + 1 / n) * n) by lra.
      nra. }
  unfold q, pixelateUV. cbn [vx vy]. fold size.
  split; apply axis; assumption.
Qed.

Lemma pixelate_snaps_to_block_witness :
  vx (pixelateUV (V2 300 200) 6 0.5 (V2 0.37 0.5)) <= 0.37.
Proof.
  apply (pixelate_snaps_to_block (V2 300 200) 6 0.5 (V2 0.37 0.5)); cbn; lra.
Defined.

(** X27.  For an intensity in [0,1] the pixelate filter keeps between 4
    and 256 levels per channel, and its reduction rounds every channel
    down by less than one level. *)
Theorem reduceColor_rounds_down (uIntensity : Q) (color : vec3) :
  0 <= uIntensity <= 1 ->
  4 <= levels uIntensity <= 256
  /\ (cr color - 1 / levels uIntensity < cr (reduceColor uIntensity color) <= cr color)
  /\ (cg color - 1 / levels uIntensity < cg (reduceColor uIntensity color) <= cg color)
  /\ (cb color - 1 / levels uIntensity < cb (reduceColor uIntensity color) <= cb color).
Proof.
  intros [I0 I1].
  assert (HL : 4 <= levels uIntensity <= 256) by (unfold levels, mix; lra).
  split; [exact HL |].
  assert (channel : forall c,
            c - 1 / levels uIntensity < floor (c * levels uIntensity) / levels uIntensity <= c).
  { intros c. set (n := levels uIntensity) in *.
    destruct (floor_spec (c * n)) as [L U].
    assert (E1 : floor (c * n) / n * n == floor (c * n)) by (field; lra).
    assert (E2 : 1 / n * n == 1) by (field; lra).
    split.
    - assert (G : (c - 1 / n) * n < floor (c * n) / n * n) by lra. nra.
    - apply Qdiv_le_upper; lra. }
  unfold reduceColor, map3. cbn [cr cg cb].
  repeat split; apply channel.
Qed.

Lemma reduceColor_rounds_down_witness :
  4 <= levels 0.8 <= 256 /\ cr (reduceColor 0.8 (V3 0.3 0.6 0.9)) <= 0.3.
Proof.
  destruct (reduceColor_rounds_down 0.8 (V3 0.3 0.6 0.9)) as (H1 & [_ H2] & _).
  - lra.
  - split; [exact H1 | exact H2].
Defined.

End FilterFacts.

(** ** Advection without flow *)

Section StillFluid.
Import Glsl Fluid Fields.

(** X28.  Where the velocity field is zero, advection samples the source
    at the fragment itself: a field advected [n] times over a still
    velocity field is the original field scaled by the [n]-th power of the
    dissipation, so with a dissipation in [0,1] its colour channels never
    grow. *)
Theorem advection_without_flow_decays
    (velocity src : sampler2D) (texelSize : vec2) (dt dissipation : Q) (n : nat) (uv : vec2) :
  still velocity -> extensional src ->
  let field := Nat.iter n (fun f => advectionShader velocity f texelSize dt dissipation) src in
  c4r (field uv) == power dissipation n * c4r (src uv)
  /\ c4g (field uv) == power dissipation n * c4g (src uv)
  /\ c4b (field uv) == power dissipation n * c4b (src uv).
Proof.
  intros Hstill Hext. cbv zeta. revert uv.
  induction n as [| n IH]; intros uv.
  - cbn [Nat.iter nat_rect power]. split; [| split]; ring.
  - cbn [Nat.iter nat_rect power].
    unfold advectionShader at 1 3 5. unfold texture2D, xy, map4. cbn [c4r c4g c4b vx vy].
    destruct (Hstill uv) as [Vx Vy].
    set (coord := V2 (vx uv - dt * c4r (velocity uv) * vx texelSize)
                     (vy uv - dt * c4g (velocity uv) * vy texelSize)).
    assert (Hc : eq2 coord uv).
    { unfold eq2, coord. cbn [vx vy]. rewrite Vx, Vy. split; ring. }
    destruct (Hext coord uv Hc) as (Er & Eg & Eb & _).
    destruct (IH coord) as (Ir & Ig & Ib).
    split; [| split].
    + rewrite Ir, Er. ring.
    + rewrite Ig, Eg. ring.
    + rewrite Ib, Eb. ring.
Qed.

Lemma advection_without_flow_decays_witness :
  c4r (Nat.iter 3 (fun f => advectionShader (fun _ => V4 0 0 0 1) f (V2 (1 / 128) (1 / 128))
                              0.016 0.96)
         (Sample.flat (V3 0.5 0.5 0.5)) (V2 0.25 0.75))
  == power 0.96 3 * 0.5.
Proof.
  apply (advection_without_flow_decays (fun _ => V4 0 0 0 1) (Sample.flat (V3 0.5 0.5 0.5))
           (V2 (1 / 128) (1 / 128)) 0.016 0.96 3 (V2 0.25 0.75)).
  - intros p. cbn. split; reflexivity.
  - intros p q _. repeat split; reflexivity.
Defined.

End StillFluid.

(** ** The pointer handlers of the 3D card *)

Section CardPointer.
Import Glsl Card3D.

Lemma unit_clamp x : 0 <= Qmax 0 (Qmin 1 x) <= 1.
Proof.
  split; [apply Q.le_max_l |].
  apply Q.max_lub; [lra | apply Q.le_min_l].
Qed.

(** X29.  With rectangles of positive size, a pointer move either leaves
    the card's pointer position as it is (no rectangle is known) or stores a
    position inside the unit square, however far outside the card the event
    lies, and never changes the hover flag; leaving the card parks the
    position at (-1,-1), which closes the fluid gate of the scene; and after
    entering and moving over a card with a rectangle the gate is open
    exactly when painting is enabled and the pattern effect is selected. *)
Theorem card_pointer_gate
    (p : Card3DAscii.SceneProps) (c : CardState)
    (container : option DOMRect) (rect : DOMRect) (x y : Q) :
  (forall r, rectRef c = Some r \/ container = Some r \/ r = rect ->
             0 < width r /\ 0 < height r) ->
  let c' := handleMouseMove container x y c in
  (mouseUVRef c' = mouseUVRef c
   \/ (0 <= vx (mouseUVRef c') <= 1 /\ 0 <= vy (mouseUVRef c') <= 1))
  /\ isHovered c' = isHovered c
  /\ mouseUVRef (handleMouseLeave c) = V2 (-1) (-1)
  /\ Card3DAscii.painting (sceneProps p (handleMouseLeave c)) = false
  /\ Card3DAscii.painting
       (sceneProps p (handleMouseMove (Some rect) x y (handleMouseEnter (Some rect) c)))
     = Card3DAscii.is_ascii (Card3DAscii.shaderType p) && Card3DAscii.enablePainting p.
Proof.
  intros _ c'. split; [| split; [| split; [| split]]].
  - unfold c', handleMouseMove, updateRect.
    destruct (rectRef c) as [r |] eqn:E; cbv zeta.
    + rewrite E. right. cbn [mouseUVRef vx vy]. split; apply unit_clamp.
    + destruct container as [r |]; cbn [rectRef].
      * right. cbn [mouseUVRef vx vy]. split; apply unit_clamp.
      * rewrite E. left. reflexivity.
  - unfold c', handleMouseMove, updateRect.
    destruct (rectRef c) as [r |] eqn:E; cbv zeta.
    + rewrite E. reflexivity.
    + destruct container as [r |]; cbn [rectRef].
      * reflexivity.
      * rewrite E. reflexivity.
  - reflexivity.
  - unfold Card3DAscii.painting, sceneProps, handleMouseLeave.
    cbn [Card3DAscii.isCardHovered isHovered]. rewrite andb_false_r. reflexivity.
  - unfold Card3DAscii.painting, sceneProps, handleMouseMove, handleMouseEnter, updateRect.
    cbn [rectRef isHovered mouseUVRef Card3DAscii.shaderType Card3DAscii.enablePainting
         Card3DAscii.isCardHovered Card3DAscii.mouseUV vx vy].
    assert (Gx : geb (Qmax 0 (Qmin 1 ((x - left rect) / width rect))) 0 = true)
      by (apply geb_ge, Q.le_max_l).
    assert (Gy : geb (Qmax 0 (Qmin 1 (1 - (y - top rect) / height rect))) 0 = true)
      by (apply geb_ge, Q.le_max_l).
    rewrite Gx, Gy. rewrite !andb_true_r. reflexivity.
Qed.

Lemma card_pointer_gate_witness :
  let rect := {| left := 10; top := 20; width := 300; height := 200 |} in
  let c' := handleMouseMove (Some rect) 500 0 initial in
  mouseUVRef c' = mouseUVRef initial
  \/ (0 <= vx (mouseUVRef c') <= 1 /\ 0 <= vy (mouseUVRef c') <= 1).
Proof.
  intros rect.
  refine (proj1 (card_pointer_gate (Examples.paintingProps (V2 0.5 0.5)) initial (Some rect) rect 500 0 _)).
  intros r [H | [H | H]].
  - discriminate H.
  - injection H as <-. cbn. split; reflexivity.
  - subst r. cbn. split; reflexivity.
Defined.

End CardPointer.

(** ** Both frame callbacks and the renderer *)

Section FramesAndRenderer.
Import Glsl Three.
Context {B : Builtins}.
Variable shaderMap :
  Card3DAscii.ShaderType -> Card3DAscii.Custom.uniforms -> sampler2D -> sampler2D.

(** X30.  Every frame of either card leaves the renderer's bound target
    and its [autoClear] flag as it found them.  A frame that passes the
    guards has meanwhile drawn to the canvas with [autoClear] off; a frame
    that does not pass them changes nothing at all. *)
Theorem frames_restore_renderer
    (p3 : Card3DAscii.SceneProps) (h3 : Card3DAscii.Hooks) (s3 : Card3DAscii.State)
    (p2 : CardAsciiPattern.SceneProps) (h2 : CardAsciiPattern.Hooks)
    (s2 : CardAsciiPattern.State) :
  (let s' := Card3DAscii.useFrame shaderMap p3 h3 s3 in
   renderTarget (Card3DAscii.gl s') = renderTarget (Card3DAscii.gl s3)
   /\ autoClear (Card3DAscii.gl s') = autoClear (Card3DAscii.gl s3)
   /\ (if Card3DAscii.ready p3 s3
       then exists d rest,
              passes (Card3DAscii.gl s')
              = {| what := d; into := None; cleared := false |} :: rest
       else s' = s3))
  /\ (let s' := CardAsciiPattern.useFrame p2 h2 s2 in
      renderTarget (CardAsciiPattern.gl s') = renderTarget (CardAsciiPattern.gl s2)
      /\ autoClear (CardAsciiPattern.gl s') = autoClear (CardAsciiPattern.gl s2)
      /\ (if CardAsciiPattern.ready s2
          then exists d rest,
                 passes (CardAsciiPattern.gl s')
                 = {| what := d; into := None; cleared := false |} :: rest
          else s' = s2)).
Proof.
  split.
  - cbv zeta. unfold Card3DAscii.useFrame, reading.
    destruct (Card3DAscii.ready p3 s3); cbn [negb].
    + unfold seq. split; [reflexivity |]. split; [reflexivity |].
      eexists; eexists; reflexivity.
    + repeat split.
  - cbv zeta. unfold CardAsciiPattern.useFrame, reading.
    destruct (CardAsciiPattern.ready s2); cbn [negb].
    + unfold seq. split; [reflexivity |]. split; [reflexivity |].
      eexists; eexists; reflexivity.
    + repeat split.
Qed.

End FramesAndRenderer.
